(** * AgentBay plugin: validators, stateless client, browser bridge

    A shallow embedding of
      - [src/utils/validators.py]          (module [Validators]),
      - [src/utils/agentbay_client.py]     (module [Client]),
      - [src/utils/browser_automation.py]  (module [Bridge]),
      - [src/tools/browser_automation.py]  (module [BrowserTool]),
    with the properties of the specification stated over it. *)

From Stdlib Require Import List String Ascii ZArith NArith Bool Lia.
From Stdlib Require QArith_base DecimalString.
Import ListNotations.

Set Implicit Arguments.

(* ===================================================================== *)
(** * Python values *)
(* ===================================================================== *)

Module Py.

(** A Python [str] is a sequence of Unicode code points. *)
Definition codepoint := N.
Definition str := list codepoint.

(** An ASCII literal of the source, as a [str]. *)
Definition lit (s : string) : str :=
  map N_of_ascii (list_ascii_of_string s).

(** The values that flow through the code under study.  A [dict] keeps its
    insertion order, as Python's does; its keys are the source's literals. *)
#[warnings="-register-all"]
Inductive pyval : Type :=
| VNone
| VBool (b : bool)
| VInt (z : Z)
| VFloat (q : QArith_base.Q)
| VStr (s : str)
| VBytes (b : list N)
| VList (l : list pyval)
| VDict (d : list (string * pyval)).

Definition dict := list (string * pyval).

(** Truth value testing ([if x:], [not x], [x and y]). *)
Definition truthy (v : pyval) : bool :=
  match v with
  | VNone => false
  | VBool b => b
  | VInt z => negb (z =? 0)%Z
  | VFloat q => negb (QArith_base.Qnum q =? 0)%Z
  | VStr s => negb (Nat.eqb (List.length s) 0)
  | VBytes b => negb (Nat.eqb (List.length b) 0)
  | VList l => negb (Nat.eqb (List.length l) 0)
  | VDict d => negb (Nat.eqb (List.length d) 0)
  end.

Definition isinstance_str (v : pyval) : bool :=
  match v with VStr _ => true | _ => false end.

(** [d.get(k)] *)
Fixpoint dict_get (k : string) (d : dict) : option pyval :=
  match d with
  | [] => None
  | (k', v) :: d' => if String.eqb k k' then Some v else dict_get k d'
  end.

(** [d[k] = v]: an existing key keeps its position, a new key goes last. *)
Fixpoint dict_set (k : string) (v : pyval) (d : dict) : dict :=
  match d with
  | [] => [(k, v)]
  | (k', v') :: d' =>
      if String.eqb k k' then (k', v) :: d' else (k', v') :: dict_set k v d'
  end.

(** [d.update(e)] *)
Definition dict_update (d e : dict) : dict :=
  fold_left (fun acc kv => dict_set (fst kv) (snd kv) acc) e d.

(** [s == t] on strings. *)
Fixpoint str_eqb (s t : str) : bool :=
  match s, t with
  | [], [] => true
  | c :: s', d :: t' => (c =? d)%N && str_eqb s' t'
  | _, _ => false
  end.

(** Whether raw bytes occur anywhere inside a value. *)
Fixpoint has_bytes (v : pyval) : bool :=
  match v with
  | VBytes _ => true
  | VList l => existsb has_bytes l
  | VDict d => existsb (fun kv => has_bytes (snd kv)) d
  | _ => false
  end.

(** [s.replace(old, new)] for a one-character [old]. *)
Definition replace (old : codepoint) (new : str) (s : str) : str :=
  flat_map (fun c => if (c =? old)%N then new else [c]) s.

(** [str.isalnum] on the ASCII range: letters and digits. *)
Definition ascii_isalnum (c : codepoint) : bool :=
  ((48 <=? c) && (c <=? 57) || (65 <=? c) && (c <=? 90)
   || (97 <=? c) && (c <=? 122))%N.

Section Unicode.
(** For a code point beyond ASCII, [c.isalnum()] is read from the Unicode
    character database of the interpreter; it is taken as given. *)
Variable unicode_isalnum : codepoint -> bool.

Definition char_isalnum (c : codepoint) : bool :=
  if (c <? 128)%N then ascii_isalnum c else unicode_isalnum c.

(** [s.isalnum()]: at least one character, and all alphanumeric. *)
Definition isalnum (s : str) : bool :=
  negb (Nat.eqb (List.length s) 0) && forallb char_isalnum s.
End Unicode.

(** The Latin-1 Supplement rows of the Unicode character database
    (U+0080 to U+00FF): letters (categories Lu, Ll, Lo) and the numeric
    characters (superscripts and vulgar fractions, category No). *)
Definition latin1_isalnum (c : codepoint) : bool :=
  ((c =? 170) || (c =? 178) || (c =? 179) || (c =? 181) || (c =? 185)
   || (c =? 186) || (188 <=? c) && (c <=? 190)
   || (192 <=? c) && (c <=? 214) || (216 <=? c) && (c <=? 246)
   || (248 <=? c) && (c <=? 255))%N.

End Py.

(* ===================================================================== *)
(** * src/utils/validators.py *)
(* ===================================================================== *)

Module Validators.
Import Py.

Definition hyphen : codepoint := 45%N.
Definition underscore : codepoint := 95%N.

Section Unicode.
Variable unicode_isalnum : codepoint -> bool.

Definition validate_session_id (session_id : pyval) : bool :=
  if negb (truthy session_id) || negb (isinstance_str session_id) then false
  else
    match session_id with
    | VStr s =>
        (5 <? List.length s)%nat
        && isalnum unicode_isalnum (replace underscore [] (replace hyphen [] s))
    | _ => false
    end.
End Unicode.


End Validators.

(* ===================================================================== *)
(** * src/utils/agentbay_client.py *)
(* ===================================================================== *)

Module Client.
Import Py.

(** ** The result envelope *)

Record SimpleResult : Type := mkSimpleResult
  { success : bool;
    data : pyval;            (* [VNone] is Python's [None] *)
    error : option str }.

(** [SimpleResult(success=True, data=d)] and [SimpleResult(success=False,
    error=m)]: the omitted field takes its default, [None]. *)
Definition succeeded (d : pyval) : SimpleResult := mkSimpleResult true d None.
Definition failed (m : option str) : SimpleResult := mkSimpleResult false VNone m.

(** ** Exceptions

    The handlers of the client tell [AgentBayError] from every other
    [Exception]; [str(e)] is the message. *)
Inductive exn : Type :=
| AgentBayError (msg : str)
| Exception (msg : str).

Definition str_of_exn (e : exn) : str :=
  match e with AgentBayError m => m | Exception m => m end.

(** [f"{x}"] for an optional string: [None] prints as ["None"]. *)
Definition fmt (o : option str) : str :=
  match o with Some s => s | None => lit "None" end.

(** ** What the SDK answers

    One record per kind of answer, with the attributes the client reads.
    An attribute the client guards with [hasattr] or [getattr(_, _, default)]
    is an [option]: [None] when the object has no such attribute. *)

(** A session handle: [Session(client, session_id)], or the [.session] of
    [client.get(session_id)]. *)
Record Session : Type := mkSession { session_id : str }.

Record CreatedSession : Type :=
  { cs_session_id : str; cs_resource_url : pyval }.

Record CreateResult : Type :=
  { cr_success : bool;
    cr_session : option CreatedSession;    (* [None] is Python's [None] *)
    cr_request_id : pyval;
    cr_error_message : option str }.

Record GetSessionResult : Type :=
  { gs_success : bool;
    gs_data : option pyval;                (* hasattr(result, 'data') *)
    gs_error_message : option str }.

Record SessionResult : Type :=
  { sr_session : option Session }.         (* [None] is Python's [None] *)

Record OperationResult : Type :=
  { op_success : bool; op_error_message : option str }.

Record SessionListResult : Type :=
  { sl_type_name : str;                    (* type(result).__name__ *)
    sl_success : bool;
    sl_session_ids : option (list str);    (* hasattr(result, 'session_ids') *)
    sl_total : option Z;                   (* hasattr(result, 'total') *)
    sl_error_message : option str }.

Record CommandResult : Type :=
  { cmd_success : bool;
    cmd_output : pyval;
    cmd_error : option pyval;              (* getattr(result, 'error', None) *)
    cmd_exit_code : option pyval;          (* getattr(result, 'exit_code', None) *)
    cmd_error_message : option str }.

Record FileContentResult : Type :=
  { fc_success : bool;
    fc_content : option str;               (* [None] is Python's [None] *)
    fc_error_message : option str }.

Record DirectoryListResult : Type :=
  { dl_success : bool;
    dl_files : option (list pyval);        (* hasattr(result, 'files') *)
    dl_error_message : option str }.

Record CodeExecutionResult : Type :=
  { ce_success : bool;
    ce_result : pyval;
    ce_output : option pyval;              (* getattr(result, 'output', ...) *)
    ce_error : option pyval;               (* getattr(result, 'error', None) *)
    ce_error_message : option str }.

Record DataResult : Type :=
  { dr_success : bool; dr_data : pyval; dr_error_message : option str }.

Record ListDataResult : Type :=
  { ld_success : bool;
    ld_data : option (list pyval);         (* [None] is Python's [None] *)
    ld_error_message : option str }.

(** ** Remote calls

    Each constructor is one call of the SDK, indexed by the type of its
    answer.  The lazy construction of [self.client] happens inside the same
    [try] as the call that needs it, so a failure there is a failure of that
    call. *)
Inductive call : Type -> Type :=
| client_create (image_id : str) (labels : dict) : call CreateResult
| client_get_session (sid : str) : call GetSessionResult
| client_get (sid : str) : call SessionResult
| client_delete (session : option Session) (sync_context : bool)
  : call OperationResult
| client_list (labels : dict) (page limit : Z) : call SessionListResult
| session_command_execute_command (s : Session) (command : str) (timeout_ms : Z)
  : call CommandResult
| session_file_system_read_file (s : Session) (file_path : str)
  : call FileContentResult
| session_file_system_write_file (s : Session) (file_path content : str)
  : call OperationResult
| session_file_system_list_directory (s : Session) (directory_path : str)
  : call DirectoryListResult
| session_code_run_code (s : Session) (code language : str)
  : call CodeExecutionResult
| session_ui_screenshot (s : Session) : call DataResult
| session_ui_click (s : Session) (x y : Z) : call OperationResult
| session_ui_type (s : Session) (text : str) : call OperationResult
| session_ui_key (s : Session) (key : str) : call OperationResult
| session_browser_initialize (s : Session) : call bool
| session_browser_get_endpoint_url (s : Session) : call pyval
| session_application_get_installed_apps
    (s : Session) (start_menu desktop ignore_system_apps : bool)
  : call ListDataResult
| session_window_list_windows (s : Session) : call ListDataResult.

(** A call as it happened: what was asked, and the exception if it raised. *)
Inductive event : Type :=
| Ev (R : Type) (c : call R) (raised : option exn).

(** The remote service: any deterministic, possibly stateful, answerer.
    [W] is the state of the world outside the client. *)
Definition Backend (W : Type) : Type :=
  forall R : Type, call R -> W -> (exn + R) * W.

Record state (W : Type) : Type := mkState
  { world : W;
    calls : list event }.

(** What running a piece of client code can come to.  [Looping] stands for
    the pagination loop still running when the fuel of the model is spent. *)
Inductive outcome (A : Type) : Type :=
| Returned (a : A)
| Raised (e : exn)
| Looping.
Arguments Raised {A} e.
Arguments Looping {A}.

Section WithBackend.
Variable W : Type.
Variable B : Backend W.

(** ** The monad of client code: state of the world, log of calls,
    exceptions *)
Definition M (A : Type) : Type := state W -> outcome A * state W.

Definition ret {A} (a : A) : M A := fun s => (Returned a, s).

Definition bind {A C} (m : M A) (k : A -> M C) : M C :=
  fun s =>
    match m s with
    | (Returned a, s') => k a s'
    | (Raised e, s') => (Raised e, s')
    | (Looping, s') => (Looping, s')
    end.

Definition raise {A} (e : exn) : M A := fun s => (Raised e, s).

Definition out_of_fuel {A} : M A := fun s => (Looping, s).

(** [try: body  except ... as e: handler(e)] *)
Definition try_except {A} (body : M A) (handler : exn -> M A) : M A :=
  fun s =>
    match body s with
    | (Raised e, s') => handler e s'
    | r => r
    end.

(** Performing a remote call: the world answers or raises, and the call is
    logged. *)
Definition remote {R} (c : call R) : M R :=
  fun s =>
    match B c (world s) with
    | (inl e, w') => (Raised e, mkState w' (calls s ++ [Ev c (Some e)]))
    | (inr r, w') => (Returned r, mkState w' (calls s ++ [Ev c None]))
    end.

Notation "x <- m ;; k" := (bind m (fun x => k))
  (at level 100, m at next level, right associativity).

(** The [AttributeError] of the interpreter for an object of type
    [type_name] that has no attribute [name]. *)
Definition attribute_error (type_name : str) (name : string) : exn :=
  Exception (lit "'" ++ type_name ++ lit "' object has no attribute '"
               ++ lit name ++ lit "'").

(** Reading the attribute [name] of a value that may be [None]. *)
Definition attr {A C} (o : option A) (name : string) (k : A -> M C) : M C :=
  match o with
  | Some a => k a
  | None => raise (attribute_error (lit "NoneType") name)
  end.

(** Reading, of an object of type [type_name], an attribute [name] that it
    may not have. *)
Definition attr_of {A C} (type_name : str) (o : option A) (name : string)
    (k : A -> M C) : M C :=
  match o with
  | Some a => k a
  | None => raise (attribute_error type_name name)
  end.

(** ** The operations *)

Definition dify_labels : dict := [("dify_plugin"%string, VStr (lit "true"))].

Definition create_session (image_id : str) : M SimpleResult :=
  try_except
    (result <- remote (client_create image_id dify_labels) ;;
     if cr_success result then
       attr (cr_session result) "session_id" (fun session =>
       ret (succeeded (VDict
         [ ("session_id"%string, VStr (cs_session_id session));
           ("image_id"%string, VStr image_id);
           ("status"%string, VStr (lit "created"));
           ("request_id"%string, cr_request_id result);
           ("resource_url"%string, cs_resource_url session) ])))
     else
       ret (failed (cr_error_message result)))
    (fun e =>
       match e with
       | AgentBayError m => ret (failed (Some (lit "AgentBay API error: " ++ m)))
       | Exception m => ret (failed (Some (lit "Unknown error: " ++ m)))
       end).

Definition get_session_info (sid : str) : M SimpleResult :=
  try_except
    (result <- remote (client_get_session sid) ;;
     if negb (gs_success result) then
       ret (failed (Some (lit "Failed to query session info: "
                            ++ fmt (gs_error_message result))))
     else
       match gs_data result with
       | Some d =>
           if truthy d then ret (succeeded d)
           else ret (failed (Some (lit "Session " ++ sid
                                     ++ lit " does not exist or is inaccessible")))
       | None =>
           ret (failed (Some (lit "Session " ++ sid
                                ++ lit " does not exist or is inaccessible")))
       end)
    (fun e =>
       ret (failed (Some (lit "Failed to get session info: " ++ str_of_exn e)))).

(** [getattr(result, name, default)] *)
Definition getattr (o : option pyval) (default : pyval) : pyval :=
  match o with Some v => v | None => default end.

(** The shape every session-acting operation ends with:
    [SimpleResult(success=ok, data=d if ok else None,
                  error=msg if not ok else None)]. *)
Definition envelope (ok : bool) (d : pyval) (msg : option str) : SimpleResult :=
  mkSimpleResult ok (if ok then d else VNone) (if negb ok then msg else None).

Definition execute_command (sid command : str) (timeout_ms : Z) : M SimpleResult :=
  try_except
    (session_info <- get_session_info sid ;;
     if negb (success session_info) then ret session_info
     else
       let session := mkSession sid in
       result <- remote (session_command_execute_command session command timeout_ms) ;;
       ret (envelope (cmd_success result)
              (VDict [ ("output"%string, cmd_output result);
                       ("error"%string, getattr (cmd_error result) VNone);
                       ("exit_code"%string, getattr (cmd_exit_code result) VNone) ])
              (cmd_error_message result)))
    (fun e =>
       ret (failed (Some (lit "Command execution failed: " ++ str_of_exn e)))).

Definition delete_session (sid : str) (sync_context : bool) : M SimpleResult :=
  try_except
    (session_info <- get_session_info sid ;;
     if negb (success session_info) then ret session_info
     else
       got <- remote (client_get sid) ;;
       let session := sr_session got in
       result <- remote (client_delete session sync_context) ;;
       ret (envelope (op_success result)
              (VDict [ ("session_id"%string, VStr sid);
                       ("deleted"%string, VBool true) ])
              (op_error_message result)))
    (fun e =>
       ret (failed (Some (lit "Session deletion failed: " ++ str_of_exn e)))).

(** The truth value of a list: it has an element. *)
Definition nonempty {A} (l : list A) : bool :=
  match l with [] => false | _ :: _ => true end.

(** One session id of the listing, as [list_sessions] reports it. *)
Definition session_entry (sid : str) : pyval :=
  VDict [ ("session_id"%string, VStr sid); ("status"%string, VStr (lit "active")) ].

(** The [while True:] loop of [list_sessions].  It ends by [return] inside
    the loop ([inl]) or by [break], with the ids gathered so far ([inr]). *)
Fixpoint list_sessions_loop (fuel : nat) (page : Z) (all_session_ids : list str)
  : M (SimpleResult + list str) :=
  match fuel with
  | O => out_of_fuel
  | S fuel' =>
      result <- remote (client_list dify_labels page 100) ;;
      if negb (sl_success result) then
        ret (inl (failed (Some (lit "Failed to query session list: "
                                  ++ fmt (sl_error_message result)))))
      else
        let all_session_ids :=
          match sl_session_ids result with
          | Some ids =>
              if nonempty ids then all_session_ids ++ ids else all_session_ids
          | None => all_session_ids
          end in
        total <- match sl_total result with
                 | Some t => ret t
                 | None =>
                     attr_of (sl_type_name result) (sl_session_ids result)
                       "session_ids"
                       (fun ids => ret (Z.of_nat (List.length ids)))
                 end ;;
        stop <- (if (total <=? Z.of_nat (List.length all_session_ids))%Z
                 then ret true
                 else attr_of (sl_type_name result) (sl_session_ids result)
                        "session_ids"
                        (fun ids => ret (negb (nonempty ids)))) ;;
        if (stop : bool) then ret (inr all_session_ids)
        else list_sessions_loop fuel' (page + 1)%Z all_session_ids
  end.

Definition list_sessions (fuel : nat) : M SimpleResult :=
  try_except
    (r <- list_sessions_loop fuel 1%Z [] ;;
     match r with
     | inl early => ret early
     | inr all_session_ids =>
         let session_list := map session_entry all_session_ids in
         ret (succeeded (VDict
           [ ("sessions"%string, VList session_list);
             ("count"%string, VInt (Z.of_nat (List.length session_list))) ]))
     end)
    (fun e =>
       ret (failed (Some (lit "Failed to list sessions: " ++ str_of_exn e)))).

(** [len(x) if x else 0] for an optional string or list. *)
Definition len_or_zero {A} (o : option (list A)) : Z :=
  match o with Some l => Z.of_nat (List.length l) | None => 0%Z end.

Definition opt_str (o : option str) : pyval :=
  match o with Some s => VStr s | None => VNone end.

Definition opt_list (o : option (list pyval)) : pyval :=
  match o with Some l => VList l | None => VNone end.

Definition read_file (sid file_path : str) : M SimpleResult :=
  try_except
    (session_info <- get_session_info sid ;;
     if negb (success session_info) then ret session_info
     else
       got <- remote (client_get sid) ;;
       attr (sr_session got) "file_system" (fun session =>
       result <- remote (session_file_system_read_file session file_path) ;;
       ret (envelope (fc_success result)
              (VDict [ ("file_path"%string, VStr file_path);
                       ("content"%string, opt_str (fc_content result));
                       ("size"%string, VInt (len_or_zero (fc_content result))) ])
              (fc_error_message result))))
    (fun e => ret (failed (Some (lit "Failed to read file: " ++ str_of_exn e)))).

Definition write_file (sid file_path content : str) : M SimpleResult :=
  try_except
    (session_info <- get_session_info sid ;;
     if negb (success session_info) then ret session_info
     else
       let session := mkSession sid in
       result <- remote (session_file_system_write_file session file_path content) ;;
       ret (envelope (op_success result)
              (VDict [ ("file_path"%string, VStr file_path);
                       ("size"%string, VInt (Z.of_nat (List.length content))) ])
              (op_error_message result)))
    (fun e => ret (failed (Some (lit "Failed to write file: " ++ str_of_exn e)))).

Definition list_directory (sid directory_path : str) : M SimpleResult :=
  try_except
    (session_info <- get_session_info sid ;;
     if negb (success session_info) then ret session_info
     else
       got <- remote (client_get sid) ;;
       attr (sr_session got) "file_system" (fun session =>
       result <- remote (session_file_system_list_directory session directory_path) ;;
       ret (envelope (dl_success result)
              (VDict [ ("directory_path"%string, VStr directory_path);
                       ("files"%string,
                         match dl_files result with Some l => VList l | None => VList [] end);
                       ("count"%string, VInt (len_or_zero (dl_files result))) ])
              (dl_error_message result))))
    (fun e => ret (failed (Some (lit "Failed to list directory: " ++ str_of_exn e)))).

Definition run_code (sid code language : str) : M SimpleResult :=
  try_except
    (session_info <- get_session_info sid ;;
     if negb (success session_info) then ret session_info
     else
       got <- remote (client_get sid) ;;
       attr (sr_session got) "code" (fun session =>
       result <- remote (session_code_run_code session code language) ;;
       ret (envelope (ce_success result)
              (VDict [ ("language"%string, VStr language);
                       ("result"%string, ce_result result);
                       ("output"%string, getattr (ce_output result) (ce_result result));
                       ("error"%string, getattr (ce_error result) VNone) ])
              (ce_error_message result))))
    (fun e => ret (failed (Some (lit "Code execution failed: " ++ str_of_exn e)))).

Definition ui_screenshot (sid : str) : M SimpleResult :=
  try_except
    (session_info <- get_session_info sid ;;
     if negb (success session_info) then ret session_info
     else
       got <- remote (client_get sid) ;;
       attr (sr_session got) "ui" (fun session =>
       result <- remote (session_ui_screenshot session) ;;
       ret (envelope (dr_success result) (dr_data result) (dr_error_message result))))
    (fun e => ret (failed (Some (lit "UI screenshot failed: " ++ str_of_exn e)))).

Definition ui_click (sid : str) (x y : Z) : M SimpleResult :=
  try_except
    (session_info <- get_session_info sid ;;
     if negb (success session_info) then ret session_info
     else
       got <- remote (client_get sid) ;;
       attr (sr_session got) "ui" (fun session =>
       result <- remote (session_ui_click session x y) ;;
       ret (envelope (op_success result)
              (VDict [ ("action"%string, VStr (lit "click"));
                       ("x"%string, VInt x); ("y"%string, VInt y) ])
              (op_error_message result))))
    (fun e => ret (failed (Some (lit "UI click failed: " ++ str_of_exn e)))).

Definition ui_type (sid text : str) : M SimpleResult :=
  try_except
    (session_info <- get_session_info sid ;;
     if negb (success session_info) then ret session_info
     else
       got <- remote (client_get sid) ;;
       attr (sr_session got) "ui" (fun session =>
       result <- remote (session_ui_type session text) ;;
       ret (envelope (op_success result)
              (VDict [ ("action"%string, VStr (lit "type"));
                       ("text"%string, VStr text) ])
              (op_error_message result))))
    (fun e => ret (failed (Some (lit "UI type failed: " ++ str_of_exn e)))).

Definition ui_key (sid key : str) : M SimpleResult :=
  try_except
    (session_info <- get_session_info sid ;;
     if negb (success session_info) then ret session_info
     else
       got <- remote (client_get sid) ;;
       attr (sr_session got) "ui" (fun session =>
       result <- remote (session_ui_key session key) ;;
       ret (envelope (op_success result)
              (VDict [ ("action"%string, VStr (lit "key"));
                       ("key"%string, VStr key) ])
              (op_error_message result))))
    (fun e => ret (failed (Some (lit "UI key press failed: " ++ str_of_exn e)))).

Definition browser_initialize (sid : str) : M SimpleResult :=
  try_except
    (session_info <- get_session_info sid ;;
     if negb (success session_info) then ret session_info
     else
       got <- remote (client_get sid) ;;
       attr (sr_session got) "browser" (fun session =>
       result <- remote (session_browser_initialize session) ;;
       if (result : bool) then
         endpoint_url <- remote (session_browser_get_endpoint_url session) ;;
         ret (succeeded (VDict [ ("initialized"%string, VBool true);
                                 ("endpoint_url"%string, endpoint_url) ]))
       else
         ret (failed (Some (lit "Browser initialization failed")))))
    (fun e =>
       ret (failed (Some (lit "Browser initialization failed: " ++ str_of_exn e)))).

Definition get_installed_apps (sid : str)
    (start_menu desktop ignore_system_apps : bool) : M SimpleResult :=
  try_except
    (session_info <- get_session_info sid ;;
     if negb (success session_info) then ret session_info
     else
       got <- remote (client_get sid) ;;
       attr (sr_session got) "application" (fun session =>
       result <- remote (session_application_get_installed_apps
                           session start_menu desktop ignore_system_apps) ;;
       ret (envelope (ld_success result)
              (VDict [ ("apps"%string, opt_list (ld_data result));
                       ("count"%string, VInt (len_or_zero (ld_data result))) ])
              (ld_error_message result))))
    (fun e => ret (failed (Some (lit "Failed to get app list: " ++ str_of_exn e)))).

Definition list_windows (sid : str) : M SimpleResult :=
  try_except
    (session_info <- get_session_info sid ;;
     if negb (success session_info) then ret session_info
     else
       got <- remote (client_get sid) ;;
       attr (sr_session got) "window" (fun session =>
       result <- remote (session_window_list_windows session) ;;
       ret (envelope (ld_success result)
              (VDict [ ("windows"%string, opt_list (ld_data result));
                       ("count"%string, VInt (len_or_zero (ld_data result))) ])
              (ld_error_message result))))
    (fun e => ret (failed (Some (lit "Failed to list windows: " ++ str_of_exn e)))).

End WithBackend.

(** ** The public operations, as one type *)

Inductive operation : Type :=
| op_create_session (image_id : str)
| op_get_session_info (sid : str)
| op_execute_command (sid command : str) (timeout_ms : Z)
| op_delete_session (sid : str) (sync_context : bool)
| op_list_sessions
| op_read_file (sid file_path : str)
| op_write_file (sid file_path content : str)
| op_list_directory (sid directory_path : str)
| op_run_code (sid code language : str)
| op_ui_screenshot (sid : str)
| op_ui_click (sid : str) (x y : Z)
| op_ui_type (sid text : str)
| op_ui_key (sid key : str)
| op_browser_initialize (sid : str)
| op_get_installed_apps (sid : str) (start_menu desktop ignore_system_apps : bool)
| op_list_windows (sid : str).

Definition perform {W} (B : Backend W) (fuel : nat) (o : operation)
  : M W SimpleResult :=
  match o with
  | op_create_session image_id => create_session B image_id
  | op_get_session_info sid => get_session_info B sid
  | op_execute_command sid command timeout_ms =>
      execute_command B sid command timeout_ms
  | op_delete_session sid sync_context => delete_session B sid sync_context
  | op_list_sessions => list_sessions B fuel
  | op_read_file sid file_path => read_file B sid file_path
  | op_write_file sid file_path content => write_file B sid file_path content
  | op_list_directory sid directory_path => list_directory B sid directory_path
  | op_run_code sid code language => run_code B sid code language
  | op_ui_screenshot sid => ui_screenshot B sid
  | op_ui_click sid x y => ui_click B sid x y
  | op_ui_type sid text => ui_type B sid text
  | op_ui_key sid key => ui_key B sid key
  | op_browser_initialize sid => browser_initialize B sid
  | op_get_installed_apps sid start_menu desktop ignore_system_apps =>
      get_installed_apps B sid start_menu desktop ignore_system_apps
  | op_list_windows sid => list_windows B sid
  end.

(** The session an operation acts on, for those that check it first. *)
Definition acts_on (o : operation) : option str :=
  match o with
  | op_create_session _ | op_get_session_info _ | op_list_sessions => None
  | op_execute_command sid _ _ | op_delete_session sid _ | op_read_file sid _
  | op_write_file sid _ _ | op_list_directory sid _ | op_run_code sid _ _
  | op_ui_screenshot sid | op_ui_click sid _ _ | op_ui_type sid _
  | op_ui_key sid _ | op_browser_initialize sid
  | op_get_installed_apps sid _ _ _ | op_list_windows sid => Some sid
  end.

(** A call of the client from a fresh log. *)
Definition run {W A} (m : M W A) (w : W) : outcome A * state W :=
  m (mkState w []).

End Client.

(* ===================================================================== *)
(** * src/utils/browser_automation.py *)
(* ===================================================================== *)

Module Bridge.
Import Py.

(** [data: Optional[Dict[str, Any]]] *)
Record BrowserActionResult : Type := mkBrowserActionResult
  { success : bool;
    data : option dict;
    error : option str }.

Definition succeeded (d : dict) : BrowserActionResult :=
  mkBrowserActionResult true (Some d) None.
Definition failed (m : str) : BrowserActionResult :=
  mkBrowserActionResult false None (Some m).

(** [AgentBayBrowserAutomation.screenshot].  [page] tells whether
    [self.page] is set; [connect_result] is what [self.connect()] returns
    when it is called; [shot] is what the driver's [page.screenshot] does:
    the image bytes, or an exception with its message. *)
Definition screenshot (page : bool) (connect_result : BrowserActionResult)
    (shot : str + list N) (full_page : bool) : BrowserActionResult :=
  if negb page && negb (success connect_result) then connect_result
  else
    match shot with
    | inr screenshot_data =>
        succeeded
          [ ("screenshot_data"%string, VBytes screenshot_data);
            ("format"%string, VStr (lit "png"));
            ("full_page"%string, VBool full_page);
            ("size"%string, VInt (Z.of_nat (List.length screenshot_data))) ]
    | inl e => failed (lit "Screenshot failed: " ++ e)
    end.

(** ** Time

    What a piece of asynchronous code comes to, seen from outside: it
    completes [t] seconds after it was started, or it never does. *)
Inductive timed (A : Type) : Type :=
| Never
| After (t : N) (a : A).
Arguments Never {A}.

(** The coroutine [_run] of [run_browser_action]: construct the automation
    object (which raises when the driver library is missing), await the
    action, and in [finally] await [automation.close()], which catches its
    own exceptions.  [action] is what awaiting the action comes to: a result
    or an exception (its message), or never. *)
Definition _run (playwright_available : bool)
    (action : timed (str + BrowserActionResult)) (close : timed unit)
  : timed (str + BrowserActionResult) :=
  if negb playwright_available then
    After 0 (inl (lit "Playwright not installed, please run: pip install playwright"))
  else
    match action with
    | Never => Never
    | After t1 r =>
        match close with
        | Never => Never
        | After t2 _ => After (t1 + t2) r
        end
    end.

(** [future.result(timeout)]: when it returns or raises, and what.  The
    [TimeoutError] it raises carries no message. *)
Definition future_result {A} (timeout : N) (worker : timed (str + A))
  : N * (str + A) :=
  match worker with
  | After t r => if (t <=? timeout)%N then (t, r) else (timeout, inl [])
  | Never => (timeout, inl [])
  end.

(** Leaving [with ThreadPoolExecutor() as executor:] calls
    [executor.shutdown(wait=True)], which joins the worker thread. *)
Definition executor_exit {A} (worker : timed A) (now : N) : timed unit :=
  match worker with
  | Never => Never
  | After t _ => After (N.max now t) tt
  end.

(** [run_browser_action]: when it returns, and what; [Never] when it does
    not return. *)
Definition run_browser_action (playwright_available : bool)
    (action : timed (str + BrowserActionResult)) (close : timed unit)
  : timed BrowserActionResult :=
  let worker := _run playwright_available action close in
  let (t, r) := future_result 60 worker in
  match executor_exit worker t with
  | Never => Never
  | After t' _ =>
      After t'
        match r with
        | inr result => result
        | inl e => failed (lit "Failed to run browser operation: " ++ e)
        end
  end.

End Bridge.

(* ===================================================================== *)
(** * src/tools/browser_automation.py *)
(* ===================================================================== *)

Module BrowserTool.
Import Py.

(** The messages of [BrowserAutomationTool._invoke] that carry a result:
    the binary attachment and the JSON echo. *)
Inductive ToolInvokeMessage : Type :=
| blob_message (blob : pyval) (meta : dict)
| json_message (d : dict).

(** The truth value of [result.data]: a dict with an entry. *)
Definition data_truthy (d : option dict) : bool :=
  match d with Some (_ :: _) => true | _ => false end.

(** [result.data or {}] *)
Definition data_or_empty (d : option dict) : dict :=
  match d with Some d' => d' | None => [] end.

(** [d.get(k)], with Python's [None] for a missing key. *)
Definition get (k : string) (d : dict) : pyval :=
  match dict_get k d with Some v => v | None => VNone end.

(** [_invoke], the success branch: the blob message of a screenshot
    ([if action == 'screenshot' and result.data and isinstance(result.data,
    dict) and result.data.get('screenshot_data'): yield create_blob_message]). *)
Definition blob_messages (action : str) (data : option dict)
  : list ToolInvokeMessage :=
  if str_eqb action (lit "screenshot") && data_truthy data
     && truthy (get "screenshot_data" (data_or_empty data))
  then
    let screenshot_data := get "screenshot_data" (data_or_empty data) in
    [ blob_message screenshot_data
        [ ("mime_type"%string, VStr (lit "image/png"));
          ("filename"%string, VStr (lit "screenshot.png")) ] ]
  else [].

(** [_invoke], the success branch: the dict [response_data] handed to
    [create_json_message]. *)
Definition response_data (session_id action : str) (operation_time : QArith_base.Q)
    (data : option dict) : dict :=
  let response_data :=
    [ ("session_id"%string, VStr session_id);
      ("action"%string, VStr action);
      ("success"%string, VBool true);
      ("operation_time"%string, VFloat operation_time) ] in
  if str_eqb action (lit "screenshot") && data_truthy data then
    let json_data :=
      filter (fun kv => negb (String.eqb (fst kv) "screenshot_data"))
        (data_or_empty data) in
    dict_update response_data json_data
  else
    dict_update response_data (data_or_empty data).

(** [_invoke], the failure branch: the dict handed to [create_json_message]. *)
Definition failure_data (session_id action : str) (operation_time : QArith_base.Q)
    (error : option str) : dict :=
  [ ("session_id"%string, VStr session_id);
    ("action"%string, VStr action);
    ("success"%string, VBool false);
    ("error"%string, match error with Some e => VStr e | None => VNone end);
    ("operation_time"%string, VFloat operation_time) ].

(** The result-carrying messages of [_invoke] for the result of an
    operation, in the order they are yielded. *)
Definition result_messages (session_id action : str) (operation_time : QArith_base.Q)
    (result : Bridge.BrowserActionResult) : list ToolInvokeMessage :=
  if Bridge.success result then
    blob_messages action (Bridge.data result)
      ++ [ json_message
             (response_data session_id action operation_time (Bridge.data result)) ]
  else
    [ json_message
        (failure_data session_id action operation_time (Bridge.error result)) ].

(** [_execute_playwright_operation], up to the endpoint: either what it
    returns at once, or the endpoint it goes on with. *)
Definition endpoint_of (browser_init_result : Client.SimpleResult)
  : Client.SimpleResult + pyval :=
  if negb (Client.success browser_init_result) then inl browser_init_result
  else
    let endpoint_url :=
      match Client.data browser_init_result with
      | VDict d => get "endpoint_url" d
      | _ => VNone
      end in
    if negb (truthy endpoint_url) then
      inl (Client.failed (Some (lit "Unable to get browser endpoint URL")))
    else inr endpoint_url.

End BrowserTool.

(* ===================================================================== *)
(** * The vocabulary of the client's properties *)
(* ===================================================================== *)

Module ClientSpec.
Import Py Client.

(** The invariant of the envelope: a success carries no error, a failure
    carries no data. *)
Definition envelope_ok (r : SimpleResult) : Prop :=
  (success r = true -> error r = None)
  /\ (success r = false -> data r = VNone).

(** The exceptions that the remote calls of a log raised, in order. *)
Definition raised (evs : list event) : list exn :=
  flat_map (fun ev => match ev with
                      | Ev _ (Some e) => [e]
                      | Ev _ None => []
                      end) evs.

(** The words an operation puts before the message of an exception it
    caught.  An operation that checks its session first can also hand back
    the failure of the lookup, worded by [get_session_info]. *)
Definition lookup_prefix : str := lit "Failed to get session info: ".

Definition error_prefixes (o : operation) : list str :=
  match o with
  | op_create_session _ => [lit "AgentBay API error: "; lit "Unknown error: "]
  | op_get_session_info _ => [lookup_prefix]
  | op_execute_command _ _ _ => [lookup_prefix; lit "Command execution failed: "]
  | op_delete_session _ _ => [lookup_prefix; lit "Session deletion failed: "]
  | op_list_sessions => [lit "Failed to list sessions: "]
  | op_read_file _ _ => [lookup_prefix; lit "Failed to read file: "]
  | op_write_file _ _ _ => [lookup_prefix; lit "Failed to write file: "]
  | op_list_directory _ _ => [lookup_prefix; lit "Failed to list directory: "]
  | op_run_code _ _ _ => [lookup_prefix; lit "Code execution failed: "]
  | op_ui_screenshot _ => [lookup_prefix; lit "UI screenshot failed: "]
  | op_ui_click _ _ _ => [lookup_prefix; lit "UI click failed: "]
  | op_ui_type _ _ => [lookup_prefix; lit "UI type failed: "]
  | op_ui_key _ _ => [lookup_prefix; lit "UI key press failed: "]
  | op_browser_initialize _ => [lookup_prefix; lit "Browser initialization failed: "]
  | op_get_installed_apps _ _ _ _ => [lookup_prefix; lit "Failed to get app list: "]
  | op_list_windows _ => [lookup_prefix; lit "Failed to list windows: "]
  end.

(** A failed envelope that describes the exception [e]: its error is one of
    the operation's prefixes followed by the message of [e]. *)
Definition describes (o : operation) (e : exn) (r : SimpleResult) : Prop :=
  success r = false
  /\ data r = VNone
  /\ exists prefix : str,
       In prefix (error_prefixes o)
       /\ prefix <> []
       /\ error r = Some (prefix ++ str_of_exn e).

(** The request for one page of the listing, as [list_sessions] logs it when
    it is answered. *)
Definition page_request (page : Z) : event :=
  Ev (client_list dify_labels page 100) None.

(** In world [w] the service answers the request for [page] with the ids
    [ids] and the total [total], and moves to [w']. *)
Definition answers_page {W} (B : Backend W) (w : W) (page : Z)
    (ids : list str) (total : Z) (w' : W) : Prop :=
  exists result : SessionListResult,
    B _ (client_list dify_labels page 100) w = (inr result, w')
    /\ sl_success result = true
    /\ sl_session_ids result = Some ids
    /\ sl_total result = Some total.

(** The envelope of a listing of [ids]. *)
Definition listing (ids : list str) : SimpleResult :=
  succeeded (VDict
    [ ("sessions"%string, VList (map session_entry ids));
      ("count"%string, VInt (Z.of_nat (List.length ids))) ]).

(** A logged call that is a request of the listing, with the label
    [labels]. *)
Definition lists_with (labels : dict) (ev : event) : Prop :=
  exists (page : Z) (x : option exn), ev = Ev (client_list labels page 100) x.

End ClientSpec.

(* ===================================================================== *)
(** * Stand-ins for the remote service, to run the client against *)
(* ===================================================================== *)

Module Doubles.
Import Py Client.

(** The id of the [n]-th session of the account: "sess-0", "sess-1", ... *)
Definition nth_session_id (n : nat) : str :=
  lit ("sess-" ++ DecimalString.NilEmpty.string_of_uint (Nat.to_uint n)).

(** An account of 250 sessions, listed 100 to a page. *)
Definition page_of_250 (page : Z) : list str :=
  if (page =? 1)%Z then map nth_session_id (seq 0 100)
  else if (page =? 2)%Z then map nth_session_id (seq 100 100)
  else if (page =? 3)%Z then map nth_session_id (seq 200 50)
  else [].

Definition unsupported {R : Type} : exn + R :=
  inl (Exception (lit "unsupported")).

Definition paged_backend : Backend unit :=
  fun R c w =>
    match c in call R return (exn + R) * unit with
    | client_list _ page _ =>
        (inr {| sl_type_name := lit "SessionListResult";
                sl_success := true;
                sl_session_ids := Some (page_of_250 page);
                sl_total := Some 250%Z;
                sl_error_message := None |}, w)
    | _ => (unsupported, w)
    end.

(** A service on which every session exists and every call succeeds; its
    browser gives the empty string for an endpoint. *)
Definition obliging_backend : Backend unit :=
  fun R c w =>
    match c in call R return (exn + R) * unit with
    | client_create image_id labels =>
        (inr {| cr_success := true;
                cr_session := Some {| cs_session_id := lit "sess-0";
                                      cs_resource_url := VStr (lit "https://host/sess-0") |};
                cr_request_id := VStr (lit "req-1");
                cr_error_message := None |}, w)
    | client_get_session sid =>
        (inr {| gs_success := true;
                gs_data := Some (VDict [("session_id"%string, VStr sid)]);
                gs_error_message := None |}, w)
    | client_get sid => (inr {| sr_session := Some (mkSession sid) |}, w)
    | session_browser_initialize _ => (inr true, w)
    | session_browser_get_endpoint_url _ => (inr (VStr []), w)
    | _ => (unsupported, w)
    end.

(** A service that knows no session: the lookup answers, without data. *)
Definition empty_backend : Backend unit :=
  fun R c w =>
    match c in call R return (exn + R) * unit with
    | client_get_session sid =>
        (inr {| gs_success := true; gs_data := None; gs_error_message := None |}, w)
    | _ => (unsupported, w)
    end.

(** A service whose listing never ends: every page holds one id, and the
    total it reports is always one more than the ids handed out so far. *)
Definition endless_backend : Backend unit :=
  fun R c w =>
    match c in call R return (exn + R) * unit with
    | client_list _ page _ =>
        (inr {| sl_type_name := lit "SessionListResult";
                sl_success := true;
                sl_session_ids := Some [nth_session_id (Z.to_nat page)];
                sl_total := Some (page + 1)%Z;
                sl_error_message := None |}, w)
    | _ => (unsupported, w)
    end.

(** A service that cannot be reached: every call raises. *)
Definition unreachable_backend : Backend unit :=
  fun R c w => (inl (Exception (lit "connection refused")), w).

End Doubles.

(* ===================================================================== *)
(** * More vocabulary: what each operation may ask, and paged listings *)
(* ===================================================================== *)

Module ClientScript.
Import Py Client.

(** The remote calls an operation may issue, with the arguments it may give
    them.  An operation that builds its handle itself ([Session(client,
    session_id)]) acts on that handle; one that takes the handle from
    [client.get] acts on whatever handle it was given. *)
Definition permitted (o : operation) (ev : event) : Prop :=
  match ev with
  | Ev c _ =>
      match o, c with
      | op_create_session image_id, client_create i labels =>
          i = image_id /\ labels = dify_labels
      | op_get_session_info sid, client_get_session s => s = sid
      | op_execute_command sid _ _, client_get_session s => s = sid
      | op_execute_command sid command timeout_ms,
        session_command_execute_command s c' t' =>
          s = mkSession sid /\ c' = command /\ t' = timeout_ms
      | op_delete_session sid _, client_get_session s => s = sid
      | op_delete_session sid _, client_get s => s = sid
      | op_delete_session _ sync_context, client_delete _ sync =>
          sync = sync_context
      | op_list_sessions, client_list labels page limit =>
          labels = dify_labels /\ (1 <= page)%Z /\ limit = 100%Z
      | op_read_file sid _, client_get_session s => s = sid
      | op_read_file sid _, client_get s => s = sid
      | op_read_file _ file_path, session_file_system_read_file _ p =>
          p = file_path
      | op_write_file sid _ _, client_get_session s => s = sid
      | op_write_file sid file_path content,
        session_file_system_write_file s p c' =>
          s = mkSession sid /\ p = file_path /\ c' = content
      | op_list_directory sid _, client_get_session s => s = sid
      | op_list_directory sid _, client_get s => s = sid
      | op_list_directory _ directory_path,
        session_file_system_list_directory _ p => p = directory_path
      | op_run_code sid _ _, client_get_session s => s = sid
      | op_run_code sid _ _, client_get s => s = sid
      | op_run_code _ code language, session_code_run_code _ c' l =>
          c' = code /\ l = language
      | op_ui_screenshot sid, client_get_session s => s = sid
      | op_ui_screenshot sid, client_get s => s = sid
      | op_ui_screenshot _, session_ui_screenshot _ => True
      | op_ui_click sid _ _, client_get_session s => s = sid
      | op_ui_click sid _ _, client_get s => s = sid
      | op_ui_click _ x y, session_ui_click _ x' y' => x' = x /\ y' = y
      | op_ui_type sid _, client_get_session s => s = sid
      | op_ui_type sid _, client_get s => s = sid
      | op_ui_type _ text, session_ui_type _ t => t = text
      | op_ui_key sid _, client_get_session s => s = sid
      | op_ui_key sid _, client_get s => s = sid
      | op_ui_key _ key, session_ui_key _ k => k = key
      | op_browser_initialize sid, client_get_session s => s = sid
      | op_browser_initialize sid, client_get s => s = sid
      | op_browser_initialize _, session_browser_initialize _ => True
      | op_browser_initialize _, session_browser_get_endpoint_url _ => True
      | op_get_installed_apps sid _ _ _, client_get_session s => s = sid
      | op_get_installed_apps sid _ _ _, client_get s => s = sid
      | op_get_installed_apps _ start_menu desktop ignore_system_apps,
        session_application_get_installed_apps _ a b c' =>
          a = start_menu /\ b = desktop /\ c' = ignore_system_apps
      | op_list_windows sid, client_get_session s => s = sid
      | op_list_windows sid, client_get s => s = sid
      | op_list_windows _, session_window_list_windows _ => True
      | _, _ => False
      end
  end.

(** The most calls an operation issues; the listing has no bound. *)
Definition call_budget (o : operation) : nat :=
  match o with
  | op_create_session _ | op_get_session_info _ => 1
  | op_execute_command _ _ _ | op_write_file _ _ _ => 2
  | op_browser_initialize _ => 4
  | _ => 3
  end.

(** A log in which at most one call raised, and that one last. *)
Definition raises_at_most_last (evs : list event) : Prop :=
  ClientSpec.raised evs = []
  \/ exists (front : list event) (R : Type) (c : call R) (e : exn),
       evs = front ++ [Ev c (Some e)] /\ ClientSpec.raised front = [].

End ClientScript.

Module Paging.
Import Py Client ClientSpec.

Section Pages.
(** A run of the listing seen from outside: page [j + 1] is asked in world
    [ws j], answered with the ids [ids j] and the total [tot j], and leaves
    the world [ws (j + 1)]. *)
Variable W : Type.
Variable ws : nat -> W.
Variable ids : nat -> list str.
Variable tot : nat -> Z.

(** The ids of the first [n] pages. *)
Definition gathered (n : nat) : list str := List.concat (map ids (seq 0 n)).

(** Whether the loop ends on page [j + 1]. *)
Definition stops (j : nat) : bool :=
  (tot j <=? Z.of_nat (List.length (gathered (S j))))%Z || negb (nonempty (ids j)).

(** The number of page [j + 1]. *)
Definition page_number (j : nat) : Z := Z.of_nat (S j).

(** The requests for pages [j + 1], ..., [j + d], in order. *)
Definition page_requests (j d : nat) : list event :=
  map (fun i => page_request (page_number i)) (seq j d).

Definition answered (B : Backend W) (j : nat) : Prop :=
  answers_page B (ws j) (page_number j) (ids j) (tot j) (ws (S j)).
End Pages.

End Paging.

Module MoreDoubles.
Import Py Client Doubles.

(** A service whose listing answers the first page and reports a failure on
    the second. *)
Definition failing_second_page_backend : Backend unit :=
  fun R c w =>
    match c in call R return (exn + R) * unit with
    | client_list _ page _ =>
        (inr {| sl_type_name := lit "SessionListResult";
                sl_success := (page =? 1)%Z;
                sl_session_ids := Some (page_of_250 page);
                sl_total := Some 250%Z;
                sl_error_message := Some (lit "quota exceeded") |}, w)
    | _ => (unsupported, w)
    end.

(** A service whose listing answers carry no [total]. *)
Definition untotalled_backend : Backend unit :=
  fun R c w =>
    match c in call R return (exn + R) * unit with
    | client_list _ page _ =>
        (inr {| sl_type_name := lit "SessionListResult";
                sl_success := true;
                sl_session_ids := Some (page_of_250 page);
                sl_total := None;
                sl_error_message := None |}, w)
    | _ => (unsupported, w)
    end.

End MoreDoubles.

(* ===================================================================== *)
(** * Regular expressions and text, as the validators use them *)
(* ===================================================================== *)

Module Re.
Import Py.

(** A pattern of the source, read as the regular expression it denotes:
    a character class is the set of code points it accepts. *)
Inductive regex : Type :=
| Void
| Eps
| Chr (p : codepoint -> bool)
| Cat (r1 r2 : regex)
| Alt (r1 r2 : regex)
| Star (r : regex).

(** The strings a pattern matches in full. *)
Inductive lang : regex -> str -> Prop :=
| lang_eps : lang Eps []
| lang_chr (p : codepoint -> bool) (c : codepoint) :
    p c = true -> lang (Chr p) [c]
| lang_cat (r1 r2 : regex) (s1 s2 : str) :
    lang r1 s1 -> lang r2 s2 -> lang (Cat r1 r2) (s1 ++ s2)
| lang_alt_l (r1 r2 : regex) (s : str) : lang r1 s -> lang (Alt r1 r2) s
| lang_alt_r (r1 r2 : regex) (s : str) : lang r2 s -> lang (Alt r1 r2) s
| lang_star_nil (r : regex) : lang (Star r) []
| lang_star_more (r : regex) (s1 s2 : str) :
    lang r s1 -> lang (Star r) s2 -> lang (Star r) (s1 ++ s2).

(** Matching by derivatives. *)
Fixpoint nullable (r : regex) : bool :=
  match r with
  | Void => false
  | Eps => true
  | Chr _ => false
  | Cat r1 r2 => nullable r1 && nullable r2
  | Alt r1 r2 => nullable r1 || nullable r2
  | Star _ => true
  end.

Fixpoint deriv (c : codepoint) (r : regex) : regex :=
  match r with
  | Void => Void
  | Eps => Void
  | Chr p => if p c then Eps else Void
  | Cat r1 r2 =>
      Alt (Cat (deriv c r1) r2) (if nullable r1 then deriv c r2 else Void)
  | Alt r1 r2 => Alt (deriv c r1) (deriv c r2)
  | Star r' => Cat (deriv c r') (Star r')
  end.

Definition matches (r : regex) (s : str) : bool :=
  nullable (fold_left (fun r' c => deriv c r') s r).

(** Any code point, the newline included. *)
Definition anything : regex := Chr (fun _ => true).

(** [re.search(r, s)] as a truth value: some substring of [s] matches. *)
Definition search (r : regex) (s : str) : bool :=
  matches (Cat (Star anything) (Cat r (Star anything))) s.

(** [re.match(r, s)] as a truth value: some prefix of [s] matches. *)
Definition match_prefix (r : regex) (s : str) : bool :=
  matches (Cat r (Star anything)) s.

(** [rs[0] rs[1] ...] in sequence. *)
Definition seq_of (rs : list regex) : regex := fold_right Cat Eps rs.

(** [r+] *)
Definition plus (r : regex) : regex := Cat r (Star r).

(** [.] without [re.DOTALL]: anything but a newline. *)
Definition dot : regex := Chr (fun x => negb (x =? 10)%N).

(** A character of the pattern, matched exactly. *)
Definition exactly (c : codepoint) : regex := Chr (fun x => (x =? c)%N).

(** The characters of a literal, matched exactly, in sequence. *)
Definition literal (s : string) : regex := seq_of (map exactly (lit s)).

End Re.

Module Text.
Import Py.

(** What the interpreter's Unicode tables say about code points beyond
    ASCII; they are taken as given. *)
Record unicode : Type :=
  { uni_isspace : codepoint -> bool;          (* [c.isspace()], regex [\s] *)
    uni_ieq : codepoint -> codepoint -> bool; (* [re.IGNORECASE]: pattern
                                                 character, text character *)
    uni_lower : codepoint -> str;             (* [c.lower()] *)
    uni_final_sigma : str -> str -> bool }.   (* whether a capital sigma
                                                 between these two texts
                                                 ends a word *)

(** [c.isspace()] on ASCII: tab to carriage return, the four separators
    FS, GS, RS, US, and the space. *)
Definition ascii_isspace (c : codepoint) : bool :=
  ((9 <=? c) && (c <=? 13) || (28 <=? c) && (c <=? 31) || (c =? 32))%N.

Definition ascii_lower (c : codepoint) : codepoint :=
  if ((65 <=? c) && (c <=? 90))%N then (c + 32)%N else c.

(** Stripping the characters of a class from both ends. *)
Fixpoint lstrip_of (p : codepoint -> bool) (s : str) : str :=
  match s with
  | c :: s' => if p c then lstrip_of p s' else s
  | [] => []
  end.

Definition strip_of (p : codepoint -> bool) (s : str) : str :=
  rev (lstrip_of p (rev (lstrip_of p s))).

(** The white space of [bytes.strip()]: space, tab, newline, vertical tab,
    form feed and carriage return. *)
Definition bytes_isspace (b : N) : bool :=
  ((9 <=? b) && (b <=? 13) || (b =? 32))%N.

Section Tables.
Variable U : unicode.

Definition isspace (c : codepoint) : bool :=
  if (c <? 128)%N then ascii_isspace c else uni_isspace U c.

(** Whether the text character [x] matches the ASCII pattern character [c]
    under [re.IGNORECASE]. *)
Definition ieq (c x : codepoint) : bool :=
  if (x <? 128)%N then (ascii_lower x =? ascii_lower c)%N else uni_ieq U c x.

(** [s.lower()]: character by character, but for the capital sigma
    (U+03A3), which gives the final small sigma (U+03C2) at the end of a
    word and the small sigma (U+03C3) elsewhere. *)
Fixpoint lower_from (before s : str) : str :=
  match s with
  | [] => []
  | c :: rest =>
      (if (c <? 128)%N then [ascii_lower c]
       else if (c =? 931)%N then
              [if uni_final_sigma U before rest then 962%N else 963%N]
            else uni_lower U c)
        ++ lower_from (before ++ [c]) rest
  end.

Definition lower (s : str) : str := lower_from [] s.

(** [s.strip()] *)
Definition strip (s : str) : str := strip_of isspace s.

(** Regex [\s], and a literal of a pattern compiled with [re.IGNORECASE]. *)
Definition space : Re.regex := Re.Chr isspace.

Definition caseless (s : string) : Re.regex :=
  Re.seq_of (map (fun c => Re.Chr (ieq c)) (lit s)).
End Tables.

(** [s.startswith(p)] *)
Fixpoint startswith (p s : str) : bool :=
  match p, s with
  | [], _ => true
  | a :: p', b :: s' => (a =? b)%N && startswith p' s'
  | _ :: _, [] => false
  end.

(** [needle in s] *)
Fixpoint contains (needle s : str) : bool :=
  startswith needle s
  || match s with
     | [] => false
     | _ :: s' => contains needle s'
     end.

(** Tables that know nothing beyond ASCII: no further space, no further
    case variant, every other character its own lower case. *)
Definition ascii_only : unicode :=
  {| uni_isspace := fun _ => false;
     uni_ieq := fun c x => (x =? c)%N;
     uni_lower := fun c => [c];
     uni_final_sigma := fun _ _ => false |}.

End Text.

(* ===================================================================== *)
(** * src/utils/validators.py, the other validators *)
(* ===================================================================== *)

Module Validators2.
Import Py Re Text.

Section Tables.
Variable U : unicode.

(** [DANGEROUS_PATTERNS], each compiled with [re.IGNORECASE].  In the fourth
    pattern the parentheses are an empty group, the braces are literal and
    the bar is an alternation: it reads [:{ :] or [:& };:]. *)
Definition DANGEROUS_PATTERNS : list regex :=
  [ (* rm\s+-rf\s+/ *)
    seq_of [caseless U "rm"; plus (space U); caseless U "-rf";
            plus (space U); caseless U "/"];
    (* mkfs\. *)
    seq_of [caseless U "mkfs"; caseless U "."];
    (* dd\s+if=.*of= *)
    seq_of [caseless U "dd"; plus (space U); caseless U "if=";
            Star dot; caseless U "of="];
    (* :(){ :|:& };: *)
    Alt (seq_of [caseless U ":"; Eps; caseless U "{ :"])
        (caseless U ":& };:");
    (* curl.*\|\s*sh *)
    seq_of [caseless U "curl"; Star dot; caseless U "|";
            Star (space U); caseless U "sh"];
    (* wget.*\|\s*sh *)
    seq_of [caseless U "wget"; Star dot; caseless U "|";
            Star (space U); caseless U "sh"];
    (* sudo\s+rm *)
    seq_of [caseless U "sudo"; plus (space U); caseless U "rm"];
    (* chmod\s+777 *)
    seq_of [caseless U "chmod"; plus (space U); caseless U "777"] ].

Definition validate_command (command : pyval) : bool :=
  if negb (truthy command) || negb (isinstance_str command) then false
  else
    match command with
    | VStr s => negb (existsb (fun pattern => search pattern s) DANGEROUS_PATTERNS)
    | _ => false
    end.
End Tables.

Definition ALLOWED_IMAGE_IDS : list str :=
  [ lit "linux_latest"; lit "browser_latest"; lit "code_latest";
    lit "windows_latest"; lit "mobile_latest" ].

(** [image_id in ALLOWED_IMAGE_IDS]: a value that is not a string equals
    none of them. *)
Definition validate_image_id (image_id : pyval) : bool :=
  match image_id with
  | VStr s => existsb (str_eqb s) ALLOWED_IMAGE_IDS
  | _ => false
  end.

(** [SAFE_PATH_PATTERNS], compiled without flags and tried with
    [re.match]. *)
Definition SAFE_PATH_PATTERNS : list regex :=
  [ (* ^/tmp/.* *)  Cat (literal "/tmp/") (Star dot);
    (* ^/home/.* *) Cat (literal "/home/") (Star dot);
    (* ^\./ *)      literal "./";
    (* ^[^/].* *)   Cat (Chr (fun x => negb (x =? 47)%N)) (Star dot) ].

Definition validate_file_path (path : pyval) : bool :=
  if negb (truthy path) || negb (isinstance_str path) then false
  else
    match path with
    | VStr s =>
        if contains (lit "..") s then false
        else existsb (fun pattern => match_prefix pattern s) SAFE_PATH_PATTERNS
    | _ => false
    end.

(** [isinstance(timeout_ms, (int, float))], then the range; a [bool] is an
    [int], with the values 0 and 1. *)
Definition validate_timeout (timeout_ms : pyval) : bool :=
  match timeout_ms with
  | VInt z => (1000 <=? z)%Z && (z <=? 300000)%Z
  | VBool b =>
      (1000 <=? (if b then 1 else 0))%Z && ((if b then 1 else 0) <=? 300000)%Z
  | VFloat q =>
      match QArith_base.Qcompare (QArith_base.inject_Z 1000) q with
      | Gt => false
      | _ =>
          match QArith_base.Qcompare q (QArith_base.inject_Z 300000) with
          | Gt => false
          | _ => true
          end
      end
  | _ => false
  end.

End Validators2.

Module ValidatorSpec.
Import Py Text.

(** [text] is [pattern] up to the case of its ASCII letters. *)
Definition spelled (pattern : string) (text : str) : Prop :=
  Forall2 (fun c x => (x < 128)%N /\ ascii_lower x = ascii_lower c)
    (lit pattern) text.

(** A non-empty run of ASCII white space. *)
Definition blank (ws : str) : Prop :=
  ws <> [] /\ Forall (fun c => ascii_isspace c = true) ws.

(** A possibly empty run of ASCII white space. *)
Definition blank_or_empty (ws : str) : Prop :=
  Forall (fun c => ascii_isspace c = true) ws.

(** A stretch of one line: no newline in it. *)
Definition one_line (s : str) : Prop := Forall (fun c => c <> 10%N) s.

(** The first character of a path, when it is not a slash. *)
Definition relative (s : str) : bool :=
  match s with c :: _ => negb (c =? 47)%N | [] => false end.

End ValidatorSpec.
(* ===================================================================== *)
(** * Python's dynamic operations, as the tools use them *)
(* ===================================================================== *)

Module Dyn.
Import Py Client.

(** What the interpreter prints for the values and the errors whose text is
    its own business: the [repr] of a float, bytes, list or dict, the
    message of the [TypeError] (or the like) that an operation raises on a
    value that does not support it, and a float with two decimals.  They
    are taken as given. *)
Record interpreter : Type :=
  { py_repr : pyval -> str;
    type_error : string -> pyval -> str;
    format_2f : QArith_base.Q -> str }.

(** [str(z)] for an integer. *)
Definition decimal (z : Z) : str :=
  lit (DecimalString.NilZero.string_of_int (Z.to_int z)).

(** [type(v).__name__] *)
Definition type_name (v : pyval) : str :=
  match v with
  | VNone => lit "NoneType"
  | VBool _ => lit "bool"
  | VInt _ => lit "int"
  | VFloat _ => lit "float"
  | VStr _ => lit "str"
  | VBytes _ => lit "bytes"
  | VList _ => lit "list"
  | VDict _ => lit "dict"
  end.

(** [KeyError(k)]: its [str] is the [repr] of the key. *)
Definition KeyError (k : string) : exn :=
  Exception (lit "'" ++ lit k ++ lit "'").

(** [tool_parameters.get(k, default)] *)
Definition param (k : string) (default : pyval) (d : dict) : pyval :=
  getattr (dict_get k d) default.

(** [v == 'literal'] *)
Definition eq_str (v : pyval) (l : string) : bool :=
  match v with VStr s => str_eqb s (lit l) | _ => false end.

(** [v == 0]; a [bool] is an [int]. *)
Definition eq_zero (v : pyval) : bool :=
  match v with
  | VInt z => (z =? 0)%Z
  | VBool b => negb b
  | VFloat q => (QArith_base.Qnum q =? 0)%Z
  | _ => false
  end.

(** [sep.join(l)] *)
Fixpoint join (sep : str) (l : list str) : str :=
  match l with
  | [] => []
  | [s] => s
  | s :: l' => s ++ sep ++ join sep l'
  end.

Section Interpreter.
Variable I : interpreter.

(** [str(v)], which is also what an f-string puts for [{v}]. *)
Definition str_of (v : pyval) : str :=
  match v with
  | VNone => lit "None"
  | VBool true => lit "True"
  | VBool false => lit "False"
  | VInt z => decimal z
  | VStr s => s
  | _ => py_repr I v
  end.

Definition TypeError (operation : string) (v : pyval) : exn :=
  Exception (type_error I operation v).

(** [v[k]] for a literal key [k]. *)
Definition subscript (v : pyval) (k : string) : exn + pyval :=
  match v with
  | VDict d =>
      match dict_get k d with
      | Some x => inr x
      | None => inl (KeyError k)
      end
  | _ => inl (TypeError "subscript" v)
  end.

(** [v.get(k, default)] *)
Definition get (v : pyval) (k : string) (default : pyval) : exn + pyval :=
  match v with
  | VDict d => inr (param k default d)
  | _ => inl (attribute_error (type_name v) "get")
  end.

(** [v[0]]; the keys of the dicts at hand are strings, so that [d[0]] is a
    [KeyError]. *)
Definition first_item (v : pyval) : exn + pyval :=
  match v with
  | VList (x :: _) => inr x
  | VList [] => inl (Exception (lit "list index out of range"))
  | VStr (c :: _) => inr (VStr [c])
  | VStr [] => inl (Exception (lit "string index out of range"))
  | VBytes (b :: _) => inr (VInt (Z.of_N b))
  | VBytes [] => inl (Exception (lit "index out of range"))
  | VDict _ => inl (Exception (lit "0"))
  | _ => inl (TypeError "subscript" v)
  end.

(** [v[:n]] *)
Definition slice_to (n : nat) (v : pyval) : exn + pyval :=
  match v with
  | VStr s => inr (VStr (firstn n s))
  | VBytes b => inr (VBytes (firstn n b))
  | VList l => inr (VList (firstn n l))
  | _ => inl (TypeError "slice" v)
  end.

(** [for x in v]: the items, in order. *)
Definition iterate (v : pyval) : exn + list pyval :=
  match v with
  | VList l => inr l
  | VStr s => inr (map (fun c => VStr [c]) s)
  | VBytes b => inr (map (fun n => VInt (Z.of_N n)) b)
  | VDict d => inr (map (fun kv => VStr (lit (fst kv))) d)
  | _ => inl (TypeError "iterate" v)
  end.

(** [key in table] and [table[key]] in one, for a dict of the source
    whose keys and values are literals: the entry, if there is one.  A list
    or a dict cannot be hashed. *)
Definition lookup (table : list (string * str)) (key : pyval) : exn + option str :=
  match key with
  | VStr s =>
      inr (option_map snd
             (find (fun entry => str_eqb s (lit (fst entry))) table))
  | VList _ | VDict _ => inl (TypeError "hash" key)
  | _ => inr None
  end.

(** [len(v)] *)
Definition len (v : pyval) : exn + Z :=
  match v with
  | VStr s => inr (Z.of_nat (List.length s))
  | VBytes b => inr (Z.of_nat (List.length b))
  | VList l => inr (Z.of_nat (List.length l))
  | VDict d => inr (Z.of_nat (List.length d))
  | _ => inl (TypeError "len" v)
  end.

(** [v > 0] *)
Definition gt_zero (v : pyval) : exn + bool :=
  match v with
  | VInt z => inr (0 <? z)%Z
  | VBool b => inr b
  | VFloat q => inr (0 <? QArith_base.Qnum q)%Z
  | _ => inl (TypeError "greater than" v)
  end.

End Interpreter.
End Dyn.

(* ===================================================================== *)
(** * The tools: generators of messages over the client *)
(* ===================================================================== *)

Module Tools.
Import Py Client.

(** The messages a tool yields ([create_text_message],
    [create_json_message], [create_variable_message]). *)
Inductive ToolInvokeMessage : Type :=
| text_message (text : str)
| json_message (json : pyval)
| variable_message (variable_name : string) (variable_value : pyval).

(** A tool at work: what it has yielded so far, and the state of its
    client. *)
Record progress (W : Type) : Type := mkProgress
  { yielded : list ToolInvokeMessage;
    client_state : state W }.

Section WithWorld.
Variable W : Type.

(** The monad of a generator's body. *)
Definition G (A : Type) : Type := progress W -> outcome A * progress W.

Definition gret {A} (a : A) : G A := fun p => (Returned a, p).

Definition gbind {A C} (m : G A) (k : A -> G C) : G C :=
  fun p =>
    match m p with
    | (Returned a, p') => k a p'
    | (Raised e, p') => (Raised e, p')
    | (Looping, p') => (Looping, p')
    end.

Definition graise {A} (e : exn) : G A := fun p => (Raised e, p).

(** [yield message] *)
Definition yield (message : ToolInvokeMessage) : G unit :=
  fun p => (Returned tt, mkProgress (yielded p ++ [message]) (client_state p)).

(** [try: body  except Exception as e: handler(e)]: what was yielded before
    the exception stays yielded. *)
Definition gtry {A} (body : G A) (handler : exn -> G A) : G A :=
  fun p =>
    match body p with
    | (Raised e, p') => handler e p'
    | r => r
    end.

(** A method of the client, called from the tool. *)
Definition call_client {A} (m : M W A) : G A :=
  fun p =>
    let (o, s) := m (client_state p) in (o, mkProgress (yielded p) s).

(** An operation of the interpreter that may raise. *)
Definition of_result {A} (r : exn + A) : G A :=
  match r with inl e => graise e | inr a => gret a end.

(** A list comprehension, or a [for] loop that builds a list. *)
Fixpoint gmap {A C} (f : A -> G C) (l : list A) : G (list C) :=
  match l with
  | [] => gret []
  | x :: l' =>
      gbind (f x) (fun y => gbind (gmap f l') (fun ys => gret (y :: ys)))
  end.

(** [get_agentbay_client(self.runtime.credentials)]: the constructor of the
    client raises [ValueError] when the credentials hold no API key. *)
Definition get_agentbay_client (credentials : dict) : G unit :=
  let api_key := Dyn.param "api_key" VNone credentials in
  if negb (truthy api_key) then graise (Exception (lit "API key is required"))
  else gret tt.

(** An invocation of a tool, from nothing yielded and a fresh log. *)
Definition invoke {A} (g : G A) (w : W) : outcome A * progress W :=
  g (mkProgress [] (mkState w [])).

End WithWorld.
End Tools.

(* ===================================================================== *)
(** * src/tools/session_list.py *)
(* ===================================================================== *)

Module SessionListTool.
Import Py Client Dyn Tools.

Definition empty_list_message : str :=
  [128203]%N ++ lit " Session List is Empty" ++ [10; 10; 127919]%N
    ++ lit " No Sessions Found:" ++ [10; 8226]%N
    ++ lit " No active sessions under current account" ++ [10; 8226]%N
    ++ lit " You can use session_create tool to create new sessions" ++ [10]%N.

Definition list_message (count session_list_text : str) : str :=
  [128203]%N ++ lit " Session List (Total: " ++ count
    ++ lit ")" ++ [10; 10; 127919]%N ++ lit " Active Sessions:" ++ [10]%N
    ++ session_list_text
    ++ [10; 10; 128161]%N ++ lit " Operation Tips:" ++ [10; 8226]%N
    ++ lit " Use command_execute to execute commands in sessions" ++ [10; 8226]%N
    ++ lit " Use session_delete to remove unwanted sessions" ++ [10]%N.

Definition failure_message (error : str) : str :=
  [10060]%N ++ lit " Failed to Get Session List" ++ [10; 10; 128269]%N
    ++ lit " Error Message: " ++ error
    ++ [10; 10; 128161]%N ++ lit " Suggestions:" ++ [10; 8226]%N
    ++ lit " Check if API key is correctly configured" ++ [10; 8226]%N
    ++ lit " Verify network connection is stable" ++ [10; 8226]%N
    ++ lit " Confirm permission to view session list" ++ [10]%N.

Definition exception_message (e : str) : str :=
  [10060]%N ++ lit " Exception occurred while getting session list: " ++ e.

Section Tool.
Variable W : Type.
Variable B : Backend W.
Variable I : interpreter.

Notation "x <- m ;; k" := (gbind m (fun x => k))
  (at level 100, m at next level, right associativity).

(** One line of the list:
    [f"• {session['session_id']} - {session['image_id']}
       ({session['status']}) - Created: {session['created_at']}"]. *)
Definition session_line (session : pyval) : G W str :=
  session_id <- of_result (subscript I session "session_id") ;;
  image_id <- of_result (subscript I session "image_id") ;;
  status <- of_result (subscript I session "status") ;;
  created_at <- of_result (subscript I session "created_at") ;;
  gret ([8226]%N ++ lit " " ++ str_of I session_id ++ lit " - "
          ++ str_of I image_id ++ lit " (" ++ str_of I status
          ++ lit ") - Created: " ++ str_of I created_at).

Definition _invoke (credentials tool_parameters : dict) (fuel : nat)
  : G W unit :=
  gtry
    (_ <- get_agentbay_client credentials ;;
     result <- call_client (list_sessions B fuel) ;;
     if success result then
       let session_data := data result in
       sessions <- of_result (subscript I session_data "sessions") ;;
       count <- of_result (subscript I session_data "count") ;;
       success_message <-
         (if eq_zero count then gret empty_list_message
          else
            items <- of_result (iterate I sessions) ;;
            lines <- gmap session_line items ;;
            gret (list_message (str_of I count) (join [10%N] lines))) ;;
       _ <- yield (text_message success_message) ;;
       _ <- yield (json_message session_data) ;;
       _ <- yield (variable_message "session_count" (VStr (str_of I count))) ;;
       positive <- of_result (gt_zero I count) ;;
       if (positive : bool) then
         first <- of_result (first_item I sessions) ;;
         first_session_id <- of_result (subscript I first "session_id") ;;
         yield (variable_message "first_session_id" first_session_id)
       else gret tt
     else
       yield (text_message (failure_message (fmt (error result)))))
    (fun e => yield (text_message (exception_message (str_of_exn e)))).

End Tool.
End SessionListTool.

(* ===================================================================== *)
(** * src/tools/session_create.py *)
(* ===================================================================== *)

Module SessionCreateTool.
Import Py Client Dyn Tools.

Definition invalid_image_message (image_id : str) : str :=
  [10060]%N ++ lit " Invalid image type: " ++ image_id.

Definition supported_images_message : str :=
  lit "Supported image types: linux_latest, browser_latest, code_latest, windows_latest, mobile_latest".

Definition success_message (session_id image_id status request_id resource_url : str)
  : str :=
  [9989]%N ++ lit " Session Created Successfully!" ++ [10; 10; 128203]%N
    ++ lit " Session Information:" ++ [10; 8226]%N ++ lit " Session ID: "
    ++ session_id
    ++ [10; 8226]%N ++ lit " Environment Type: "
    ++ image_id
    ++ [10; 8226]%N ++ lit " Status: "
    ++ status
    ++ [10; 8226]%N ++ lit " Request ID: "
    ++ request_id
    ++ [10; 10; 127919]%N ++ lit " Next Steps:" ++ [10]%N
    ++ lit "You can now use the following tools to operate this session:"
    ++ [10; 8226]%N ++ lit " command_execute - Execute shell commands"
    ++ [10; 8226]%N ++ lit " file_operations - File operations"
    ++ [10; 8226]%N ++ lit " code_execute - Code execution"
    ++ [10; 8226]%N ++ lit " browser_automation - Browser automation"
    ++ [10; 8226]%N ++ lit " ui_operations - UI automation" ++ [10; 10]%N
    ++ lit "You can open the following link to preview the resource's visual interface:"
    ++ [10]%N ++ lit "[Access Preview Page]("
    ++ resource_url
    ++ lit ")" ++ [10]%N.

Definition failure_message (error : str) : str :=
  [10060]%N ++ lit " Session Creation Failed" ++ [10; 10; 128269]%N
    ++ lit " Error Message: " ++ error
    ++ [10; 10; 128161]%N ++ lit " Suggestions:" ++ [10; 8226]%N
    ++ lit " Check if API key is correctly configured" ++ [10; 8226]%N
    ++ lit " Verify network connection is stable" ++ [10; 8226]%N
    ++ lit " Confirm image type is supported" ++ [10]%N.

Definition exception_message (e : str) : str :=
  [10060]%N ++ lit " Exception occurred while creating session: " ++ e.

Section Tool.
Variable W : Type.
Variable B : Backend W.
Variable I : interpreter.

(** The client handed an image id that is not a string: the model of the
    client has no such call, and what it does then is left open. *)
Variable create_session_untyped : pyval -> M W SimpleResult.

Notation "x <- m ;; k" := (gbind m (fun x => k))
  (at level 100, m at next level, right associativity).

(** [client.create_session(image_id=image_id)] *)
Definition client_create_session (image_id : pyval) : M W SimpleResult :=
  match image_id with
  | VStr s => create_session B s
  | _ => create_session_untyped image_id
  end.

Definition _invoke (credentials tool_parameters : dict) : G W unit :=
  gtry
    (let image_id := param "image_id" (VStr (lit "linux_latest")) tool_parameters in
     if negb (Validators2.validate_image_id image_id) then
       _ <- yield (text_message (invalid_image_message (str_of I image_id))) ;;
       yield (text_message supported_images_message)
     else
       _ <- get_agentbay_client credentials ;;
       result <- call_client (client_create_session image_id) ;;
       if success result then
         let session_info := data result in
         session_id <- of_result (subscript I session_info "session_id") ;;
         image_id' <- of_result (subscript I session_info "image_id") ;;
         status <- of_result (subscript I session_info "status") ;;
         request_id <- of_result (subscript I session_info "request_id") ;;
         resource_url <- of_result (subscript I session_info "resource_url") ;;
         _ <- yield (text_message
                       (success_message (str_of I session_id) (str_of I image_id')
                          (str_of I status) (str_of I request_id)
                          (str_of I resource_url))) ;;
         _ <- yield (json_message session_info) ;;
         _ <- yield (variable_message "session_id" session_id) ;;
         yield (variable_message "image_id" image_id')
       else
         yield (text_message (failure_message (fmt (error result)))))
    (fun e => yield (text_message (exception_message (str_of_exn e)))).

End Tool.
End SessionCreateTool.

(* ===================================================================== *)
(** * src/tools/command_execute.py *)
(* ===================================================================== *)

Module CommandExecuteTool.
Import Py Client Dyn Tools Text.

Definition session_id_required_message : str :=
  [10060]%N ++ lit " Error: session_id parameter is required".

Definition invalid_session_id_message (session_id : str) : str :=
  [10060]%N ++ lit " Error: Invalid session ID format: " ++ session_id.

Definition command_required_message : str :=
  [10060]%N ++ lit " Error: command parameter is required".

Definition unsafe_command_message : str :=
  [10060]%N ++ lit " Security Error: Command contains unsafe content".

Definition unsafe_command_advice : str :=
  lit "Please avoid using potentially dangerous commands like: rm -rf, dd, sudo rm, etc.".

Definition invalid_timeout_message (timeout_ms : str) : str :=
  [10060]%N ++ lit " Error: Invalid timeout: " ++ timeout_ms ++ lit "ms".

Definition timeout_advice : str :=
  lit "Timeout should be between 1 second and 5 minutes".

(** [f"cd {working_directory} && {command}"] *)
Definition cd_and (working_directory command : str) : str :=
  lit "cd " ++ working_directory ++ lit " && " ++ command.

Definition executing_message : str := [128260]%N ++ lit " Executing command...".

Definition session_message (session_id : str) : str :=
  [128203]%N ++ lit " Session ID: " ++ session_id.

Definition command_message (command : str) : str :=
  [128187]%N ++ lit " Command: " ++ command.

Definition success_message (session_id execution_time exit_code output : str)
  : str :=
  [9989]%N ++ lit " Command Executed Successfully!" ++ [10; 10; 128202]%N
    ++ lit " Execution Info:" ++ [10; 8226]%N ++ lit " Session ID: "
    ++ session_id
    ++ [10; 8226]%N ++ lit " Execution Time: "
    ++ execution_time
    ++ lit " seconds" ++ [10; 8226]%N ++ lit " Exit Code: "
    ++ exit_code
    ++ [10; 10; 128228]%N ++ lit " Command Output:" ++ [10]%N
    ++ output
    ++ [10]%N.

Definition error_output (error : str) : str :=
  [10; 9888; 65039]%N ++ lit " Error Output:" ++ [10]%N ++ error.

Definition failure_message (session_id command execution_time error : str)
  : str :=
  [10060]%N ++ lit " Command Execution Failed" ++ [10; 10; 128203]%N
    ++ lit " Session ID: "
    ++ session_id
    ++ [10; 128187]%N ++ lit " Command: "
    ++ command
    ++ [10; 9201; 65039]%N ++ lit " Execution Time: "
    ++ execution_time
    ++ lit " seconds" ++ [10; 128269]%N ++ lit " Error Message: "
    ++ error
    ++ [10; 10; 128161]%N ++ lit " Suggestions:" ++ [10; 8226]%N
    ++ lit " Check if session exists and is available" ++ [10; 8226]%N
    ++ lit " Verify command syntax is correct" ++ [10; 8226]%N
    ++ lit " Confirm sufficient permissions to execute command" ++ [10; 8226]%N
    ++ lit " Check network connection is stable" ++ [10]%N.

Definition exception_message (e : str) : str :=
  [10060]%N ++ lit " Exception occurred while executing command: " ++ e.

Section Tool.
Variable W : Type.
Variable B : Backend W.
Variable I : interpreter.
Variable unicode_isalnum : codepoint -> bool.
Variable U : unicode.

(** The client handed arguments outside the types of its signature (a
    timeout that is a float, say): the model of the client has no such
    call, and what it does then is left open. *)
Variable execute_command_untyped : pyval -> pyval -> pyval -> M W SimpleResult.

Notation "x <- m ;; k" := (gbind m (fun x => k))
  (at level 100, m at next level, right associativity).

(** [client.execute_command(session_id=session_id, command=command,
    timeout_ms=timeout_ms)] *)
Definition client_execute_command (session_id command timeout_ms : pyval)
  : M W SimpleResult :=
  match session_id, command, timeout_ms with
  | VStr sid, VStr c, VInt z => execute_command B sid c z
  | _, _, _ => execute_command_untyped session_id command timeout_ms
  end.

(** [command.strip().startswith('cd ')] *)
Definition is_cd (command : pyval) : exn + bool :=
  match command with
  | VStr c => inr (startswith (lit "cd ") (strip U c))
  | VBytes _ => inl (TypeError I "startswith" command)
  | _ => inl (attribute_error (type_name command) "strip")
  end.

(** The body of [_invoke].  [execution_time] is the difference of the two
    readings of the clock around the call of the client.  Of the lines
    that write to the log, the first is kept: it slices [command], which
    raises when [command] cannot be sliced; the later ones slice a value
    that has been sliced before, or a string. *)
Definition _invoke (credentials tool_parameters : dict)
    (execution_time : QArith_base.Q) : G W unit :=
  gtry
    (let session_id := param "session_id" (VStr []) tool_parameters in
     let command := param "command" (VStr []) tool_parameters in
     let timeout_ms := param "timeout_ms" (VInt 30000) tool_parameters in
     let working_directory := param "working_directory" VNone tool_parameters in
     _ <- of_result (slice_to I 100 command) ;;
     if negb (truthy session_id) then
       yield (text_message session_id_required_message)
     else if negb (Validators.validate_session_id unicode_isalnum session_id) then
       yield (text_message (invalid_session_id_message (str_of I session_id)))
     else if negb (truthy command) then
       yield (text_message command_required_message)
     else if negb (Validators2.validate_command U command) then
       _ <- yield (text_message unsafe_command_message) ;;
       yield (text_message unsafe_command_advice)
     else if negb (Validators2.validate_timeout timeout_ms) then
       _ <- yield (text_message (invalid_timeout_message (str_of I timeout_ms))) ;;
       yield (text_message timeout_advice)
     else
       command <-
         (if truthy working_directory then
            cd <- of_result (is_cd command) ;;
            if (cd : bool) then
              gret (VStr (cd_and (str_of I working_directory) (str_of I command)))
            else
              gret (VStr (cd_and (str_of I working_directory) (str_of I command)))
          else gret command) ;;
       _ <- get_agentbay_client credentials ;;
       _ <- yield (text_message executing_message) ;;
       _ <- yield (text_message (session_message (str_of I session_id))) ;;
       _ <- yield (text_message (command_message (str_of I command))) ;;
       result <- call_client (client_execute_command session_id command timeout_ms) ;;
       if success result then
         let command_data := data result in
         exit_code <- of_result (get command_data "exit_code" (VInt 0)) ;;
         output <- of_result (get command_data "output" (VStr (lit "(no output)"))) ;;
         let success_message :=
           success_message (str_of I session_id) (format_2f I execution_time)
             (str_of I exit_code) (str_of I output) in
         error_output' <- of_result (get command_data "error" VNone) ;;
         success_message <-
           (if truthy error_output' then
              e <- of_result (subscript I command_data "error") ;;
              gret (success_message ++ error_output (str_of I e))
            else gret success_message) ;;
         _ <- yield (text_message success_message) ;;
         output' <- of_result (get command_data "output" (VStr [])) ;;
         _ <- yield (json_message (VDict
                [ ("session_id"%string, session_id);
                  ("command"%string, command);
                  ("output"%string, output');
                  ("error"%string, error_output');
                  ("exit_code"%string, exit_code);
                  ("execution_time"%string, VFloat execution_time) ])) ;;
         _ <- yield (variable_message "command_output" output') ;;
         yield (variable_message "exit_code" (VStr (str_of I exit_code)))
       else
         yield (text_message
                  (failure_message (str_of I session_id) (str_of I command)
                     (format_2f I execution_time) (fmt (error result)))))
    (fun e => yield (text_message (exception_message (str_of_exn e)))).

(** The command as the remote service is to get it: the command of the
    caller, behind a change to the working directory when one is given. *)
Definition forwarded (working_directory : pyval) (command : str) : str :=
  if truthy working_directory then cd_and (str_of I working_directory) command
  else command.

End Tool.
End CommandExecuteTool.

(* ===================================================================== *)
(** * src/tools/browser_automation.py, the parameters of an operation *)
(* ===================================================================== *)

Module BrowserToolParams.
Import Py Client Dyn Text.

Definition url_required_message : str :=
  [10060]%N ++ lit " Error: navigate operation requires url parameter".

Definition selector_required_message (action : str) : str :=
  [10060]%N ++ lit " Error: " ++ action
    ++ lit " operation requires selector parameter".

Definition text_required_message : str :=
  [10060]%N ++ lit " Error: type operation requires text parameter".

(** [action in ['click', 'type', 'wait_element']] *)
Definition interacts (action : pyval) : bool :=
  eq_str action "click" || eq_str action "type" || eq_str action "wait_element".

Definition _get_operation_params (tool_parameters : dict) (action : pyval)
  : dict :=
  let params := dict_set "wait_time" (param "wait_time" (VInt 3) tool_parameters) [] in
  if eq_str action "navigate" then
    dict_set "url" (param "url" (VStr []) tool_parameters) params
  else if interacts action then
    let params :=
      dict_set "selector" (param "selector" (VStr []) tool_parameters) params in
    if eq_str action "type" then
      dict_set "text" (param "text" (VStr []) tool_parameters) params
    else params
  else if eq_str action "scroll" then
    let params :=
      dict_set "direction" (param "direction" (VStr (lit "down")) tool_parameters)
        params in
    dict_set "distance" (param "distance" (VInt 500) tool_parameters) params
  else if eq_str action "screenshot" then
    dict_set "full_page" (param "full_page" (VBool true) tool_parameters) params
  else params.

Section Interpreter.
Variable I : interpreter.

(** [url.startswith('http://') or url.startswith('https://')] *)
Definition has_scheme (url : pyval) : exn + bool :=
  match url with
  | VStr u => inr (startswith (lit "http://") u || startswith (lit "https://") u)
  | VBytes _ => inl (TypeError I "startswith" url)
  | _ => inl (attribute_error (type_name url) "startswith")
  end.

(** ['https://' + url] *)
Definition with_https (url : pyval) : exn + pyval :=
  match url with
  | VStr u => inr (VStr (lit "https://" ++ u))
  | _ => inl (TypeError I "concatenate" url)
  end.

(** The message returned, and [params] as the function leaves it: it
    writes the completed URL back into the dict it was given. *)
Definition _validate_operation_params (action : pyval) (params : dict)
  : exn + (str * dict) :=
  if eq_str action "navigate" then
    if negb (truthy (param "url" VNone params)) then
      inr (url_required_message, params)
    else
      match subscript I (VDict params) "url" with
      | inl e => inl e
      | inr url =>
          match has_scheme url with
          | inl e => inl e
          | inr true => inr ([], params)
          | inr false =>
              match with_https url with
              | inl e => inl e
              | inr url' => inr ([], dict_set "url" url' params)
              end
          end
      end
  else if interacts action then
    if negb (truthy (param "selector" VNone params)) then
      inr (selector_required_message (str_of I action), params)
    else inr ([], params)
  else if eq_str action "type" then
    if negb (truthy (param "text" VNone params)) then
      inr (text_required_message, params)
    else inr ([], params)
  else inr ([], params).

End Interpreter.
End BrowserToolParams.

(* ===================================================================== *)
(** * src/provider/agentbay.py *)
(* ===================================================================== *)

Module Provider.
Import Py Client Dyn Text.

(** The exceptions of [_validate_credentials]: its own error, and every
    other [Exception]. *)
Inductive failure : Type :=
| ToolProviderCredentialValidationError (message : str)
| OtherException (e : exn).

Definition str_of_failure (e : failure) : str :=
  match e with
  | ToolProviderCredentialValidationError m => m
  | OtherException x => str_of_exn x
  end.

(** How the validation ends: it returns, it raises, or the listing it
    started is still running when the fuel of the model is spent. *)
Inductive ending (A : Type) : Type :=
| Done (a : A)
| Failed (e : failure)
| StillListing.
Arguments Failed {A} e.
Arguments StillListing {A}.

Definition key_required : str := lit "API Key is required".
Definition key_malformed : str := lit "API Key format appears to be invalid".
Definition key_rejected : str :=
  lit "API Key validation failed, please check if the key is correct".
Definition network_failed : str :=
  lit "Network connection failed, please check network settings".

Section Provider.
Variable W : Type.
Variable B : Backend W.
Variable U : unicode.

Definition P (A : Type) : Type := state W -> ending A * state W.

Definition pret {A} (a : A) : P A := fun s => (Done a, s).

Definition pbind {A C} (m : P A) (k : A -> P C) : P C :=
  fun s =>
    match m s with
    | (Done a, s') => k a s'
    | (Failed e, s') => (Failed e, s')
    | (StillListing, s') => (StillListing, s')
    end.

Definition praise {A} (e : failure) : P A := fun s => (Failed e, s).

(** [try: body  except ...: handler]; the handler tells the kinds of
    exception apart. *)
Definition ptry {A} (body : P A) (handler : failure -> P A) : P A :=
  fun s =>
    match body s with
    | (Failed e, s') => handler e s'
    | r => r
    end.

(** A method of the client, called from the provider. *)
Definition call_client {A} (m : M W A) : P A :=
  fun s =>
    match m s with
    | (Returned a, s') => (Done a, s')
    | (Raised e, s') => (Failed (OtherException e), s')
    | (Looping, s') => (StillListing, s')
    end.

Definition of_result {A} (r : exn + A) : P A :=
  match r with inl e => praise (OtherException e) | inr a => pret a end.

Notation "x <- m ;; k" := (pbind m (fun x => k))
  (at level 100, m at next level, right associativity).

(** [LightweightAgentBayClient(credentials)] *)
Definition LightweightAgentBayClient (credentials : dict) : P unit :=
  let api_key := param "api_key" VNone credentials in
  if negb (truthy api_key) then
    praise (OtherException (Exception (lit "API key is required")))
  else pret tt.

(** [len(api_key.strip())] *)
Definition stripped_length (api_key : pyval) : exn + nat :=
  match api_key with
  | VStr s => inr (List.length (strip U s))
  | VBytes b => inr (List.length (strip_of bytes_isspace b))
  | _ => inl (attribute_error (type_name api_key) "strip")
  end.

(** [test_result.error.lower()] *)
Definition lowered (error : option str) : exn + str :=
  match error with
  | Some e => inr (lower U e)
  | None => inl (attribute_error (lit "NoneType") "lower")
  end.

(** The inner [try]: the connection test, and the wording of whatever
    exception it ends with, its own included. *)
Definition connection_test (credentials : dict) (fuel : nat) : P unit :=
  ptry
    (_ <- LightweightAgentBayClient credentials ;;
     test_result <- call_client (list_sessions B fuel) ;;
     if negb (success test_result) then
       error_lower <- of_result (lowered (error test_result)) ;;
       if contains (lit "auth") error_lower || contains (lit "key") error_lower then
         praise (ToolProviderCredentialValidationError
                   (lit "API Key validation failed: " ++ fmt (error test_result)))
       else pret tt
     else pret tt)
    (fun e =>
       let error_msg := lower U (str_of_failure e) in
       if contains (lit "auth") error_msg || contains (lit "unauthorized") error_msg
          || contains (lit "forbidden") error_msg then
         praise (ToolProviderCredentialValidationError key_rejected)
       else if contains (lit "network") error_msg
               || contains (lit "connection") error_msg then
         praise (ToolProviderCredentialValidationError network_failed)
       else
         praise (ToolProviderCredentialValidationError
                   (lit "Credential validation failed: " ++ str_of_failure e))).

Definition _validate_credentials (credentials : dict) (fuel : nat) : P unit :=
  ptry
    (let api_key := param "api_key" VNone credentials in
     if negb (truthy api_key) then
       praise (ToolProviderCredentialValidationError key_required)
     else
       n <- of_result (stripped_length api_key) ;;
       if (n <? 10)%nat then
         praise (ToolProviderCredentialValidationError key_malformed)
       else connection_test credentials fuel)
    (fun e =>
       match e with
       | ToolProviderCredentialValidationError _ => praise e
       | OtherException x =>
           praise (ToolProviderCredentialValidationError
                     (lit "Error occurred during credential validation: "
                        ++ str_of_exn x))
       end).

(** A validation of credentials, from a fresh log. *)
Definition validate (credentials : dict) (fuel : nat) (w : W)
  : ending unit * state W :=
  _validate_credentials credentials fuel (mkState w []).

End Provider.
End Provider.

Module ProviderSpec.
Import Py Text.

(** ['word' in text.lower()] *)
Definition mentions (U : unicode) (word : string) (text : str) : bool :=
  contains (lit word) (lower U text).

(** Two texts that differ only in characters beyond ASCII. *)
Definition alike : str -> str -> Prop :=
  Forall2 (fun a b : codepoint => a = b \/ ((128 <= a)%N /\ (128 <= b)%N)).

End ProviderSpec.

(* ===================================================================== *)
(** * src/tools/code_execute.py *)
(* ===================================================================== *)

Module CodeExecuteTool.
Import Py Client Dyn Tools.

Definition SUPPORTED_LANGUAGES : list (string * str) :=
  [ ("python"%string, lit "Python");
    ("javascript"%string, lit "JavaScript/Node.js");
    ("java"%string, lit "Java");
    ("go"%string, lit "Go");
    ("bash"%string, lit "Bash Shell");
    ("cpp"%string, lit "C++");
    ("c"%string, lit "C");
    ("php"%string, lit "PHP");
    ("ruby"%string, lit "Ruby");
    ("rust"%string, lit "Rust") ].

Definition session_id_required_message : str :=
  [10060]%N ++ lit " Error: session_id parameter is required".

Definition invalid_session_id_message (session_id : str) : str :=
  [10060]%N ++ lit " Error: Invalid session ID format: " ++ session_id.

Definition code_required_message : str :=
  [10060]%N ++ lit " Error: code parameter is required".

Definition unsupported_language_message (language : str) : str :=
  [10060]%N ++ lit " Error: Unsupported programming language: " ++ language.

(** [f"Supported languages: {', '.join(self.SUPPORTED_LANGUAGES.keys())}"] *)
Definition supported_languages_message : str :=
  lit "Supported languages: "
    ++ join (lit ", ") (map (fun entry => lit (fst entry)) SUPPORTED_LANGUAGES).

Definition executing_message (language_name : str) : str :=
  [128260]%N ++ lit " Executing " ++ language_name ++ lit " code...".

Definition session_message (session_id : str) : str :=
  [128203]%N ++ lit " Session ID: " ++ session_id.

Definition language_message (language : str) : str :=
  [128187]%N ++ lit " Language: " ++ language.

Definition success_message (session_id language_name execution_time result : str)
  : str :=
  [9989]%N ++ lit " Code Executed Successfully!" ++ [10; 10; 128202]%N
    ++ lit " Execution Info:" ++ [10; 8226]%N ++ lit " Session ID: "
    ++ session_id
    ++ [10; 8226]%N ++ lit " Programming Language: "
    ++ language_name
    ++ [10; 8226]%N ++ lit " Execution Time: "
    ++ execution_time
    ++ lit " seconds" ++ [10; 10; 128228]%N ++ lit " Execution Result:" ++ [10]%N
    ++ result
    ++ [10]%N.

Definition error_output (error : str) : str :=
  [10; 9888; 65039]%N ++ lit " Error Output:" ++ [10]%N ++ error.

Definition failure_message (session_id language_name execution_time error : str)
  : str :=
  [10060]%N ++ lit " Code Execution Failed" ++ [10; 10; 128203]%N
    ++ lit " Session ID: "
    ++ session_id
    ++ [10; 128187]%N ++ lit " Language: "
    ++ language_name
    ++ [10; 9201; 65039]%N ++ lit " Execution Time: "
    ++ execution_time
    ++ lit " seconds" ++ [10; 128269]%N ++ lit " Error Message: "
    ++ error
    ++ [10; 10; 128161]%N ++ lit " Suggestions:" ++ [10; 8226]%N
    ++ lit " Check if session exists and is available" ++ [10; 8226]%N
    ++ lit " Verify code syntax is correct" ++ [10; 8226]%N
    ++ lit " Confirm session image supports this programming language"
    ++ [10; 8226]%N ++ lit " Check network connection is stable" ++ [10]%N.

Definition exception_message (e : str) : str :=
  [10060]%N ++ lit " Exception occurred while executing code: " ++ e.

Section Tool.
Variable W : Type.
Variable B : Backend W.
Variable I : interpreter.
Variable unicode_isalnum : codepoint -> bool.

(** The client handed arguments outside the types of its signature: the
    model of the client has no such call, and what it does then is left
    open. *)
Variable run_code_untyped : pyval -> pyval -> pyval -> M W SimpleResult.

Notation "x <- m ;; k" := (gbind m (fun x => k))
  (at level 100, m at next level, right associativity).

(** Whether [language] is a key of [SUPPORTED_LANGUAGES]. *)
Definition supports (language : pyval) : bool :=
  match lookup I SUPPORTED_LANGUAGES language with
  | inr (Some _) => true
  | _ => false
  end.

(** [client.run_code(session_id=session_id, code=code, language=language)] *)
Definition client_run_code (session_id code language : pyval)
  : M W SimpleResult :=
  match session_id, code, language with
  | VStr sid, VStr c, VStr l => run_code B sid c l
  | _, _, _ => run_code_untyped session_id code language
  end.

(** The body of [_invoke].  [execution_time] is the difference of the two
    readings of the clock around the call of the client.  The first line
    that writes to the log takes [len(code)], which raises when [code] has
    no length. *)
Definition _invoke (credentials tool_parameters : dict)
    (execution_time : QArith_base.Q) : G W unit :=
  gtry
    (let session_id := param "session_id" (VStr []) tool_parameters in
     let language := param "language" (VStr (lit "python")) tool_parameters in
     let code := param "code" (VStr []) tool_parameters in
     _ <- of_result (len I code) ;;
     if negb (truthy session_id) then
       yield (text_message session_id_required_message)
     else if negb (Validators.validate_session_id unicode_isalnum session_id) then
       yield (text_message (invalid_session_id_message (str_of I session_id)))
     else if negb (truthy code) then
       yield (text_message code_required_message)
     else
       language_name <- of_result (lookup I SUPPORTED_LANGUAGES language) ;;
       match language_name with
       | None =>
           _ <- yield (text_message
                         (unsupported_language_message (str_of I language))) ;;
           yield (text_message supported_languages_message)
       | Some language_name =>
           _ <- get_agentbay_client credentials ;;
           _ <- yield (text_message (executing_message language_name)) ;;
           _ <- yield (text_message (session_message (str_of I session_id))) ;;
           _ <- yield (text_message (language_message (str_of I language))) ;;
           result <- call_client (client_run_code session_id code language) ;;
           if success result then
             let result_data := data result in
             shown <- of_result (get result_data "result"
                                   (VStr (lit "(no output)"))) ;;
             let success_message :=
               success_message (str_of I session_id) language_name
                 (format_2f I execution_time) (str_of I shown) in
             error_output' <- of_result (get result_data "error" VNone) ;;
             success_message <-
               (if truthy error_output' then
                  e <- of_result (subscript I result_data "error") ;;
                  gret (success_message ++ error_output (str_of I e))
                else gret success_message) ;;
             _ <- yield (text_message success_message) ;;
             result' <- of_result (get result_data "result" (VStr [])) ;;
             output <- of_result (get result_data "output" result') ;;
             _ <- yield (json_message (VDict
                    [ ("session_id"%string, session_id);
                      ("language"%string, language);
                      ("result"%string, result');
                      ("output"%string, output);
                      ("error"%string, error_output');
                      ("execution_time"%string, VFloat execution_time) ])) ;;
             _ <- yield (variable_message "code_output" output) ;;
             yield (variable_message "code_success" (VStr (lit "true")))
           else
             _ <- yield (text_message
                           (failure_message (str_of I session_id) language_name
                              (format_2f I execution_time) (fmt (error result)))) ;;
             _ <- yield (json_message (VDict
                    [ ("session_id"%string, session_id);
                      ("language"%string, language);
                      ("error"%string, opt_str (error result));
                      ("execution_time"%string, VFloat execution_time);
                      ("success"%string, VBool false) ])) ;;
             yield (variable_message "code_success" (VStr (lit "false")))
       end)
    (fun e => yield (text_message (exception_message (str_of_exn e)))).

End Tool.
End CodeExecuteTool.

(* ===================================================================== *)
(** * src/tools/session_delete.py *)
(* ===================================================================== *)

Module SessionDeleteTool.
Import Py Client Dyn Tools.

Definition session_id_required_message : str :=
  [10060]%N ++ lit " Error: session_id parameter is required".

Definition invalid_session_id_message (session_id : str) : str :=
  [10060]%N ++ lit " Error: Invalid session ID format: " ++ session_id.

Definition preparing_message (session_id : str) : str :=
  [9888; 65039]%N ++ lit " Preparing to delete session: " ++ session_id.

Definition synchronizing_message : str :=
  [128260]%N ++ lit " Will synchronize context data before deletion...".

Definition success_message (session_id deleted context_sync : str) : str :=
  [9989]%N ++ lit " Session Deleted Successfully!" ++ [10; 10; 128203]%N
    ++ lit " Deletion Information:" ++ [10; 8226]%N ++ lit " Session ID: "
    ++ session_id
    ++ [10; 8226]%N ++ lit " Deletion Status: "
    ++ deleted
    ++ [10; 8226]%N ++ lit " Context Sync: "
    ++ context_sync
    ++ [10; 10; 127919]%N ++ lit " Cleanup Complete:" ++ [10]%N
    ++ lit "Session and its related resources have been permanently deleted"
    ++ [10]%N.

Definition failure_message (error : str) : str :=
  [10060]%N ++ lit " Session Deletion Failed" ++ [10; 10; 128269]%N
    ++ lit " Error Message: " ++ error
    ++ [10; 10; 128161]%N ++ lit " Suggestions:" ++ [10; 8226]%N
    ++ lit " Check if session ID is correct" ++ [10; 8226]%N
    ++ lit " Verify session still exists" ++ [10; 8226]%N
    ++ lit " Confirm API key has permission to delete this session"
    ++ [10; 8226]%N ++ lit " Check network connection" ++ [10]%N.

Definition exception_message (e : str) : str :=
  [10060]%N ++ lit " Exception occurred while deleting session: " ++ e.

Section Tool.
Variable W : Type.
Variable B : Backend W.
Variable I : interpreter.
Variable unicode_isalnum : codepoint -> bool.

(** The client handed arguments outside the types of its signature (a
    [sync_context] that is not a [bool], say): the model of the client has
    no such call, and what it does then is left open. *)
Variable delete_session_untyped : pyval -> pyval -> M W SimpleResult.

Notation "x <- m ;; k" := (gbind m (fun x => k))
  (at level 100, m at next level, right associativity).

(** [client.delete_session(session_id, sync_context=sync_context)] *)
Definition client_delete_session (session_id sync_context : pyval)
  : M W SimpleResult :=
  match session_id, sync_context with
  | VStr sid, VBool b => delete_session B sid b
  | _, _ => delete_session_untyped session_id sync_context
  end.

Definition _invoke (credentials tool_parameters : dict) : G W unit :=
  gtry
    (let session_id := param "session_id" (VStr []) tool_parameters in
     let sync_context := param "sync_context" (VBool false) tool_parameters in
     if negb (truthy session_id) then
       yield (text_message session_id_required_message)
     else if negb (Validators.validate_session_id unicode_isalnum session_id) then
       yield (text_message (invalid_session_id_message (str_of I session_id)))
     else
       _ <- get_agentbay_client credentials ;;
       _ <- yield (text_message (preparing_message (str_of I session_id))) ;;
       _ <- (if truthy sync_context then
               yield (text_message synchronizing_message)
             else gret tt) ;;
       result <- call_client (client_delete_session session_id sync_context) ;;
       if success result then
         let delete_info := data result in
         deleted_id <- of_result (subscript I delete_info "session_id") ;;
         deleted <- of_result (subscript I delete_info "deleted") ;;
         _ <- yield (text_message
                       (success_message (str_of I deleted_id) (str_of I deleted)
                          (if truthy sync_context then lit "Yes" else lit "No"))) ;;
         _ <- yield (json_message delete_info) ;;
         _ <- yield (variable_message "deleted_session_id" deleted_id) ;;
         yield (variable_message "deletion_success" (VStr (lit "true")))
       else
         yield (text_message (failure_message (fmt (error result)))))
    (fun e => yield (text_message (exception_message (str_of_exn e)))).

End Tool.
End SessionDeleteTool.

(* ===================================================================== *)
(** * src/tools/file_operations.py *)
(* ===================================================================== *)

Module FileOperationsTool.
Import Py Client Dyn Tools.

Definition SUPPORTED_ACTIONS : list (string * str) :=
  [ ("read"%string, lit "Read file");
    ("write"%string, lit "Write file");
    ("list"%string, lit "List directory contents") ].


Definition session_id_required_message : str :=
  [10060]%N ++ lit " Error: session_id parameter is required".

Definition invalid_session_id_message (session_id : str) : str :=
  [10060]%N ++ lit " Error: Invalid session ID format: " ++ session_id.

Definition unsupported_message (action : str) : str :=
  [10060]%N ++ lit " Error: Unsupported operation type: " ++ action.

(** [f"Supported operations: {', '.join(self.SUPPORTED_ACTIONS.keys())}"] *)
Definition supported_operations_message : str :=
  lit "Supported operations: "
    ++ join (lit ", ") (map (fun entry => lit (fst entry)) SUPPORTED_ACTIONS).

Definition executing_message (operation : str) : str :=
  [128193]%N ++ lit " Executing file operation: " ++ operation.

Definition session_message (session_id : str) : str :=
  [128203]%N ++ lit " Session ID: " ++ session_id.

Definition file_path_required_message (action : str) : str :=
  [10060]%N ++ lit " Error: " ++ action
    ++ lit " operation requires file_path parameter".

Definition file_path_message (file_path : str) : str :=
  [128196]%N ++ lit " File path: " ++ file_path.

Definition content_size_message (content_size : str) : str :=
  [128202]%N ++ lit " Content size: " ++ content_size ++ lit " bytes".

Definition directory_path_message (directory_path : str) : str :=
  [128194]%N ++ lit " Directory path: " ++ directory_path.

Definition error_message (operation session_id operation_time error : str) : str :=
  [10060]%N ++ lit " File " ++ operation ++ lit " Failed" ++ [10; 10; 128203]%N
    ++ lit " Session ID: " ++ session_id
    ++ [10; 127919]%N ++ lit " Operation Type: " ++ operation
    ++ [10; 9201; 65039]%N ++ lit " Operation Time: " ++ operation_time
    ++ lit " seconds" ++ [10; 128269]%N ++ lit " Error Message: " ++ error
    ++ [10; 10; 128161]%N ++ lit " Suggestions:" ++ [10; 8226]%N
    ++ lit " Check if session exists and is available" ++ [10; 8226]%N
    ++ lit " Verify file/directory path is correct" ++ [10; 8226]%N
    ++ lit " Confirm appropriate permissions" ++ [10; 8226]%N
    ++ lit " Check network connection is stable".

Definition exception_message (e : str) : str :=
  [10060]%N ++ lit " Exception occurred during file operation: " ++ e.

(** [action in ['read', 'write']] *)
Definition reads_or_writes (action : pyval) : bool :=
  eq_str action "read" || eq_str action "write".

Definition _get_operation_params (tool_parameters : dict) (action : pyval)
  : dict :=
  let params := [] in
  let params :=
    if reads_or_writes action then
      dict_set "file_path" (param "file_path" (VStr []) tool_parameters) params
    else params in
  let params :=
    if eq_str action "write" then
      dict_set "content" (param "content" (VStr []) tool_parameters) params
    else params in
  if eq_str action "list" then
    dict_set "directory_path"
      (param "directory_path" (VStr (lit ".")) tool_parameters) params
  else params.

Section Tool.
Variable W : Type.
Variable B : Backend W.
Variable I : interpreter.
Variable unicode_isalnum : codepoint -> bool.

(** A method of the client handed arguments outside the types of its
    signature: the model of the client has no such call, and what it does
    then is left open. *)
Variable untyped : string -> list pyval -> M W SimpleResult.

(** The text and the variables that tell a success are built from the data
    of the result, after the remote calls; they are taken as given. *)
Variable _build_success_message :
  pyval -> pyval -> QArith_base.Q -> pyval -> exn + str.
Variable _set_action_variables : pyval -> pyval -> exn + list ToolInvokeMessage.

(** [d.update(v)] for a [v] other than a dict (a list of pairs, say), whose
    keys need not be literals of the source: taken as given. *)
Variable update_with : dict -> pyval -> exn + dict.

Notation "x <- m ;; k" := (gbind m (fun x => k))
  (at level 100, m at next level, right associativity).

(** [action in self.SUPPORTED_ACTIONS], and [self.SUPPORTED_ACTIONS[action]]
    when it is. *)
Definition supported (action : pyval) : exn + option str :=
  lookup I SUPPORTED_ACTIONS action.

Definition _validate_operation_params (action : pyval) (params : dict) : str :=
  if reads_or_writes action
     && negb (truthy (param "file_path" VNone params))
  then file_path_required_message (str_of I action)
  else [].

Definition _show_operation_details (action : pyval) (params : dict)
  : G W (list ToolInvokeMessage) :=
  let messages := [] in
  messages <-
    (if reads_or_writes action then
       file_path <- of_result (subscript I (VDict params) "file_path") ;;
       gret (messages ++ [text_message (file_path_message (str_of I file_path))])
     else gret messages) ;;
  messages <-
    (if eq_str action "write" then
       content <- of_result (subscript I (VDict params) "content") ;;
       content_size <- of_result (len I content) ;;
       gret (messages
               ++ [text_message (content_size_message (decimal content_size))])
     else gret messages) ;;
  if eq_str action "list" then
    directory_path <- of_result (subscript I (VDict params) "directory_path") ;;
    gret (messages
            ++ [text_message (directory_path_message (str_of I directory_path))])
  else gret messages.

Definition client_read_file (session_id file_path : pyval) : M W SimpleResult :=
  match session_id, file_path with
  | VStr sid, VStr p => read_file B sid p
  | _, _ => untyped "read_file" [session_id; file_path]
  end.

Definition client_write_file (session_id file_path content : pyval)
  : M W SimpleResult :=
  match session_id, file_path, content with
  | VStr sid, VStr p, VStr c => write_file B sid p c
  | _, _, _ => untyped "write_file" [session_id; file_path; content]
  end.

Definition client_list_directory (session_id directory_path : pyval)
  : M W SimpleResult :=
  match session_id, directory_path with
  | VStr sid, VStr d => list_directory B sid d
  | _, _ => untyped "list_directory" [session_id; directory_path]
  end.

(** [params[k]], in the monad of the client. *)
Definition item (params : dict) (k : string) : M W pyval :=
  match subscript I (VDict params) k with
  | inl e => raise e
  | inr v => ret v
  end.

Definition _execute_file_operation (session_id action : pyval) (params : dict)
  : M W SimpleResult :=
  try_except
    (if eq_str action "read" then
       bind (item params "file_path") (fun file_path =>
       client_read_file session_id file_path)
     else if eq_str action "write" then
       bind (item params "content") (fun content =>
       bind (item params "file_path") (fun file_path =>
       client_write_file session_id file_path content))
     else if eq_str action "list" then
       bind (item params "directory_path") (fun directory_path =>
       client_list_directory session_id directory_path)
     else
       ret (failed (Some (lit "Unsupported operation: " ++ str_of I action))))
    (fun e =>
       ret (failed (Some (lit "Failed to execute " ++ str_of I action
                            ++ lit " operation: " ++ str_of_exn e)))).

(** [for message in messages: yield message] *)
Fixpoint yield_all (messages : list ToolInvokeMessage) : G W unit :=
  match messages with
  | [] => gret tt
  | message :: rest => _ <- yield message ;; yield_all rest
  end.

(** [response_data.update(result.data or {})] *)
Definition updated (response_data : dict) (data : pyval) : exn + dict :=
  if truthy data then
    match data with
    | VDict d => inr (dict_update response_data d)
    | _ => update_with response_data data
    end
  else inr response_data.

Definition _invoke (credentials tool_parameters : dict)
    (operation_time : QArith_base.Q) : G W unit :=
  gtry
    (let session_id := param "session_id" (VStr []) tool_parameters in
     let action := param "action" (VStr (lit "read")) tool_parameters in
     if negb (truthy session_id) then
       yield (text_message session_id_required_message)
     else if negb (Validators.validate_session_id unicode_isalnum session_id) then
       yield (text_message (invalid_session_id_message (str_of I session_id)))
     else
       operation <- of_result (supported action) ;;
       match operation with
       | None =>
           _ <- yield (text_message (unsupported_message (str_of I action))) ;;
           yield (text_message supported_operations_message)
       | Some operation =>
           let operation_params := _get_operation_params tool_parameters action in
           let validation_result :=
             _validate_operation_params action operation_params in
           if truthy (VStr validation_result) then
             yield (text_message validation_result)
           else
             _ <- get_agentbay_client credentials ;;
             _ <- yield (text_message (executing_message operation)) ;;
             _ <- yield (text_message (session_message (str_of I session_id))) ;;
             details <- _show_operation_details action operation_params ;;
             _ <- yield_all details ;;
             result <- call_client
                         (_execute_file_operation session_id action operation_params) ;;
             if success result then
               success_message <-
                 of_result (_build_success_message action session_id
                              operation_time (data result)) ;;
               _ <- yield (text_message success_message) ;;
               response_data <-
                 of_result (updated
                   [ ("session_id"%string, session_id);
                     ("action"%string, action);
                     ("success"%string, VBool true);
                     ("operation_time"%string, VFloat operation_time) ]
                   (data result)) ;;
               _ <- yield (json_message (VDict response_data)) ;;
               _ <- yield (variable_message "file_action" action) ;;
               _ <- yield (variable_message "file_operation_success"
                             (VStr (lit "true"))) ;;
               variables <- of_result (_set_action_variables action (data result)) ;;
               yield_all variables
             else
               _ <- yield (text_message
                             (error_message operation (str_of I session_id)
                                (format_2f I operation_time) (fmt (error result)))) ;;
               _ <- yield (json_message (VDict
                      [ ("session_id"%string, session_id);
                        ("action"%string, action);
                        ("success"%string, VBool false);
                        ("error"%string, opt_str (error result));
                        ("operation_time"%string, VFloat operation_time) ])) ;;
               yield (variable_message "file_operation_success"
                        (VStr (lit "false")))
       end)
    (fun e => yield (text_message (exception_message (str_of_exn e)))).

End Tool.
End FileOperationsTool.

(* ===================================================================== *)
(** * Stand-ins to run the tools against *)
(* ===================================================================== *)

Module ToolDoubles.
Import Py Client Dyn Doubles.

(** An interpreter that prints every value and every error of its own in
    the same words. *)
Definition terse_interpreter : interpreter :=
  {| py_repr := fun _ => lit "<value>";
     type_error := fun _ _ => lit "unsupported operand";
     format_2f := fun _ => lit "0.00" |}.

(** The tables of an interpreter that knows no letter beyond ASCII. *)
Definition no_letter : codepoint -> bool := fun _ => false.

(** An account with one session. *)
Definition single_session_backend : Backend unit :=
  fun R c w =>
    match c in call R return (exn + R) * unit with
    | client_list _ page _ =>
        (inr {| sl_type_name := lit "SessionListResult";
                sl_success := true;
                sl_session_ids := Some [nth_session_id 0];
                sl_total := Some 1%Z;
                sl_error_message := None |}, w)
    | _ => (unsupported, w)
    end.

(** A service on which every session exists and every command prints
    [ok]. *)
Definition shell_backend : Backend unit :=
  fun R c w =>
    match c in call R return (exn + R) * unit with
    | client_get_session sid =>
        (inr {| gs_success := true;
                gs_data := Some (VDict [("session_id"%string, VStr sid)]);
                gs_error_message := None |}, w)
    | session_command_execute_command _ _ _ =>
        (inr {| cmd_success := true;
                cmd_output := VStr (lit "ok");
                cmd_error := None;
                cmd_exit_code := Some (VInt 0);
                cmd_error_message := None |}, w)
    | _ => (unsupported, w)
    end.

(** A client that refuses every argument outside its signature. *)
Definition refuse {W : Type} : M W SimpleResult :=
  ret (failed (Some (lit "bad argument"))).

Definition credentials : dict := [("api_key"%string, VStr (lit "akm-0123456789"))].

End ToolDoubles.

(* ===================================================================== *)
(** * Properties of the validators *)
(* ===================================================================== *)

Section ValidatorFacts.
Import Py Validators.
Variable uni : codepoint -> bool.

(** Removing the hyphens and then the underscores is one filter. *)
Lemma strip_separators (s : str) :
  replace underscore [] (replace hyphen [] s)
  = filter (fun c => negb (c =? hyphen)%N && negb (c =? underscore)%N) s.
Proof.
  induction s as [|c s IH]; [reflexivity|].
  unfold replace in *. cbn [flat_map filter].
  destruct (c =? hyphen)%N eqn:Eh; cbn [negb andb app flat_map].
  - exact IH.
  - destruct (c =? underscore)%N eqn:Eu; cbn [negb app]; [exact IH|].
    now rewrite IH.
Qed.

Lemma validate_session_id_str (s : str) :
  validate_session_id uni (VStr s)
  = (5 <? List.length s)%nat
    && isalnum uni (replace underscore [] (replace hyphen [] s)).
Proof.
  unfold validate_session_id. cbn [truthy isinstance_str negb orb].
  destruct s as [|c s]; reflexivity.
Qed.

(** Whatever is not a string is rejected. *)
Lemma validate_session_id_not_str (v : pyval) :
  isinstance_str v = false -> validate_session_id uni v = false.
Proof.
  intros H. unfold validate_session_id. rewrite H.
  now rewrite orb_true_r.
Qed.



Lemma strip_only_separators (s : str) :
  Forall (fun c => c = hyphen \/ c = underscore) s ->
  replace underscore [] (replace hyphen [] s) = [].
Proof.
  intros H. rewrite strip_separators.
  induction H as [|c s Hc _ IH]; [reflexivity|].
  cbn [filter]. destruct Hc as [-> | ->]; exact IH.
Qed.

End ValidatorFacts.




(** C10.  A string made only of hyphens and underscores is rejected by
    [validate_session_id], whatever its length: once the separators are
    stripped nothing is left, and the empty string is not alphanumeric. *)
Theorem validate_session_id_only_separators
    (uni : Py.codepoint -> bool) (s : Py.str) :
  Forall (fun c => c = Validators.hyphen \/ c = Validators.underscore) s ->
  Validators.validate_session_id uni (Py.VStr s) = false.
Proof.
  intros H. rewrite validate_session_id_str.
  rewrite (strip_only_separators H).
  apply andb_false_iff. right. reflexivity.
Qed.

(** The id "--__--__", of length 8, is rejected. *)
Lemma validate_session_id_only_separators_witness :
  (5 < List.length (Py.lit "--__--__"))%nat
  /\ Validators.validate_session_id Py.latin1_isalnum
       (Py.VStr (Py.lit "--__--__")) = false.
Proof.
  split; [vm_compute; lia|].
  apply (@validate_session_id_only_separators Py.latin1_isalnum (Py.lit "--__--__")).
  unfold Py.lit. cbn.
  repeat (apply Forall_cons; [first [now left | now right]|]).
  apply Forall_nil.
Defined.

(* ===================================================================== *)
(** * Properties of the stateless client *)
(* ===================================================================== *)

Section ClientProofs.
Import Py Client ClientSpec.
Variable W : Type.
Variable B : Backend W.

Ltac split_case :=
  match goal with
  | |- context [match ?x with _ => _ end] =>
      lazymatch x with
      | context [match _ with _ => _ end] => fail
      | context [list_sessions_loop] => fail
      | _ => destruct x eqn:?
      end
  end.

Ltac crunch :=
  repeat (cbn -[lit Z.leb Z.add Z.of_nat List.length] in *; try split_case).

Ltac open_operation :=
  unfold run, create_session, execute_command,
    delete_session, read_file, write_file, list_directory, run_code,
    ui_screenshot, ui_click, ui_type, ui_key, browser_initialize,
    get_installed_apps, list_windows;
  unfold get_session_info, try_except, bind, remote, ret, attr, attr_of,
    raise, out_of_fuel.

(** The lookup always returns, after exactly one call. *)
Lemma get_session_info_returns (sid : str) (s : state W) :
  exists (r : SimpleResult) (x : option exn),
    get_session_info B sid s
    = (Returned r,
       mkState (snd (B (client_get_session sid) (world s)))
               (calls s ++ [Ev (client_get_session sid) x])).
Proof.
  open_operation.
  destruct (B (client_get_session sid) (world s)) as [[e|a] w'];
    cbn [snd]; crunch; eauto.
Qed.

(** What one run of the pagination loop adds to the log: requests of the
    listing only, and no raised exception other than the one it ends with. *)
Lemma list_sessions_loop_log (fuel : nat) :
  forall (page : Z) (acc : list str) (s : state W),
  exists evs : list event,
    calls (snd (list_sessions_loop B fuel page acc s)) = calls s ++ evs
    /\ Forall (lists_with dify_labels) evs
    /\ match fst (list_sessions_loop B fuel page acc s) with
       | Returned (inl r) =>
           raised evs = [] /\ success r = false /\ data r = VNone
       | Returned (inr _) => raised evs = []
       | Raised e => forall e', In e' (raised evs) -> e' = e
       | Looping => raised evs = []
       end.
Proof.
  induction fuel as [|fuel IH]; intros page acc s.
  - exists []. cbn. rewrite app_nil_r. auto.
  - cbn [list_sessions_loop]. open_operation.
    destruct (B (client_list dify_labels page 100) (world s)) as [[e|a] w'].
    + exists [Ev (client_list dify_labels page 100) (Some e)].
      cbn. repeat split.
      * repeat constructor. now exists page, (Some e).
      * intros e' [<-|[]]. reflexivity.
    + assert (Hone : Forall (lists_with dify_labels)
                       [Ev (client_list dify_labels page 100) None]).
      { repeat constructor. now exists page, None. }
      crunch;
        try (eexists [_]; cbn; repeat split; [exact Hone | tauto]);
        try (eexists [_]; cbn; repeat split; exact Hone);
        try (eexists [_]; cbn; repeat split; [exact Hone | intros ? []]).
      all: match goal with
           | |- context [list_sessions_loop B ?f ?p ?a ?st] =>
               destruct (IH p a st) as (evs & Hc & Hl & Hm);
               exists (Ev (client_list dify_labels page 100) None :: evs);
               rewrite Hc; cbn [calls];
               rewrite <- app_assoc; cbn [app];
               split; [reflexivity|]; split; [constructor;
                 [now exists page, None | exact Hl]|];
               destruct (fst (list_sessions_loop B f p a st)) as [[?|?]|?|];
               cbn; exact Hm
           end.
Qed.

(** What [list_sessions] comes to, read off the run of its loop. *)
Lemma list_sessions_unfold (fuel : nat) (s : state W) :
  list_sessions B fuel s
  = match list_sessions_loop B fuel 1 [] s with
    | (Returned (inl early), s') => (Returned early, s')
    | (Returned (inr ids), s') => (Returned (listing ids), s')
    | (Raised e, s') =>
        (Returned (failed (Some (lit "Failed to list sessions: " ++ str_of_exn e))),
         s')
    | (Looping, s') => (Looping, s')
    end.
Proof.
  unfold list_sessions, try_except, bind, ret, listing.
  destruct (list_sessions_loop B fuel 1 [] s) as [[[r|ids]|e|] s'];
    try reflexivity.
  cbn. now rewrite length_map.
Qed.

(** C1.  Every public operation of the client, against every remote
    service and from every state of it, returns an envelope in which a
    success carries no error and a failure carries no data.  No operation
    raises, and only the listing can still be running when the fuel of its
    loop is spent. *)
Theorem envelope_invariant (fuel : nat) (o : operation) (w : W) :
  match fst (run (perform B fuel o) w) with
  | Returned r => envelope_ok r
  | Raised _ => False
  | Looping => o = op_list_sessions
  end.
Proof.
  destruct o; cbn [perform];
    try (unfold envelope_ok; open_operation; crunch; split; congruence).
  unfold run. rewrite list_sessions_unfold.
  destruct (list_sessions_loop_log fuel 1 [] (mkState w [])) as (evs & _ & _ & Hm).
  destruct (list_sessions_loop B fuel 1 [] (mkState w [])) as [[[r|ids]|e|] s'];
    cbn in *; unfold envelope_ok; cbn; try (split; congruence); try reflexivity.
  destruct Hm as (_ & Hs & Hd). split; congruence.
Qed.

Ltac describe :=
  unfold describes; cbn -[lit error_prefixes];
  refine (conj eq_refl (conj eq_refl (ex_intro _ _ (conj _ (conj _ eq_refl)))));
  [ cbn -[lit]; tauto | discriminate ].

(** No operation raises, and only the listing can still be running when
    the fuel of its loop is spent. *)
Lemma perform_returns (fuel : nat) (o : operation) (w : W) :
  match fst (run (perform B fuel o) w) with
  | Returned _ => True
  | Raised _ => False
  | Looping => o = op_list_sessions
  end.
Proof.
  destruct o; cbn [perform]; try (open_operation; crunch; exact I).
  unfold run. rewrite list_sessions_unfold.
  destruct (list_sessions_loop B fuel 1 [] (mkState w [])) as [[[r|ids]|e|] s'];
    cbn; auto.
Qed.

(** The fuel is the loop's alone: no other operation looks at it. *)
Lemma perform_fuel (fuel fuel' : nat) (o : operation) :
  o <> op_list_sessions -> perform B fuel' o = perform B fuel o.
Proof.
  intros Ho. destruct o; try reflexivity. now destruct Ho.
Qed.

(** A page request that raises ends the loop, whatever came before.  When
    [rounds] turns leave the loop still running, in the state [s'], and the
    request for the next page raises [e] there, then with any more fuel the
    loop raises [e] on that request. *)
Lemma list_sessions_loop_raises (rounds : nat) :
  forall (page : Z) (acc : list str) (s s' : state W) (e : exn) (w' : W)
         (more : nat),
    list_sessions_loop B rounds page acc s = (Looping, s') ->
    B (client_list dify_labels (page + Z.of_nat rounds) 100) (world s')
    = (inl e, w') ->
    list_sessions_loop B (rounds + S more) page acc s
    = (Raised e,
       mkState w'
         (calls s' ++ [Ev (client_list dify_labels (page + Z.of_nat rounds) 100)
                          (Some e)])).
Proof.
  induction rounds as [|rounds IH]; intros page acc s s' e w' more Hloop Hraise.
  - cbn in Hloop. injection Hloop as <-.
    replace (page + Z.of_nat 0)%Z with page in * by (cbn; lia).
    cbn [Nat.add list_sessions_loop]. unfold bind, remote.
    now rewrite Hraise.
  - replace (page + Z.of_nat (S rounds))%Z
      with (page + 1 + Z.of_nat rounds)%Z in * by lia.
    cbn [Nat.add]. cbn [list_sessions_loop] in Hloop |- *.
    revert Hloop. open_operation.
    destruct (B (client_list dify_labels page 100) (world s)) as [[e0|a] w0];
      [discriminate|].
    crunch; try discriminate; intros Hloop; now apply IH.
Qed.

(** C2.  No public operation of the client lets an exception escape,
    whatever the remote service does; and when a remote call raised, the
    operation returns a failed envelope whose error is one of the
    operation's own prefixes followed by the message of that exception.
    Every operation other than the listing returns, and the same envelope
    whatever the fuel.  The listing returns the failed envelope of a page
    request that raises as soon as its fuel reaches that request; it is the
    only operation that can still be running when the fuel is spent, and
    then no call has raised. *)
Theorem no_exception_escapes (fuel : nat) (o : operation) (w : W) :
  match fst (run (perform B fuel o) w) with
  | Returned r =>
      forall e : exn,
        In e (raised (calls (snd (run (perform B fuel o) w)))) ->
        describes o e r
  | Raised _ => False
  | Looping =>
      o = op_list_sessions
      /\ raised (calls (snd (run (perform B fuel o) w))) = []
  end
  /\ (o <> op_list_sessions ->
      exists (r : SimpleResult) (s' : state W),
        forall fuel' : nat, run (perform B fuel' o) w = (Returned r, s'))
  /\ (o = op_list_sessions ->
      forall (rounds : nat) (s' : state W) (e : exn) (w' : W),
        list_sessions_loop B rounds 1 [] (mkState w []) = (Looping, s') ->
        B (client_list dify_labels (1 + Z.of_nat rounds) 100) (world s')
        = (inl e, w') ->
        (rounds < fuel)%nat ->
        run (perform B fuel o) w
        = (Returned (failed (Some (lit "Failed to list sessions: "
                                     ++ str_of_exn e))),
           mkState w'
             (calls s'
                ++ [Ev (client_list dify_labels (1 + Z.of_nat rounds) 100)
                       (Some e)]))).
Proof.
  split; [|split].
  - destruct o; cbn [perform];
      try (open_operation; crunch;
           let e' := fresh "e" in let He' := fresh "He" in
           intros e' He'; cbn in He'; intuition idtac; subst; describe).
    unfold run. rewrite list_sessions_unfold.
    destruct (list_sessions_loop_log fuel 1 [] (mkState w []))
      as (evs & Hc & _ & Hm).
    destruct (list_sessions_loop B fuel 1 [] (mkState w [])) as [[[r|ids]|e|] s'];
      cbn [fst snd calls app] in *; subst.
    + destruct Hm as (Hr & _). rewrite Hr. intros ? [].
    + rewrite Hm. intros ? [].
    + intros e' He'. apply Hm in He'. subst e'. describe.
    + auto.
  - intros Ho. pose proof (perform_returns fuel o w) as Hret.
    destruct (run (perform B fuel o) w) as [[r| |] s'] eqn:Hrun;
      cbn [fst] in Hret; try contradiction.
    exists r, s'. intros fuel'. now rewrite (perform_fuel fuel fuel' Ho).
  - intros -> rounds s' e w' Hloop Hraise Hfuel. cbn [perform].
    unfold run. rewrite list_sessions_unfold.
    replace fuel with (rounds + S (fuel - S rounds))%nat by lia.
    now rewrite (list_sessions_loop_raises rounds 1 [] (mkState w [])
                   (fuel - S rounds) Hloop Hraise).
Qed.

(** C3.  When the lookup of the session reports failure or absence, every
    operation that acts on a session returns the envelope of the lookup and
    stops there: the world and the log are those the lookup alone leaves,
    and the log holds one call, the lookup. *)
Theorem absent_session_fails_fast (fuel : nat) (o : operation) (sid : str)
    (w : W) (r : SimpleResult) (s' : state W) :
  acts_on o = Some sid ->
  run (get_session_info B sid) w = (Returned r, s') ->
  success r = false ->
  run (perform B fuel o) w = (Returned r, s')
  /\ exists x : option exn, calls s' = [Ev (client_get_session sid) x].
Proof.
  intros Hacts Hrun Hfail. split.
  - unfold run in *.
    destruct o; cbn in Hacts; try discriminate;
      injection Hacts as ->; cbn [perform];
      unfold execute_command, delete_session, read_file, write_file,
        list_directory, run_code, ui_screenshot, ui_click, ui_type, ui_key,
        browser_initialize, get_installed_apps, list_windows,
        try_except, bind;
      rewrite Hrun, Hfail; reflexivity.
  - unfold run in Hrun.
    destruct (get_session_info_returns sid (mkState w [])) as (r0 & x & Heq).
    rewrite Heq in Hrun. injection Hrun as _ <-. now exists x.
Qed.

(** One turn of the pagination loop on an answered page. *)
Lemma list_sessions_loop_step (fuel : nat) (page : Z) (acc : list str)
    (w : W) (log : list event) (ids : list str) (total : Z) (w' : W) :
  answers_page B w page ids total w' ->
  list_sessions_loop B (S fuel) page acc (mkState w log)
  = if (total <=? Z.of_nat (List.length (acc ++ ids)))%Z || negb (nonempty ids)
    then (Returned (inr (acc ++ ids)), mkState w' (log ++ [page_request page]))
    else list_sessions_loop B fuel (page + 1) (acc ++ ids)
           (mkState w' (log ++ [page_request page])).
Proof.
  intros (result & HB & Hs & Hi & Ht).
  cbn [list_sessions_loop]. unfold bind, remote, ret, attr_of. cbn [world calls].
  rewrite HB, Hs, Hi, Ht. cbn [negb].
  destruct ids as [|i ids]; cbn [nonempty negb].
  - rewrite app_nil_r, orb_true_r.
    now destruct (total <=? Z.of_nat (List.length acc))%Z.
  - rewrite orb_false_r.
    now destruct (total <=? Z.of_nat (List.length (acc ++ i :: ids)))%Z.
Qed.

(** C4.  Against a service that reports a total of 250 and answers the
    first three pages with 100, 100 and 50 ids, [list_sessions] asks for
    exactly the pages 1, 2 and 3 and returns the success envelope of the
    250 ids, with count 250.  In general a turn of the loop on an answered
    page ends the loop exactly when the ids gathered so far are at least
    the reported total or the page is empty, and otherwise goes on to the
    next page. *)
Theorem list_sessions_pagination :
  (forall (w0 w1 w2 w3 : W) (ids1 ids2 ids3 : list str) (fuel : nat),
      answers_page B w0 1 ids1 250 w1 ->
      answers_page B w1 2 ids2 250 w2 ->
      answers_page B w2 3 ids3 250 w3 ->
      List.length ids1 = 100%nat ->
      List.length ids2 = 100%nat ->
      List.length ids3 = 50%nat ->
      (3 <= fuel)%nat ->
      run (list_sessions B fuel) w0
      = (Returned (succeeded (VDict
           [ ("sessions"%string, VList (map session_entry (ids1 ++ ids2 ++ ids3)));
             ("count"%string, VInt 250) ])),
         mkState w3 [page_request 1; page_request 2; page_request 3]))
  /\ (forall (fuel : nat) (page : Z) (acc : list str) (w : W)
             (log : list event) (ids : list str) (total : Z) (w' : W),
      answers_page B w page ids total w' ->
      list_sessions_loop B (S fuel) page acc (mkState w log)
      = if (total <=? Z.of_nat (List.length (acc ++ ids)))%Z || negb (nonempty ids)
        then (Returned (inr (acc ++ ids)), mkState w' (log ++ [page_request page]))
        else list_sessions_loop B fuel (page + 1) (acc ++ ids)
               (mkState w' (log ++ [page_request page]))).
Proof.
  split; [|intros; now apply list_sessions_loop_step].
  intros w0 w1 w2 w3 ids1 ids2 ids3 fuel P1 P2 P3 L1 L2 L3 Hfuel.
  destruct fuel as [|[|[|fuel]]]; try lia.
  unfold run. rewrite list_sessions_unfold.
  rewrite (list_sessions_loop_step _ _ _ P1).
  replace ((250 <=? Z.of_nat (List.length ([] ++ ids1)))%Z
           || negb (nonempty ids1)) with false.
  2:{ cbn [app]. rewrite L1. destruct ids1; [discriminate L1|reflexivity]. }
  rewrite (list_sessions_loop_step _ _ _ P2).
  replace ((250 <=? Z.of_nat (List.length (([] ++ ids1) ++ ids2)))%Z
           || negb (nonempty ids2)) with false.
  2:{ cbn [app]. rewrite length_app, L1, L2.
      destruct ids2; [discriminate L2|reflexivity]. }
  rewrite (list_sessions_loop_step _ _ _ P3).
  replace ((250 <=? Z.of_nat (List.length ((([] ++ ids1) ++ ids2) ++ ids3)))%Z
           || negb (nonempty ids3)) with true.
  2:{ cbn [app]. rewrite !length_app, L1, L2, L3. reflexivity. }
  cbn [app]. unfold listing, succeeded.
  rewrite <- app_assoc, !length_app, L1, L2, L3. reflexivity.
Qed.

(** C6, as the code has it.  [create_session] issues one remote call, the
    creation, and it carries the label [{"dify_plugin": "true"}] whatever
    the image; every call that [list_sessions] issues is a request of the
    listing filtered by that same label. *)
Theorem ownership_label (fuel : nat) (image_id : str) (w : W) :
  (exists x : option exn,
      calls (snd (run (create_session B image_id) w))
      = [Ev (client_create image_id [("dify_plugin"%string, VStr (lit "true"))]) x])
  /\ Forall (lists_with [("dify_plugin"%string, VStr (lit "true"))])
       (calls (snd (run (list_sessions B fuel) w))).
Proof.
  split.
  - open_operation. cbn [world calls app].
    destruct (B (client_create image_id dify_labels) w) as [[e|a] w'].
    + destruct e; cbn; eauto.
    + crunch; eauto.
  - unfold run. rewrite list_sessions_unfold.
    destruct (list_sessions_loop_log fuel 1 [] (mkState w []))
      as (evs & Hc & Hl & _).
    destruct (list_sessions_loop B fuel 1 [] (mkState w [])) as [[[r|ids]|e|] s'];
      cbn [fst snd calls app] in *; subst; exact Hl.
Qed.

(** C7, as the code has it.  For a session that exists, [browser_initialize]
    fails when the browser reports that it did not initialise, and when a
    remote call raised; it succeeds with whatever value the request for the
    endpoint returns, unchecked; and it succeeds only when that request
    returned a value, which is then the [endpoint_url] of the data. *)
Theorem browser_initialize_outcome (sid : str) (w : W)
    (info : SimpleResult) (s1 : state W) :
  run (get_session_info B sid) w = (Returned info, s1) ->
  success info = true ->
  (forall (got : SessionResult) (session : Session) (w2 w3 : W),
      B (client_get sid) (world s1) = (inr got, w2) ->
      sr_session got = Some session ->
      B (session_browser_initialize session) w2 = (inr false, w3) ->
      fst (run (browser_initialize B sid) w)
      = Returned (failed (Some (lit "Browser initialization failed"))))
  /\ (forall (r : SimpleResult) (e : exn),
      fst (run (browser_initialize B sid) w) = Returned r ->
      In e (raised (calls (snd (run (browser_initialize B sid) w)))) ->
      success r = false)
  /\ (forall (got : SessionResult) (session : Session) (w2 w3 w4 : W) (u : pyval),
      B (client_get sid) (world s1) = (inr got, w2) ->
      sr_session got = Some session ->
      B (session_browser_initialize session) w2 = (inr true, w3) ->
      B (session_browser_get_endpoint_url session) w3 = (inr u, w4) ->
      fst (run (browser_initialize B sid) w)
      = Returned (succeeded (VDict [ ("initialized"%string, VBool true);
                                     ("endpoint_url"%string, u) ])))
  /\ (forall r : SimpleResult,
      fst (run (browser_initialize B sid) w) = Returned r ->
      success r = true ->
      exists (got : SessionResult) (session : Session) (w2 w3 w4 : W) (u : pyval),
        B (client_get sid) (world s1) = (inr got, w2)
        /\ sr_session got = Some session
        /\ B (session_browser_initialize session) w2 = (inr true, w3)
        /\ B (session_browser_get_endpoint_url session) w3 = (inr u, w4)
        /\ data r = VDict [ ("initialized"%string, VBool true);
                            ("endpoint_url"%string, u) ]).
Proof.
  intros Hrun Hok.
  assert (Hraised : forall (r : SimpleResult) (e : exn),
             fst (run (browser_initialize B sid) w) = Returned r ->
             In e (raised (calls (snd (run (browser_initialize B sid) w)))) ->
             success r = false).
  { clear. intros r e. open_operation. crunch;
      intros [= <-] He; cbn in He; intuition idtac. }
  assert (Hstart : forall (k : SimpleResult -> M W SimpleResult)
                          (h : exn -> M W SimpleResult),
             try_except (bind (get_session_info B sid) k) h (mkState w [])
             = try_except (k info) h s1).
  { intros k h. unfold try_except, bind. unfold run in Hrun. now rewrite Hrun. }
  refine (conj _ (conj Hraised (conj _ _))); clear Hraised;
    unfold run, browser_initialize; rewrite Hstart, Hok; cbn [negb];
    unfold try_except, bind, remote, ret, attr, raise.
  - intros got session w2 w3 H1 H2 H3. rewrite H1, H2. cbn [world]. now rewrite H3.
  - intros got session w2 w3 w4 u H1 H2 H3 H4.
    rewrite H1, H2. cbn [world]. rewrite H3. cbn [world]. now rewrite H4.
  - intros r.
    destruct (B (client_get sid) (world s1)) as [[e|got] w2] eqn:E1;
      [cbn; intros [= <-]; discriminate|].
    destruct (sr_session got) as [session|] eqn:E2;
      [|cbn; intros [= <-]; discriminate].
    cbn [world].
    destruct (B (session_browser_initialize session) w2) as [[e|[]] w3] eqn:E3;
      try (cbn; intros [= <-]; discriminate).
    cbn [world].
    destruct (B (session_browser_get_endpoint_url session) w3) as [[e|u] w4] eqn:E4;
      [cbn; intros [= <-]; discriminate|].
    cbn. intros [= <-] _. exists got, session, w2, w3, w4, u. auto.
Qed.

End ClientProofs.

(** ** The client's properties on the stand-in services *)

Section ClientWitnesses.
Import Py Client ClientSpec.

(** When the service cannot be reached: [read_file] hands back the failure
    of the lookup, which describes the exception, whatever the fuel; and the
    listing, its first page request raising, returns its failed envelope
    after that one request. *)
Lemma no_exception_escapes_witness :
  (forall fuel' : nat,
      fst (run (perform Doubles.unreachable_backend fuel'
                  (op_read_file (lit "sess-0") (lit "/tmp/a"))) tt)
      = Returned (failed (Some (lit "Failed to get session info: connection refused"))))
  /\ describes (op_read_file (lit "sess-0") (lit "/tmp/a"))
       (Exception (lit "connection refused"))
       (failed (Some (lit "Failed to get session info: connection refused")))
  /\ run (perform Doubles.unreachable_backend 1 op_list_sessions) tt
     = (Returned (failed (Some (lit "Failed to list sessions: connection refused"))),
        mkState tt [Ev (client_list dify_labels 1 100)
                       (Some (Exception (lit "connection refused")))]).
Proof.
  pose proof (no_exception_escapes Doubles.unreachable_backend 1
                (op_read_file (lit "sess-0") (lit "/tmp/a")) tt) as Hread.
  pose proof (no_exception_escapes Doubles.unreachable_backend 1
                op_list_sessions tt) as Hlist.
  destruct Hread as (Hdescribes & Hreturns & _).
  destruct Hlist as (_ & _ & Hraises).
  refine (conj _ (conj _ _)).
  - destruct Hreturns as (r & s' & Hrun); [discriminate|].
    intros fuel'. rewrite Hrun, <- (Hrun 0%nat). reflexivity.
  - cbn in Hdescribes. apply Hdescribes. left. reflexivity.
  - apply (Hraises eq_refl 0%nat (mkState tt [])
             (Exception (lit "connection refused")) tt).
    + reflexivity.
    + reflexivity.
    + apply le_n.
Defined.

(** On a service that knows no session, [run_code] on "sess-404" returns
    the lookup's failure after the lookup alone. *)
Lemma absent_session_fails_fast_witness :
  run (perform Doubles.empty_backend 0
         (op_run_code (lit "sess-404") (lit "print(1)") (lit "python"))) tt
  = (Returned (failed (Some (lit "Session sess-404 does not exist or is inaccessible"))),
     mkState tt [Ev (client_get_session (lit "sess-404")) None]).
Proof.
  apply (@absent_session_fails_fast unit Doubles.empty_backend 0
           (op_run_code (lit "sess-404") (lit "print(1)") (lit "python"))
           (lit "sess-404") tt).
  - reflexivity.
  - reflexivity.
  - reflexivity.
Defined.

(** The listing of the account of 250 sessions: three requests, count 250. *)
Lemma list_sessions_pagination_witness :
  run (list_sessions Doubles.paged_backend 3) tt
  = (Returned (succeeded (VDict
       [ ("sessions"%string,
           VList (map session_entry
                    (Doubles.page_of_250 1 ++ Doubles.page_of_250 2
                       ++ Doubles.page_of_250 3)));
         ("count"%string, VInt 250) ])),
     mkState tt [page_request 1; page_request 2; page_request 3]).
Proof.
  assert (P : forall page : Z,
             answers_page Doubles.paged_backend tt page
               (Doubles.page_of_250 page) 250 tt).
  { intros page. eexists. split; [reflexivity|]. cbn. auto. }
  apply (proj1 (list_sessions_pagination Doubles.paged_backend)
           tt tt tt tt _ _ _ 3%nat (P 1%Z) (P 2%Z) (P 3%Z)).
  - reflexivity.
  - reflexivity.
  - reflexivity.
  - apply le_n.
Defined.

(** The loop of the listing has no bound of its own: against a service
    whose total keeps ahead of the ids it hands out, it is still running
    whatever the fuel. *)
Lemma list_sessions_loop_endless (fuel : nat) :
  forall (page : Z) (acc : list str) (s : state unit),
    Z.of_nat (List.length acc) = (page - 1)%Z ->
    fst (list_sessions_loop Doubles.endless_backend fuel page acc s) = Looping.
Proof.
  induction fuel as [|fuel IH]; intros page acc [w log] Hacc; [reflexivity|].
  cbn [world calls] in *.
  rewrite (@list_sessions_loop_step unit Doubles.endless_backend fuel page acc
             w log
             [Doubles.nth_session_id (Z.to_nat page)] (page + 1)%Z w).
  - replace ((page + 1 <=? Z.of_nat (List.length
                (acc ++ [Doubles.nth_session_id (Z.to_nat page)])))%Z
             || negb (nonempty [Doubles.nth_session_id (Z.to_nat page)]))
      with false.
    + apply IH. rewrite length_app. cbn [List.length]. lia.
    + symmetry. rewrite orb_false_r. apply Z.leb_gt.
      rewrite length_app. cbn [List.length]. lia.
  - eexists. split; [reflexivity|]. cbn. auto.
Qed.

(** C2 as stated fails for the listing: against a service that answers
    every page request, never raises, and reports a total that keeps ahead
    of the ids it hands out, [list_sessions] returns no envelope, failed or
    not, however long it runs; after three turns it has made three page
    requests, none of which raised, and is asking on. *)
Lemma list_sessions_endless :
  (forall fuel : nat,
      fst (run (perform Doubles.endless_backend fuel op_list_sessions) tt)
      = Looping)
  /\ run (perform Doubles.endless_backend 3 op_list_sessions) tt
     = (Looping, mkState tt [page_request 1; page_request 2; page_request 3]).
Proof.
  split; [|reflexivity].
  intros fuel. cbn [perform]. unfold run. rewrite list_sessions_unfold.
  pose proof (@list_sessions_loop_endless fuel 1%Z [] (mkState tt []) eq_refl) as H.
  destruct (list_sessions_loop Doubles.endless_backend fuel 1 [] (mkState tt []))
    as [[[r|ids]|e|] s']; cbn in H; try discriminate H. reflexivity.
Qed.

(** C6 as stated fails: the label that [create_session] attaches is
    [{"dify_plugin": "true"}]; it is not [{"plugin": "true"}] and has no key
    "plugin". *)
Lemma ownership_label_is_not_plugin :
  exists labels : dict,
    calls (snd (run (create_session Doubles.obliging_backend (lit "linux_latest")) tt))
    = [Ev (client_create (lit "linux_latest") labels) None]
    /\ labels <> [("plugin"%string, VStr (lit "true"))]
    /\ dict_get "plugin" labels = None
    /\ dict_get "dify_plugin" labels = Some (VStr (lit "true")).
Proof.
  exists [("dify_plugin"%string, VStr (lit "true"))].
  refine (conj eq_refl (conj _ (conj eq_refl eq_refl))).
  discriminate.
Qed.

(** C7 as stated fails: on a service whose browser initialises and gives
    the empty string for an endpoint, [browser_initialize] returns success
    with that empty endpoint in the data; the caller
    ([_execute_playwright_operation]) is the one that turns it down. *)
Lemma browser_initialize_accepts_empty_endpoint :
  fst (run (browser_initialize Doubles.obliging_backend (lit "sess-0")) tt)
  = Returned (succeeded (VDict [ ("initialized"%string, VBool true);
                                 ("endpoint_url"%string, VStr []) ]))
  /\ truthy (VStr []) = false
  /\ BrowserTool.endpoint_of
       (succeeded (VDict [ ("initialized"%string, VBool true);
                           ("endpoint_url"%string, VStr []) ]))
     = inl (failed (Some (lit "Unable to get browser endpoint URL"))).
Proof.
  refine (conj eq_refl (conj eq_refl eq_refl)).
Qed.

(** On that service the browser initialises and the request for the
    endpoint returns the empty string: success, with the empty endpoint. *)
Lemma browser_initialize_outcome_witness :
  fst (run (browser_initialize Doubles.obliging_backend (lit "sess-0")) tt)
  = Returned (succeeded (VDict [ ("initialized"%string, VBool true);
                                 ("endpoint_url"%string, VStr []) ])).
Proof.
  apply (proj1 (proj2 (proj2
           (@browser_initialize_outcome unit Doubles.obliging_backend
              (lit "sess-0") tt
              (succeeded (VDict [("session_id"%string, VStr (lit "sess-0"))]))
              (mkState tt [Ev (client_get_session (lit "sess-0")) None])
              eq_refl eq_refl)))
           {| sr_session := Some (mkSession (lit "sess-0")) |}
           (mkSession (lit "sess-0")) tt tt tt (VStr [])).
  - reflexivity.
  - reflexivity.
  - reflexivity.
  - reflexivity.
Defined.

End ClientWitnesses.

(* ===================================================================== *)
(** * Properties of the bridge and of the browser tool *)
(* ===================================================================== *)

Section BridgeProofs.
Import Py Bridge.

(** A worker that completes within the ceiling: the caller gets its result
    when it completes. *)
Lemma run_browser_action_in_time (t1 t2 : N) (r : BrowserActionResult) :
  (t1 + t2 <= 60)%N ->
  run_browser_action true (After t1 (inr r)) (After t2 tt) = After (t1 + t2) r.
Proof.
  intros H. unfold run_browser_action, _run, future_result, executor_exit.
  cbn [negb]. apply N.leb_le in H. rewrite H. now rewrite N.max_id.
Qed.

(** A worker that completes after the ceiling: [future.result] has raised
    at 60 seconds, but leaving the [with] block waits for the worker, so the
    caller gets the failed envelope only when the worker completes. *)
Lemma run_browser_action_late (t1 t2 : N) (r : str + BrowserActionResult) :
  (60 < t1 + t2)%N ->
  run_browser_action true (After t1 r) (After t2 tt)
  = After (t1 + t2) (failed (lit "Failed to run browser operation: ")).
Proof.
  intros H. unfold run_browser_action, _run, future_result, executor_exit.
  cbn [negb]. apply N.leb_gt in H. rewrite H.
  rewrite N.max_r by (apply N.leb_gt in H; lia).
  now rewrite app_nil_r.
Qed.

(** C5, on the code.  When the action never returns, [run_browser_action]
    never returns either: [future.result(timeout=60)] raises after 60
    seconds, and the exit of the [with ThreadPoolExecutor()] block then
    joins the worker, which never ends.  The same holds when the action
    returns and the teardown does not. *)
Theorem run_browser_action_hangs :
  (forall close : timed unit, run_browser_action true Never close = Never)
  /\ (forall (t : N) (r : str + BrowserActionResult),
        run_browser_action true (After t r) Never = Never).
Proof.
  split.
  - intros close. reflexivity.
  - intros t r. reflexivity.
Qed.

End BridgeProofs.

Section BrowserToolProofs.
Import Py BrowserTool.

Lemma dict_get_set (k k' : string) (v : pyval) (d : dict) :
  dict_get k (dict_set k' v d)
  = if String.eqb k k' then Some v else dict_get k d.
Proof.
  induction d as [|[k0 v0] d IH]; cbn.
  - now destruct (String.eqb k k').
  - destruct (String.eqb k' k0) eqn:E0; cbn.
    + apply String.eqb_eq in E0. subst k0.
      now destruct (String.eqb k k').
    + destruct (String.eqb k k0) eqn:E1.
      * apply String.eqb_eq in E1. subst k0.
        rewrite String.eqb_sym in E0. now rewrite E0.
      * exact IH.
Qed.

(** Updating with entries none of which has the key [k] leaves the entry of
    [k] as it was. *)
Lemma dict_get_update_other (k : string) (e d : dict) :
  Forall (fun kv => String.eqb k (fst kv) = false) e ->
  dict_get k (dict_update d e) = dict_get k d.
Proof.
  unfold dict_update. intros H. revert d.
  induction H as [|[k' v'] e Hk _ IH]; intros d; cbn [fold_left fst snd].
  - reflexivity.
  - rewrite IH, dict_get_set. cbn in Hk. now rewrite Hk.
Qed.

(** Whatever the data of a screenshot result, the JSON echo has no entry
    under [screenshot_data]. *)
Lemma response_data_drops_screenshot_data (session_id : str)
    (operation_time : QArith_base.Q) (data : option dict) :
  dict_get "screenshot_data"
    (response_data session_id (lit "screenshot") operation_time data) = None.
Proof.
  unfold response_data.
  replace (str_eqb (lit "screenshot") (lit "screenshot")) with true by reflexivity.
  cbn [andb].
  destruct (data_truthy data) eqn:Ht.
  - rewrite dict_get_update_other; [reflexivity|].
    apply Forall_forall. intros [k v] Hin.
    apply filter_In in Hin. destruct Hin as [_ Hk]. cbn [fst] in *.
    apply negb_true_iff in Hk. now rewrite String.eqb_sym.
  - destruct data as [[|kv d]|]; try discriminate Ht; reflexivity.
Qed.

(** C8.  The JSON echo of a screenshot never has an entry
    [screenshot_data], whatever the data of the result, and the JSON echo of
    a failed operation holds no raw bytes.  For the result of [screenshot],
    whatever the driver did: no JSON message holds raw bytes.  The result is
    a success only when the driver handed back image bytes, and then the
    result holds those very bytes, and the messages are those bytes in a
    blob message (when there are any) followed by a JSON echo that carries
    the format and the length of those bytes.  And whenever the driver hands
    back bytes on a page that is connected, the result is a success. *)
Theorem screenshot_bytes_stay_out_of_json (page : bool)
    (connect_result : Bridge.BrowserActionResult) (shot : str + list N)
    (full_page : bool) (session_id : str) (operation_time : QArith_base.Q) :
  (forall data : option dict,
      dict_get "screenshot_data"
        (response_data session_id (lit "screenshot") operation_time data) = None)
  /\ (forall (action : str) (result : Bridge.BrowserActionResult) (d : dict),
      Bridge.success result = false ->
      In (json_message d)
         (result_messages session_id action operation_time result) ->
      has_bytes (VDict d) = false)
  /\ (forall d : dict,
      In (json_message d)
         (result_messages session_id (lit "screenshot") operation_time
            (Bridge.screenshot page connect_result shot full_page)) ->
      has_bytes (VDict d) = false /\ dict_get "screenshot_data" d = None)
  /\ (Bridge.success (Bridge.screenshot page connect_result shot full_page) = true ->
      exists screenshot_data : list N,
        shot = inr screenshot_data
        /\ Bridge.data (Bridge.screenshot page connect_result shot full_page)
           = Some [ ("screenshot_data"%string, VBytes screenshot_data);
                    ("format"%string, VStr (lit "png"));
                    ("full_page"%string, VBool full_page);
                    ("size"%string, VInt (Z.of_nat (List.length screenshot_data))) ]
        /\ result_messages session_id (lit "screenshot") operation_time
             (Bridge.screenshot page connect_result shot full_page)
           = (if Client.nonempty screenshot_data
              then [ blob_message (VBytes screenshot_data)
                       [ ("mime_type"%string, VStr (lit "image/png"));
                         ("filename"%string, VStr (lit "screenshot.png")) ] ]
              else [])
             ++ [ json_message
                    [ ("session_id"%string, VStr session_id);
                      ("action"%string, VStr (lit "screenshot"));
                      ("success"%string, VBool true);
                      ("operation_time"%string, VFloat operation_time);
                      ("format"%string, VStr (lit "png"));
                      ("full_page"%string, VBool full_page);
                      ("size"%string, VInt (Z.of_nat (List.length screenshot_data))) ] ])
  /\ (forall screenshot_data : list N,
      shot = inr screenshot_data ->
      negb page && negb (Bridge.success connect_result) = false ->
      Bridge.success (Bridge.screenshot page connect_result shot full_page) = true).
Proof.
  assert (Hfail : forall (action : str) (r : Bridge.BrowserActionResult) (d : dict),
             Bridge.success r = false ->
             In (json_message d)
                (result_messages session_id action operation_time r) ->
             has_bytes (VDict d) = false /\ dict_get "screenshot_data" d = None).
  { intros action r d Hr. unfold result_messages. rewrite Hr.
    intros [[= <-]|[]]. unfold failure_data.
    destruct (Bridge.error r); split; reflexivity. }
  assert (Hshot : forall (b : list N),
             result_messages session_id (lit "screenshot") operation_time
               (Bridge.succeeded
                  [ ("screenshot_data"%string, VBytes b);
                    ("format"%string, VStr (lit "png"));
                    ("full_page"%string, VBool full_page);
                    ("size"%string, VInt (Z.of_nat (List.length b))) ])
             = (if Client.nonempty b
                then [ blob_message (VBytes b)
                         [ ("mime_type"%string, VStr (lit "image/png"));
                           ("filename"%string, VStr (lit "screenshot.png")) ] ]
                else [])
               ++ [ json_message
                      [ ("session_id"%string, VStr session_id);
                        ("action"%string, VStr (lit "screenshot"));
                        ("success"%string, VBool true);
                        ("operation_time"%string, VFloat operation_time);
                        ("format"%string, VStr (lit "png"));
                        ("full_page"%string, VBool full_page);
                        ("size"%string, VInt (Z.of_nat (List.length b))) ] ]).
  { intros b. destruct b as [|c b]; reflexivity. }
  split; [intros data; apply response_data_drops_screenshot_data|].
  split; [intros action r d Hr Hin; now apply (Hfail action r d)|].
  unfold Bridge.screenshot.
  destruct (negb page && negb (Bridge.success connect_result)) eqn:Hc.
  - apply andb_true_iff in Hc. destruct Hc as [_ Hc].
    apply negb_true_iff in Hc. split; [|split].
    + intros d. now apply Hfail.
    + intros Hs. congruence.
    + intros b _ Hn. discriminate Hn.
  - destruct shot as [e|b].
    + split; [|split].
      * intros d. now apply Hfail.
      * intros Hs. discriminate Hs.
      * intros b Hb. discriminate Hb.
    + split; [|split].
      * intros d. rewrite Hshot.
        destruct b as [|c b]; cbn [Client.nonempty app].
        -- intros [[= <-]|[]]. split; reflexivity.
        -- intros [[=]|[[= <-]|[]]]. split; reflexivity.
      * intros _. exists b. split; [reflexivity|]. split; [reflexivity|].
        apply Hshot.
      * intros b' _ _. reflexivity.
Qed.

(** The theorem above for a three-byte image taken on a connected page:
    those three bytes go out in the blob message, and the JSON echo gives
    the format and the size 3, and no bytes. *)
Lemma screenshot_bytes_stay_out_of_json_witness :
  result_messages (lit "sess-0") (lit "screenshot") (QArith_base.Qmake 1 2)
    (Bridge.screenshot true (Bridge.failed []) (inr [137; 80; 78]%N) true)
  = [ blob_message (VBytes [137; 80; 78]%N)
        [ ("mime_type"%string, VStr (lit "image/png"));
          ("filename"%string, VStr (lit "screenshot.png")) ];
      json_message
        [ ("session_id"%string, VStr (lit "sess-0"));
          ("action"%string, VStr (lit "screenshot"));
          ("success"%string, VBool true);
          ("operation_time"%string, VFloat (QArith_base.Qmake 1 2));
          ("format"%string, VStr (lit "png"));
          ("full_page"%string, VBool true);
          ("size"%string, VInt 3) ] ].
Proof.
  destruct (proj1 (proj2 (proj2 (proj2
              (screenshot_bytes_stay_out_of_json true (Bridge.failed [])
                 (inr [137; 80; 78]%N) true (lit "sess-0")
                 (QArith_base.Qmake 1 2))))) eq_refl)
    as (screenshot_data & Hshot & _ & Hmessages).
  injection Hshot as <-. exact Hmessages.
Defined.

End BrowserToolProofs.

(* ===================================================================== *)
(** * Further properties of the stateless client *)
(* ===================================================================== *)

Section ClientScriptProofs.
Import Py Client ClientSpec ClientScript.
Variable W : Type.
Variable B : Backend W.

Ltac split_case :=
  match goal with
  | |- context [match ?x with _ => _ end] =>
      lazymatch x with
      | context [match _ with _ => _ end] => fail
      | context [list_sessions_loop] => fail
      | _ => destruct x eqn:?
      end
  end.

Ltac crunch :=
  repeat (cbn -[lit Z.leb Z.add Z.of_nat Z.le List.length permitted] in *;
          try split_case).

Ltac open_operation :=
  unfold run, create_session, execute_command,
    delete_session, read_file, write_file, list_directory, run_code,
    ui_screenshot, ui_click, ui_type, ui_key, browser_initialize,
    get_installed_apps, list_windows;
  unfold get_session_info, try_except, bind, remote, ret, attr, attr_of,
    raise, out_of_fuel.

Ltac last_raised :=
  first
    [ left; reflexivity
    | right;
      first
        [ solve [exists []; do 3 eexists; split; reflexivity]
        | solve [eexists (_ :: nil); do 3 eexists; split; reflexivity]
        | solve [eexists (_ :: _ :: nil); do 3 eexists; split; reflexivity]
        | solve [eexists (_ :: _ :: _ :: nil); do 3 eexists; split; reflexivity] ] ].

Lemma list_request_permitted (page : Z) (x : option exn) :
  (1 <= page)%Z ->
  permitted op_list_sessions (Ev (client_list dify_labels page 100) x).
Proof. intros H. cbn. auto. Qed.

(** What a run of the pagination loop from page [page >= 1] adds to the
    log: requests of the listing for pages from 1 on, of which only the last
    can have raised, and then the loop ends with that exception. *)
Lemma list_sessions_loop_script (fuel : nat) :
  forall (page : Z) (acc : list str) (s : state W),
    (1 <= page)%Z ->
    exists evs : list event,
      calls (snd (list_sessions_loop B fuel page acc s)) = calls s ++ evs
      /\ Forall (permitted op_list_sessions) evs
      /\ raises_at_most_last evs.
Proof.
  induction fuel as [|fuel IH]; intros page acc s Hpage.
  - exists []. cbn. rewrite app_nil_r. repeat split; [constructor | now left].
  - pose proof (fun x => @list_request_permitted page x Hpage) as Hp.
    cbn [list_sessions_loop]. open_operation.
    destruct (B (client_list dify_labels page 100) (world s)) as [[e|a] w'].
    + exists [Ev (client_list dify_labels page 100) (Some e)].
      cbn [snd calls]. repeat split.
      * constructor; [apply Hp | constructor].
      * right. exists [], _, (client_list dify_labels page 100), e. auto.
    + crunch;
        try (eexists (_ :: nil); cbn [snd calls]; split; [reflexivity|];
             split; [constructor; [apply Hp | constructor] | now left]).
      all: match goal with
           | |- context [list_sessions_loop B ?f ?p ?a ?st] =>
               destruct (IH p a st) as (evs & Hc & Hl & Hr); [lia|];
               exists (Ev (client_list dify_labels page 100) None :: evs);
               rewrite Hc; cbn [calls];
               rewrite <- app_assoc; cbn [app];
               split; [reflexivity|]; split; [constructor; [apply Hp | exact Hl]|];
               destruct Hr as [Hr | (front & R & c & e & -> & Hr)];
               [ left; exact Hr
               | right;
                 exists (Ev (client_list dify_labels page 100) None :: front),
                        R, c, e; split; [reflexivity | exact Hr] ]
           end.
Qed.

Lemma list_sessions_calls (fuel : nat) (s : state W) :
  calls (snd (list_sessions B fuel s))
  = calls (snd (list_sessions_loop B fuel 1 [] s)).
Proof.
  unfold list_sessions, try_except, bind, ret.
  now destruct (list_sessions_loop B fuel 1 [] s) as [[[r|l]|e|] s'].
Qed.

(** X1.  Whatever the remote service answers, an operation only issues the
    calls that belong to it, with the arguments it was given: the lookup and
    the handle request are for its own session id, the action carries the
    caller's arguments unchanged, the creation and the listing carry the
    ownership label, and the listing asks for pages from 1 on, 100 ids at a
    time. *)
Theorem calls_permitted (fuel : nat) (o : operation) (w : W) :
  Forall (permitted o) (calls (snd (run (perform B fuel o) w))).
Proof.
  destruct o; cbn [perform];
    try (open_operation; crunch; repeat constructor; cbn; auto).
  unfold run. rewrite list_sessions_calls.
  destruct (@list_sessions_loop_script fuel 1%Z [] (mkState w []))
    as (evs & Hc & Hl & _); [lia|].
  rewrite Hc. exact Hl.
Qed.

(** X2.  An operation never goes on after a remote call has raised, and
    never retries: in its log at most one call raised, and that call is the
    last one. *)
Theorem exception_ends_operation (fuel : nat) (o : operation) (w : W) :
  raises_at_most_last (calls (snd (run (perform B fuel o) w))).
Proof.
  destruct o; cbn [perform];
    try (open_operation; crunch; last_raised).
  unfold run. rewrite list_sessions_calls.
  destruct (@list_sessions_loop_script fuel 1%Z [] (mkState w []))
    as (evs & Hc & _ & Hr); [lia|].
  rewrite Hc. exact Hr.
Qed.

(** X3.  Every operation but the listing issues at least one and at most
    [call_budget] remote calls (one for creation and lookup, two for the
    operations that build their handle themselves, four for the browser,
    three otherwise), and an operation that acts on a session issues the
    lookup of that session first. *)
Theorem lookup_first_within_budget (fuel : nat) (o : operation) (w : W) :
  (o <> op_list_sessions ->
   (1 <= List.length (calls (snd (run (perform B fuel o) w))) <= call_budget o)%nat)
  /\ (forall sid : str,
        acts_on o = Some sid ->
        exists (x : option exn) (rest : list event),
          calls (snd (run (perform B fuel o) w))
          = Ev (client_get_session sid) x :: rest).
Proof.
  split.
  - intros Ho. destruct o; try congruence; clear Ho; cbn [perform call_budget];
      open_operation; crunch; cbn [List.length]; lia.
  - intros sid Hsid. destruct o; cbn in Hsid; try discriminate;
      injection Hsid as ->; cbn [perform];
      open_operation; crunch; eauto.
Qed.

Section PagingProofs.
Import Paging.
Variable ws : nat -> W.
Variable ids : nat -> list str.
Variable tot : nat -> Z.

Lemma gathered_succ (j : nat) : gathered ids (S j) = gathered ids j ++ ids j.
Proof.
  unfold gathered. rewrite seq_S, map_app, concat_app. cbn.
  now rewrite app_nil_r.
Qed.

Lemma page_number_succ (j : nat) : (page_number j + 1)%Z = page_number (S j).
Proof. unfold page_number. lia. Qed.

(** While the pages are answered and do not end the loop, the loop goes
    from page to page, gathering their ids. *)
Lemma list_sessions_loop_skips (d : nat) :
  forall (j fuel : nat) (log : list event),
    (forall i : nat, (j <= i < j + d)%nat ->
                     answered ws ids tot B i /\ stops ids tot i = false) ->
    list_sessions_loop B (d + fuel) (page_number j) (gathered ids j)
      (mkState (ws j) log)
    = list_sessions_loop B fuel (page_number (j + d)) (gathered ids (j + d))
        (mkState (ws (j + d)) (log ++ page_requests j d)).
Proof.
  induction d as [|d IH]; intros j fuel log H.
  - rewrite Nat.add_0_r. cbn. now rewrite app_nil_r.
  - destruct (H j ltac:(lia)) as [Ha Hs].
    cbn [Nat.add].
    rewrite (list_sessions_loop_step (B := B) (d + fuel) (gathered ids j) log Ha).
    rewrite <- gathered_succ. unfold stops in Hs. rewrite Hs.
    rewrite page_number_succ, IH by (intros i Hi; apply H; lia).
    rewrite <- Nat.add_succ_comm, <- app_assoc. reflexivity.
Qed.

(** X4.  When the service answers the pages 1 to n + 1, the first n of
    them not ending the loop and page n + 1 ending it (the ids gathered
    reach its total, or it is empty), [list_sessions] asks for exactly those
    pages, in order, and returns the success envelope of all their ids, in
    page order. *)
Theorem list_sessions_all_pages (n fuel : nat) :
  (forall j : nat, (j <= n)%nat -> answered ws ids tot B j) ->
  (forall j : nat, (j < n)%nat -> stops ids tot j = false) ->
  stops ids tot n = true ->
  (n < fuel)%nat ->
  run (list_sessions B fuel) (ws 0)
  = (Returned (listing (gathered ids (S n))),
     mkState (ws (S n)) (page_requests 0 (S n))).
Proof.
  intros Ha Hgo Hstop Hfuel.
  unfold run. rewrite list_sessions_unfold.
  replace fuel with (n + S (fuel - S n))%nat by lia.
  change (list_sessions_loop B (n + S (fuel - S n)) 1 [] (mkState (ws 0) []))
    with (list_sessions_loop B (n + S (fuel - S n)) (page_number 0)
            (gathered ids 0) (mkState (ws 0) [])).
  rewrite (@list_sessions_loop_skips n 0 (S (fuel - S n)) [])
    by (intros i Hi; split; [apply Ha | apply Hgo]; lia).
  cbn [Nat.add app].
  rewrite (list_sessions_loop_step (B := B) (fuel - S n) (gathered ids n)
             (page_requests 0 n) (Ha n (le_n n))).
  rewrite <- gathered_succ. unfold stops in Hstop. rewrite Hstop.
  unfold page_requests. rewrite seq_S, map_app. reflexivity.
Qed.

(** X5.  When a page reports a failure, the whole listing fails with the
    message of that page: the ids gathered from the pages before are
    dropped. *)
Theorem list_sessions_failed_page (n fuel : nat) (result : SessionListResult)
    (w' : W) :
  (forall j : nat, (j < n)%nat ->
                   answered ws ids tot B j /\ stops ids tot j = false) ->
  B (client_list dify_labels (page_number n) 100) (ws n) = (inr result, w') ->
  sl_success result = false ->
  (n < fuel)%nat ->
  run (list_sessions B fuel) (ws 0)
  = (Returned (failed (Some (lit "Failed to query session list: "
                               ++ fmt (sl_error_message result)))),
     mkState w' (page_requests 0 n ++ [page_request (page_number n)])).
Proof.
  intros Hgo HB Hfail Hfuel.
  unfold run. rewrite list_sessions_unfold.
  replace fuel with (n + S (fuel - S n))%nat by lia.
  change (list_sessions_loop B (n + S (fuel - S n)) 1 [] (mkState (ws 0) []))
    with (list_sessions_loop B (n + S (fuel - S n)) (page_number 0)
            (gathered ids 0) (mkState (ws 0) [])).
  rewrite (@list_sessions_loop_skips n 0 (S (fuel - S n)) [])
    by (intros i Hi; apply Hgo; lia).
  cbn [Nat.add app list_sessions_loop].
  unfold bind, remote, ret. cbn [world calls].
  rewrite HB, Hfail. reflexivity.
Qed.

End PagingProofs.

(** X6.  When the answer to the first page has no [total] attribute, the
    loop takes the length of that page for the total and ends at once:
    [list_sessions] asks for page 1 only and returns the ids of that page. *)
Theorem list_sessions_without_total (fuel : nat) (w w' : W)
    (result : SessionListResult) (page_ids : list str) :
  B (client_list dify_labels 1 100) w = (inr result, w') ->
  sl_success result = true ->
  sl_session_ids result = Some page_ids ->
  sl_total result = None ->
  (1 <= fuel)%nat ->
  run (list_sessions B fuel) w
  = (Returned (listing page_ids), mkState w' [page_request 1]).
Proof.
  intros HB Hs Hi Ht Hfuel. destruct fuel as [|fuel]; [lia|].
  unfold run. rewrite list_sessions_unfold.
  cbn [list_sessions_loop]. unfold bind, remote, ret, attr_of. cbn [world calls].
  rewrite HB, Hs, Hi, Ht. cbn [negb app].
  destruct page_ids as [|i l]; cbn [nonempty app].
  - reflexivity.
  - now rewrite Z.leb_refl.
Qed.

End ClientScriptProofs.

(* ===================================================================== *)
(** * The matcher is the language *)
(* ===================================================================== *)

Section RegexProofs.
Import Py Re.

Ltac inv H := inversion H; subst; clear H.

Lemma nullable_lang (r : regex) : nullable r = true <-> lang r [].
Proof.
  induction r as [| |p|r1 IH1 r2 IH2|r1 IH1 r2 IH2|r IH]; cbn; split; intros H;
    try discriminate; try (now constructor).
  - inv H.
  - inv H.
  - apply andb_true_iff in H. destruct H as [H1 H2].
    change (@nil codepoint) with (@nil codepoint ++ []).
    constructor; [now apply IH1 | now apply IH2].
  - inversion H; subst.
    match goal with E : _ ++ _ = [] |- _ =>
      apply app_eq_nil in E; destruct E as [-> ->] end.
    apply andb_true_iff. split; [now apply IH1 | now apply IH2].
  - apply orb_true_iff in H. destruct H as [H|H];
      [apply lang_alt_l; now apply IH1 | apply lang_alt_r; now apply IH2].
  - apply orb_true_iff.
    inv H; [left; now apply IH1 | right; now apply IH2].
Qed.

Lemma star_cons_inv (r : regex) (c : codepoint) (s : str) :
  lang (Star r) (c :: s) ->
  exists s1 s2 : str, s = s1 ++ s2 /\ lang r (c :: s1) /\ lang (Star r) s2.
Proof.
  intros H. remember (Star r) as r' eqn:Er. remember (c :: s) as cs eqn:Es.
  induction H as [| | | | | |r0 s1 s2 H1 _ H2 IH2]; try discriminate.
  injection Er as ->.
  destruct s1 as [|c1 s1].
  - cbn in Es. now apply IH2.
  - cbn in Es. injection Es as -> <-. now exists s1, s2.
Qed.

Lemma cat_cons_inv (r1 r2 : regex) (c : codepoint) (s : str) :
  lang (Cat r1 r2) (c :: s) ->
  (lang r1 [] /\ lang r2 (c :: s))
  \/ exists s1 s2 : str, s = s1 ++ s2 /\ lang r1 (c :: s1) /\ lang r2 s2.
Proof.
  intros H. inversion H as [| |? ? s1 s2 Ha Hb| | | |]; subst.
  destruct s1 as [|c1 s1].
  - left. cbn in *. subst. now split.
  - right. cbn in *.
    match goal with E : _ :: _ = _ :: _ |- _ => injection E as -> <- end.
    now exists s1, s2.
Qed.

Lemma deriv_lang (r : regex) :
  forall (c : codepoint) (s : str), lang (deriv c r) s <-> lang r (c :: s).
Proof.
  induction r as [| |p|r1 IH1 r2 IH2|r1 IH1 r2 IH2|r IH]; intros c s; cbn;
    split; intros H.
  - inv H.
  - inv H.
  - inv H.
  - inv H.
  - destruct (p c) eqn:E; inv H. now constructor.
  - inv H. match goal with E : p _ = true |- _ => rewrite E end. constructor.
  - inv H.
    + match goal with H1 : lang (Cat _ _) _ |- _ => inv H1 end.
      match goal with |- lang _ (c :: ?a ++ ?b) =>
        change (c :: a ++ b) with ((c :: a) ++ b) end.
      constructor; [now apply IH1 | assumption].
    + destruct (nullable r1) eqn:E;
        [|match goal with H1 : lang Void _ |- _ => inv H1 end].
      change (c :: s) with ([] ++ c :: s).
      constructor; [now apply nullable_lang | now apply IH2].
  - destruct (cat_cons_inv H) as [[Ha Hb] | (s1 & s2 & -> & Ha & Hb)].
    + apply lang_alt_r. apply nullable_lang in Ha. rewrite Ha. now apply IH2.
    + apply lang_alt_l. constructor; [now apply IH1 | exact Hb].
  - inv H; [apply lang_alt_l; now apply IH1 | apply lang_alt_r; now apply IH2].
  - inv H; [apply lang_alt_l; now apply IH1 | apply lang_alt_r; now apply IH2].
  - inv H.
    match goal with |- lang _ (c :: ?a ++ ?b) =>
      change (c :: a ++ b) with ((c :: a) ++ b) end.
    constructor; [now apply IH | assumption].
  - destruct (star_cons_inv H) as (s1 & s2 & -> & Ha & Hb).
    constructor; [now apply IH | exact Hb].
Qed.

Lemma matches_lang (s : str) :
  forall r : regex, matches r s = true <-> lang r s.
Proof.
  unfold matches. induction s as [|c s IH]; intros r; cbn.
  - apply nullable_lang.
  - rewrite IH. apply deriv_lang.
Qed.

Lemma anything_star (s : str) : lang (Star anything) s.
Proof.
  induction s as [|c s IH]; [constructor|].
  change (c :: s) with ([c] ++ s). constructor; [now constructor | exact IH].
Qed.

(** [re.search] finds a match exactly when some substring is in the
    language of the pattern. *)
Lemma search_lang (r : regex) (s : str) :
  search r s = true
  <-> exists pre m post : str, s = pre ++ m ++ post /\ lang r m.
Proof.
  unfold search. rewrite matches_lang. split.
  - intros H. inversion H as [| |? ? pre rest Hp Hr| | | |]; subst.
    inversion Hr as [| |? ? m post Hm Hq| | | |]; subst.
    now exists pre, m, post.
  - intros (pre & m & post & -> & Hm).
    constructor; [apply anything_star|].
    constructor; [exact Hm | apply anything_star].
Qed.

(** [re.match] finds a match exactly when some prefix is in the language
    of the pattern. *)
Lemma match_prefix_lang (r : regex) (s : str) :
  match_prefix r s = true <-> exists m post : str, s = m ++ post /\ lang r m.
Proof.
  unfold match_prefix. rewrite matches_lang. split.
  - intros H. inversion H as [| |? ? m post Hm Hq| | | |]; subst.
    now exists m, post.
  - intros (m & post & -> & Hm). constructor; [exact Hm | apply anything_star].
Qed.

Lemma lang_seq_of_app (rs1 rs2 : list regex) (s1 s2 : str) :
  lang (seq_of rs1) s1 -> lang (seq_of rs2) s2 ->
  lang (seq_of (rs1 ++ rs2)) (s1 ++ s2).
Proof.
  revert s1. induction rs1 as [|r rs1 IH]; intros s1 H1 H2; cbn in *.
  - inversion H1; subst. exact H2.
  - inversion H1 as [| |? ? a b Ha Hb| | | |]; subst.
    rewrite <- app_assoc. constructor; [exact Ha | now apply IH].
Qed.

(** A sequence of character classes matches the strings that go through the
    classes one by one. *)
Lemma lang_classes (ps : list (codepoint -> bool)) (s : str) :
  lang (seq_of (map Chr ps)) s <-> Forall2 (fun p c => p c = true) ps s.
Proof.
  revert s. induction ps as [|p ps IH]; intros s; cbn; split; intros H.
  - inversion H. constructor.
  - inversion H. constructor.
  - inversion H as [| |? ? a b Ha Hb| | | |]; subst.
    inversion Ha; subst. cbn. constructor; [assumption | now apply IH].
  - inversion H as [|? c ? s' Hp Hs]; subst.
    change (c :: s') with ([c] ++ s').
    constructor; [now constructor | now apply IH].
Qed.

Lemma lang_plus (r : regex) (s : str) :
  (forall c, In c s -> lang r [c]) -> s <> [] -> lang (plus r) s.
Proof.
  intros H Hs. destruct s as [|c s]; [congruence|]. clear Hs.
  unfold plus. change (c :: s) with ([c] ++ s).
  constructor; [apply H; now left|].
  assert (Hrest : forall x, In x s -> lang r [x]) by (intros x Hx; apply H; now right).
  clear H. induction s as [|x s IH]; [constructor|].
  change (x :: s) with ([x] ++ s).
  constructor; [apply Hrest; now left | apply IH; intros y Hy; apply Hrest; now right].
Qed.

Lemma literal_lang (l : string) (m : str) : lang (literal l) m <-> m = lit l.
Proof.
  unfold literal. generalize (lit l) as cs. intros cs. revert m.
  induction cs as [|c cs IH]; intros m; cbn; split; intros H.
  - now inv H.
  - subst. constructor.
  - inv H. match goal with H1 : lang (exactly _) _ |- _ => inv H1 end.
    match goal with E : (_ =? _)%N = true |- _ => apply N.eqb_eq in E; subst end.
    cbn. f_equal. now apply IH.
  - subst. change (c :: cs) with ([c] ++ cs).
    constructor; [constructor; apply N.eqb_refl | now apply IH].
Qed.

Lemma startswith_app (p s : str) :
  Text.startswith p s = true <-> exists rest : str, s = p ++ rest.
Proof.
  revert s. induction p as [|a p IH]; intros s; cbn.
  - split; [now exists s | reflexivity].
  - destruct s as [|b s]; [split; [discriminate | intros (? & [=])]|].
    rewrite andb_true_iff, N.eqb_eq, IH. split.
    + intros (-> & rest & ->). now exists rest.
    + intros (rest & [= -> ->]). split; [reflexivity | now exists rest].
Qed.

(** [^literal.*] tried with [re.match] is a prefix test. *)
Lemma match_prefix_literal_dots (l : string) (s : str) :
  match_prefix (Cat (literal l) (Star dot)) s = Text.startswith (lit l) s.
Proof.
  apply eq_true_iff_eq. rewrite match_prefix_lang, startswith_app. split.
  - intros (m & post & -> & H). inv H.
    match goal with H1 : lang (literal _) _ |- _ => apply literal_lang in H1; subst end.
    rewrite <- app_assoc. eauto.
  - intros (rest & ->). exists (lit l), rest. split; [reflexivity|].
    assert (H : lang (Cat (literal l) (Star dot)) (lit l ++ []))
      by (constructor; [now apply literal_lang | constructor]).
    now rewrite app_nil_r in H.
Qed.

Lemma match_prefix_literal (l : string) (s : str) :
  match_prefix (literal l) s = Text.startswith (lit l) s.
Proof.
  apply eq_true_iff_eq. rewrite match_prefix_lang, startswith_app. split.
  - intros (m & post & -> & H). apply literal_lang in H. subst. eauto.
  - intros (rest & ->). exists (lit l), rest. split; [reflexivity|].
    now apply literal_lang.
Qed.

(** [^[class].*] tried with [re.match] is a test of the first character. *)
Lemma match_prefix_class_dots (p : codepoint -> bool) (s : str) :
  match_prefix (Cat (Chr p) (Star dot)) s
  = match s with c :: _ => p c | [] => false end.
Proof.
  apply eq_true_iff_eq. rewrite match_prefix_lang. split.
  - intros (m & post & -> & H). inv H.
    match goal with H1 : lang (Chr _) _ |- _ => inv H1 end. assumption.
  - destruct s as [|c s]; [discriminate|]. intros Hp.
    exists [c], s. split; [reflexivity|].
    change [c] with ([c] ++ []). constructor; [now constructor | constructor].
Qed.

End RegexProofs.

(* ===================================================================== *)
(** * Properties of the other validators *)
(* ===================================================================== *)

Section Validator2Proofs.
Import Py Re Text Validators2 ValidatorSpec.

Ltac inv H := inversion H; subst; clear H.

(** X7.  The four safe-path patterns amount to a prefix test:
    [validate_file_path] accepts exactly the strings that do not contain
    [..] and either start with [/tmp/], start with [/home/], or do not start
    with a slash.  The empty string, and every other absolute path, is
    rejected. *)
Theorem validate_file_path_is_prefix_test (s : str) :
  validate_file_path (VStr s)
  = negb (contains (lit "..") s)
    && (startswith (lit "/tmp/") s || startswith (lit "/home/") s
        || relative s).
Proof.
  unfold validate_file_path, SAFE_PATH_PATTERNS.
  destruct s as [|c s]; [reflexivity|].
  cbn [truthy isinstance_str negb orb List.length Nat.eqb].
  destruct (contains (lit "..") (c :: s)); [reflexivity|].
  cbn [negb andb existsb].
  rewrite !match_prefix_literal_dots, match_prefix_literal,
    match_prefix_class_dots, orb_false_r.
  unfold relative.
  destruct (startswith (lit "./") (c :: s)) eqn:E;
    [|cbn [orb]; now rewrite orb_assoc].
  change (lit "./") with [46; 47]%N in E. cbn [startswith] in E.
  apply andb_true_iff in E. destruct E as [E _].
  apply N.eqb_eq in E. subst c.
  change (negb (46 =? 47)%N) with true. now rewrite !orb_true_r.
Qed.

Section Tables.
Variable U : unicode.

Lemma spelled_caseless (pattern : string) (text : str) :
  spelled pattern text -> lang (caseless U pattern) text.
Proof.
  unfold spelled, caseless. generalize (lit pattern) as cs. intros cs H.
  induction H as [|c x cs text [Hx Hl] _ IH]; cbn; [constructor|].
  change (x :: text) with ([x] ++ text).
  constructor; [|exact IH].
  constructor. unfold ieq. apply N.ltb_lt in Hx. rewrite Hx.
  now apply N.eqb_eq.
Qed.

Lemma lit_caseless (pattern : string) :
  Forall (fun c => (c < 128)%N) (lit pattern) ->
  lang (caseless U pattern) (lit pattern).
Proof.
  intros H. apply spelled_caseless. unfold spelled.
  induction H; constructor; auto.
Qed.

Lemma blank_space (c : codepoint) : ascii_isspace c = true -> lang (space U) [c].
Proof.
  intros H. constructor. unfold isspace.
  assert (Hc : (c <? 128)%N = true).
  { unfold ascii_isspace in H. apply N.ltb_lt.
    repeat (apply orb_true_iff in H; destruct H as [H|H]);
      try (apply andb_true_iff in H; destruct H as [_ H]);
      try apply N.leb_le in H; try apply N.eqb_eq in H; lia. }
  now rewrite Hc.
Qed.

Lemma blank_plus (ws : str) : blank ws -> lang (plus (space U)) ws.
Proof.
  intros [Hne Hall]. apply lang_plus; [|exact Hne].
  intros c Hc. apply blank_space. rewrite Forall_forall in Hall. now apply Hall.
Qed.

Lemma blank_star (ws : str) : blank_or_empty ws -> lang (Star (space U)) ws.
Proof.
  intros H. induction H as [|c ws Hc _ IH]; [constructor|].
  change (c :: ws) with ([c] ++ ws). constructor; [now apply blank_space | exact IH].
Qed.

Lemma one_line_dots (s : str) : one_line s -> lang (Star dot) s.
Proof.
  intros H. induction H as [|c s Hc _ IH]; [constructor|].
  change (c :: s) with ([c] ++ s). constructor; [|exact IH].
  constructor. apply negb_true_iff. now apply N.eqb_neq.
Qed.

(** A command with a substring in the language of a deny-list pattern is
    rejected. *)
Lemma validate_command_hit (pattern : regex) (pre m post : str) :
  In pattern (DANGEROUS_PATTERNS U) -> lang pattern m ->
  validate_command U (VStr (pre ++ m ++ post)) = false.
Proof.
  intros Hin Hm. unfold validate_command.
  destruct (negb (truthy (VStr (pre ++ m ++ post)))
            || negb (isinstance_str (VStr (pre ++ m ++ post)))); [reflexivity|].
  apply negb_false_iff. apply existsb_exists. exists pattern. split; [exact Hin|].
  apply search_lang. now exists pre, m, post.
Qed.

Ltac pieces :=
  repeat first
    [ apply lang_eps
    | apply lang_cat
    | apply spelled_caseless; assumption
    | apply blank_plus; assumption
    | apply blank_star; assumption
    | apply one_line_dots; assumption
    | apply lit_caseless; repeat constructor ].

(** X8.  The deny-list reaches into the command: wherever they stand in it,
    in whatever ASCII case and with whatever run of white space between the
    words, [rm -rf /], [mkfs.], [dd if=...of=], [curl ...| sh],
    [wget ...| sh], [sudo rm] and [chmod 777] make [validate_command] return
    false (the stretches matched by [.*] being within one line). *)
Theorem validate_command_rejects (pre post : str) :
  (forall rm ws1 rf ws2 : str,
      spelled "rm" rm -> blank ws1 -> spelled "-rf" rf -> blank ws2 ->
      validate_command U
        (VStr (pre ++ (rm ++ ws1 ++ rf ++ ws2 ++ lit "/") ++ post)) = false)
  /\ (forall mkfs : str,
      spelled "mkfs" mkfs ->
      validate_command U (VStr (pre ++ (mkfs ++ lit ".") ++ post)) = false)
  /\ (forall dd ws if_ mid of_ : str,
      spelled "dd" dd -> blank ws -> spelled "if=" if_ -> one_line mid ->
      spelled "of=" of_ ->
      validate_command U
        (VStr (pre ++ (dd ++ ws ++ if_ ++ mid ++ of_) ++ post)) = false)
  /\ (forall fetch mid ws sh : str,
      spelled "curl" fetch \/ spelled "wget" fetch ->
      one_line mid -> blank_or_empty ws -> spelled "sh" sh ->
      validate_command U
        (VStr (pre ++ (fetch ++ mid ++ lit "|" ++ ws ++ sh) ++ post)) = false)
  /\ (forall sudo ws rm : str,
      spelled "sudo" sudo -> blank ws -> spelled "rm" rm ->
      validate_command U (VStr (pre ++ (sudo ++ ws ++ rm) ++ post)) = false)
  /\ (forall chmod ws : str,
      spelled "chmod" chmod -> blank ws ->
      validate_command U
        (VStr (pre ++ (chmod ++ ws ++ lit "777") ++ post)) = false).
Proof.
  refine (conj _ (conj _ (conj _ (conj _ (conj _ _))))).
  - intros rm ws1 rf ws2 H1 H2 H3 H4.
    apply validate_command_hit with
      (pattern := nth 0 (DANGEROUS_PATTERNS U) Void); [cbn; tauto|].
    cbn [nth DANGEROUS_PATTERNS seq_of fold_right].
    rewrite <- (app_nil_r (lit "/")). pieces.
  - intros mkfs H1.
    apply validate_command_hit with
      (pattern := nth 1 (DANGEROUS_PATTERNS U) Void); [cbn; tauto|].
    cbn [nth DANGEROUS_PATTERNS seq_of fold_right].
    rewrite <- (app_nil_r (lit ".")). pieces.
  - intros dd ws if_ mid of_ H1 H2 H3 H4 H5.
    apply validate_command_hit with
      (pattern := nth 2 (DANGEROUS_PATTERNS U) Void); [cbn; tauto|].
    cbn [nth DANGEROUS_PATTERNS seq_of fold_right].
    rewrite <- (app_nil_r of_). pieces.
  - intros fetch mid ws sh [H1|H1] H2 H3 H4.
    + apply validate_command_hit with
        (pattern := nth 4 (DANGEROUS_PATTERNS U) Void); [cbn; tauto|].
      cbn [nth DANGEROUS_PATTERNS seq_of fold_right].
      rewrite <- (app_nil_r sh). pieces.
    + apply validate_command_hit with
        (pattern := nth 5 (DANGEROUS_PATTERNS U) Void); [cbn; tauto|].
      cbn [nth DANGEROUS_PATTERNS seq_of fold_right].
      rewrite <- (app_nil_r sh). pieces.
  - intros sudo ws rm H1 H2 H3.
    apply validate_command_hit with
      (pattern := nth 6 (DANGEROUS_PATTERNS U) Void); [cbn; tauto|].
    cbn [nth DANGEROUS_PATTERNS seq_of fold_right].
    rewrite <- (app_nil_r rm). pieces.
  - intros chmod ws H1 H2.
    apply validate_command_hit with
      (pattern := nth 7 (DANGEROUS_PATTERNS U) Void); [cbn; tauto|].
    cbn [nth DANGEROUS_PATTERNS seq_of fold_right].
    rewrite <- (app_nil_r (lit "777")). pieces.
Qed.

(** X9.  The fork-bomb pattern [:(){ :|:& };:] is a regular expression: its
    parentheses are an empty group and its bar an alternation.  So
    [validate_command] rejects every command that contains [:{ :] or
    [:& };:], and it rejects the fork bomb as written only through the
    second of these. *)
Theorem validate_command_fork_bomb_pattern (pre post : str) :
  validate_command U (VStr (pre ++ lit ":{ :" ++ post)) = false
  /\ validate_command U (VStr (pre ++ lit ":& };:" ++ post)) = false
  /\ validate_command U (VStr (pre ++ lit ":(){ :|:& };:" ++ post)) = false
  /\ (forall m : str,
        lang (nth 3 (DANGEROUS_PATTERNS U) Void) m ->
        List.length m = 4%nat \/ List.length m = 6%nat).
Proof.
  assert (H4 : In (nth 3 (DANGEROUS_PATTERNS U) Void) (DANGEROUS_PATTERNS U))
    by (cbn; tauto).
  refine (conj _ (conj _ (conj _ _))).
  - apply validate_command_hit with (1 := H4).
    cbn [nth DANGEROUS_PATTERNS seq_of fold_right]. apply lang_alt_l.
    change (lit ":{ :") with (lit ":" ++ [] ++ lit "{ :" ++ []). pieces.
  - apply validate_command_hit with (1 := H4).
    cbn [nth DANGEROUS_PATTERNS]. apply lang_alt_r. pieces.
  - change (lit ":(){ :|:& };:") with (lit ":(){ :|" ++ lit ":& };:").
    rewrite <- app_assoc, app_assoc.
    apply validate_command_hit with (1 := H4).
    cbn [nth DANGEROUS_PATTERNS]. apply lang_alt_r. pieces.
  - cbn [nth DANGEROUS_PATTERNS seq_of fold_right]. intros m H. inv H.
    + left. repeat match goal with
             | H : lang (Cat _ _) _ |- _ => inv H
             | H : lang (caseless _ _) _ |- _ => unfold caseless in H; cbn in H
             | H : lang (Chr _) _ |- _ => inv H
             | H : lang Eps _ |- _ => inv H
             end. reflexivity.
    + right. unfold caseless in *. cbn in *.
      repeat match goal with
             | H : lang (Cat _ _) _ |- _ => inv H
             | H : lang (Chr _) _ |- _ => inv H
             | H : lang Eps _ |- _ => inv H
             end. reflexivity.
Qed.

End Tables.
End Validator2Proofs.
(* ===================================================================== *)
(** * The further client and validator properties, at concrete inputs *)
(* ===================================================================== *)

Section MoreWitnesses.
Import Py Client ClientSpec ClientScript Paging Re Text Validators2 ValidatorSpec.

(** Opening a browser on the obliging service: four calls, the lookup of
    the session first. *)
Lemma lookup_first_within_budget_witness :
  (1 <= List.length (calls (snd (run (perform Doubles.obliging_backend 0
          (op_browser_initialize (lit "sess-0"))) tt))) <= 4)%nat
  /\ exists (x : option exn) (rest : list event),
       calls (snd (run (perform Doubles.obliging_backend 0
                          (op_browser_initialize (lit "sess-0"))) tt))
       = Ev (client_get_session (lit "sess-0")) x :: rest.
Proof.
  pose proof (lookup_first_within_budget Doubles.obliging_backend 0
                (op_browser_initialize (lit "sess-0")) tt) as [Hn Hfirst].
  split.
  - apply Hn. discriminate.
  - apply (Hfirst (lit "sess-0")). reflexivity.
Defined.

(** The account of 250 sessions, as a run of three pages. *)
Lemma list_sessions_all_pages_witness :
  run (list_sessions Doubles.paged_backend 3) tt
  = (Returned (listing (gathered
                 (fun j => Doubles.page_of_250 (page_number j)) 3)),
     mkState tt (page_requests 0 3)).
Proof.
  apply (@list_sessions_all_pages unit Doubles.paged_backend (fun _ => tt)
           (fun j => Doubles.page_of_250 (page_number j)) (fun _ => 250%Z)
           2 3).
  - intros j _. eexists. split; [reflexivity|]. cbn. auto.
  - intros j Hj.
    destruct j as [|[|j]]; [reflexivity | reflexivity | lia].
  - reflexivity.
  - lia.
Defined.

(** The second page reports a failure: the 100 ids of the first page are
    dropped and the listing fails. *)
Lemma list_sessions_failed_page_witness :
  run (list_sessions MoreDoubles.failing_second_page_backend 2) tt
  = (Returned (failed (Some (lit "Failed to query session list: quota exceeded"))),
     mkState tt [page_request 1; page_request 2]).
Proof.
  apply (@list_sessions_failed_page unit MoreDoubles.failing_second_page_backend
           (fun _ => tt) (fun j => Doubles.page_of_250 (page_number j))
           (fun _ => 250%Z) 1 2
           {| sl_type_name := lit "SessionListResult";
              sl_success := false;
              sl_session_ids := Some (Doubles.page_of_250 2);
              sl_total := Some 250%Z;
              sl_error_message := Some (lit "quota exceeded") |} tt).
  - intros j Hj. destruct j as [|j]; [|lia]. split.
    + eexists. split; [reflexivity|]. cbn. auto.
    + reflexivity.
  - reflexivity.
  - reflexivity.
  - lia.
Defined.

(** Without a total, the first page of the account of 250 is all the
    listing gives. *)
Lemma list_sessions_without_total_witness :
  run (list_sessions MoreDoubles.untotalled_backend 1) tt
  = (Returned (listing (Doubles.page_of_250 1)), mkState tt [page_request 1]).
Proof.
  apply (@list_sessions_without_total unit MoreDoubles.untotalled_backend
           1 tt tt
           {| sl_type_name := lit "SessionListResult";
              sl_success := true;
              sl_session_ids := Some (Doubles.page_of_250 1);
              sl_total := None;
              sl_error_message := None |}
           (Doubles.page_of_250 1)); reflexivity || apply le_n.
Defined.

End MoreWitnesses.

Section MoreValidatorWitnesses.
Import Py Re Text Validators2 ValidatorSpec.

Local Ltac spell :=
  repeat (constructor; [split; [reflexivity | reflexivity]|]); constructor.
Local Ltac blanks :=
  repeat (constructor; [reflexivity|]); constructor.
Local Ltac same_line :=
  repeat (constructor; [discriminate|]); constructor.

(** [echo hi; RM  -Rf<TAB>/ --no-preserve-root], and one command for each of
    the other patterns. *)
Lemma validate_command_rejects_witness :
  validate_command ascii_only
    (VStr (lit "echo hi; " ++ (lit "RM" ++ lit "  " ++ lit "-Rf" ++ [9%N] ++ lit "/")
             ++ lit " --no-preserve-root")) = false
  /\ validate_command ascii_only
       (VStr (lit "echo hi; " ++ (lit "Mkfs" ++ lit ".")
                ++ lit " --no-preserve-root")) = false
  /\ validate_command ascii_only
       (VStr (lit "echo hi; "
                ++ (lit "dd" ++ lit " " ++ lit "IF=" ++ lit "/dev/zero " ++ lit "of=")
                ++ lit " --no-preserve-root")) = false
  /\ validate_command ascii_only
       (VStr (lit "echo hi; "
                ++ (lit "Wget" ++ lit " -qO- host/x " ++ lit "|" ++ [] ++ lit "SH")
                ++ lit " --no-preserve-root")) = false
  /\ validate_command ascii_only
       (VStr (lit "echo hi; " ++ (lit "SUDO" ++ [9%N; 32%N] ++ lit "rm")
                ++ lit " --no-preserve-root")) = false
  /\ validate_command ascii_only
       (VStr (lit "echo hi; " ++ (lit "chMod" ++ lit " " ++ lit "777")
                ++ lit " --no-preserve-root")) = false.
Proof.
  pose proof (validate_command_rejects ascii_only (lit "echo hi; ")
                (lit " --no-preserve-root"))
    as (Hrm & Hmkfs & Hdd & Hfetch & Hsudo & Hchmod).
  refine (conj _ (conj _ (conj _ (conj _ (conj _ _))))).
  - apply Hrm; [spell | split; [discriminate | blanks] | spell
                | split; [discriminate | blanks]].
  - apply Hmkfs; spell.
  - apply Hdd; [spell | split; [discriminate | blanks] | spell | same_line
                | spell].
  - apply Hfetch; [right; spell | same_line | blanks | spell].
  - apply Hsudo; [spell | split; [discriminate | blanks] | spell].
  - apply Hchmod; [spell | split; [discriminate | blanks]].
Defined.

(** The half [:{ :] of the fork-bomb pattern is a match of it, of length
    four. *)
Lemma validate_command_fork_bomb_pattern_witness :
  validate_command ascii_only (VStr (lit "f() " ++ lit ":{ :" ++ lit "; f")) = false
  /\ (List.length (lit ":{ :") = 4%nat \/ List.length (lit ":{ :") = 6%nat).
Proof.
  pose proof (validate_command_fork_bomb_pattern ascii_only (lit "f() ")
                (lit "; f")) as (Hleft & _ & _ & Hlen).
  split; [exact Hleft|].
  apply Hlen. apply matches_lang. reflexivity.
Defined.

End MoreValidatorWitnesses.

(* ===================================================================== *)
(** * The tools *)
(* ===================================================================== *)

Section SessionListToolProofs.
Import Py Client ClientSpec Dyn Tools SessionListTool.
Variable W : Type.
Variable B : Backend W.
Variable I : interpreter.

(** An envelope that the loop of the listing returns from inside is a
    failure. *)
Lemma list_sessions_loop_early (fuel : nat) :
  forall (page : Z) (acc : list str) (s s' : state W) (early : SimpleResult),
    list_sessions_loop B fuel page acc s = (Returned (inl early), s') ->
    success early = false.
Proof.
  induction fuel as [|fuel IH]; intros page acc s s' early H; [discriminate|].
  cbn [list_sessions_loop] in H. unfold bind, remote, ret, attr_of, raise in H.
  destruct (B (client_list dify_labels page 100) (world s)) as [[e|result] w'];
    [discriminate|].
  destruct (sl_success result); cbn [negb] in H;
    [|injection H as <- _; reflexivity].
  destruct (sl_total result) as [t|], (sl_session_ids result) as [ids|];
    repeat match type of H with
           | context [if ?b then _ else _] => destruct b
           end;
    try discriminate; eauto.
Qed.

(** A successful listing is the listing of some ids. *)
Lemma list_sessions_success (fuel : nat) (w : W) (r : SimpleResult)
    (s : state W) :
  run (list_sessions B fuel) w = (Returned r, s) ->
  success r = true ->
  exists ids : list str, r = listing ids.
Proof.
  unfold run. rewrite list_sessions_unfold.
  destruct (list_sessions_loop B fuel 1 [] (mkState w [])) as [[[early|ids]|e|] s']
    eqn:E; intros H Hr; try discriminate.
  - injection H as <- _. apply list_sessions_loop_early in E. congruence.
  - injection H as <- _. eauto.
  - injection H as <- _. discriminate.
Qed.

(** X10.  What the session-list tool shows.  With an API key at hand, it
    yields the failure text when the listing failed and the three messages
    of the empty list when no session was found; but when the listing holds
    a session, the line of a session reads the keys [image_id] and
    [created_at], which the entries of [list_sessions] do not have: the
    tool yields the text of that [KeyError], and neither the list nor a
    JSON message. *)
Theorem session_list_tool_messages (credentials tool_parameters : dict)
    (fuel : nat) (w : W) (r : SimpleResult) (s : state W) :
  truthy (param "api_key" VNone credentials) = true ->
  run (list_sessions B fuel) w = (Returned r, s) ->
  exists messages : list ToolInvokeMessage,
    invoke (_invoke B I credentials tool_parameters fuel) w
    = (Returned tt, mkProgress messages s)
    /\ (success r = false ->
        messages = [text_message (failure_message (fmt (error r)))])
    /\ (success r = true ->
        exists ids : list str,
          r = listing ids
          /\ messages
             = match ids with
               | [] =>
                   [ text_message empty_list_message;
                     json_message (data r);
                     variable_message "session_count" (VStr (lit "0")) ]
               | _ :: _ =>
                   [ text_message (exception_message (lit "'image_id'")) ]
               end).
Proof.
  intros Hkey Hrun.
  unfold invoke, _invoke, gtry, gbind, get_agentbay_client, call_client.
  rewrite Hkey. cbn [negb gret client_state yielded].
  unfold run in Hrun. rewrite Hrun.
  destruct (success r) eqn:Hr.
  - destruct (@list_sessions_success fuel w r s Hrun Hr) as [ids ->].
    destruct ids as [|sid ids].
    + eexists. split; [reflexivity|]. split; [discriminate|].
      intros _. exists []. split; reflexivity.
    + eexists. split; [reflexivity|]. split; [discriminate|].
      intros _. exists (sid :: ids). split; reflexivity.
  - eexists. split; [reflexivity|]. split; [reflexivity | discriminate].
Qed.

End SessionListToolProofs.

Section SessionCreateToolProofs.
Import Py Client ClientSpec Dyn Tools Validators2 SessionCreateTool.
Variable W : Type.
Variable B : Backend W.
Variable I : interpreter.
Variable create_session_untyped : pyval -> M W SimpleResult.

(** An image id that [validate_image_id] accepts is one of the five
    strings. *)
Lemma validate_image_id_allowed (image_id : pyval) :
  validate_image_id image_id = true ->
  exists s : str, image_id = VStr s /\ In s ALLOWED_IMAGE_IDS.
Proof.
  destruct image_id as [| | | |s| | |]; try discriminate.
  cbn [validate_image_id]. intros H.
  apply existsb_exists in H as (a & Hin & Ha).
  exists s. split; [reflexivity|].
  assert (E : forall t u : str, str_eqb t u = true -> t = u).
  { induction t as [|c t IH]; intros [|d u] Hu; try discriminate;
      [reflexivity|].
    cbn in Hu. apply andb_prop in Hu as [Hc Hu].
    apply N.eqb_eq in Hc. subst. f_equal. now apply IH. }
  now rewrite (E _ _ Ha).
Qed.

(** What [create_session] comes to: one call, and on success the five
    entries of the session's description. *)
Lemma create_session_returns (image_id : str) (w : W) :
  exists (r : SimpleResult) (st : state W) (x : option exn),
    run (create_session B image_id) w = (Returned r, st)
    /\ calls st = [Ev (client_create image_id dify_labels) x]
    /\ (success r = true ->
        exists (session_id : str) (request_id resource_url : pyval),
          data r = VDict [ ("session_id"%string, VStr session_id);
                           ("image_id"%string, VStr image_id);
                           ("status"%string, VStr (lit "created"));
                           ("request_id"%string, request_id);
                           ("resource_url"%string, resource_url) ]).
Proof.
  unfold run, create_session, try_except, bind, remote, ret, attr, raise.
  cbn [world calls app].
  destruct (B (client_create image_id dify_labels) w) as [[e|result] w'].
  - destruct e; do 3 eexists; (split; [reflexivity|]);
      (split; [reflexivity | discriminate]).
  - destruct (cr_success result).
    + destruct (cr_session result) as [session|].
      * do 3 eexists. split; [reflexivity|]. split; [reflexivity|].
        intros _. do 3 eexists. reflexivity.
      * do 3 eexists. split; [reflexivity|]. split; [reflexivity | discriminate].
    + do 3 eexists. split; [reflexivity|]. split; [reflexivity | discriminate].
Qed.

(** X11.  The session-creation tool creates sessions of the five allowed
    images only.  An image id that [validate_image_id] refuses is answered
    with two texts and no remote call.  An accepted one is a string of the
    list; with an API key at hand the tool issues exactly one remote call,
    the creation of a session of that image with the label of the plugin,
    and tells its result: the failure text, or the description of the
    session as text, JSON and two variables. *)
Theorem session_create_tool_allowed_images (credentials tool_parameters : dict) (w : W) :
  let image_id := param "image_id" (VStr (lit "linux_latest")) tool_parameters in
  (validate_image_id image_id = false ->
   invoke (_invoke B I create_session_untyped credentials tool_parameters) w
   = (Returned tt,
      mkProgress [ text_message (invalid_image_message (str_of I image_id));
                   text_message supported_images_message ]
                 (mkState w [])))
  /\ (validate_image_id image_id = true ->
      truthy (param "api_key" VNone credentials) = true ->
      exists (s : str) (r : SimpleResult) (st : state W) (x : option exn)
             (messages : list ToolInvokeMessage),
        image_id = VStr s
        /\ In s ALLOWED_IMAGE_IDS
        /\ run (create_session B s) w = (Returned r, st)
        /\ calls st = [Ev (client_create s dify_labels) x]
        /\ invoke (_invoke B I create_session_untyped credentials tool_parameters) w
           = (Returned tt, mkProgress messages st)
        /\ (success r = false ->
            messages = [text_message (failure_message (fmt (error r)))])
        /\ (success r = true ->
            exists (session_id : str) (request_id resource_url : pyval),
              data r = VDict [ ("session_id"%string, VStr session_id);
                               ("image_id"%string, VStr s);
                               ("status"%string, VStr (lit "created"));
                               ("request_id"%string, request_id);
                               ("resource_url"%string, resource_url) ]
              /\ messages
                 = [ text_message
                       (success_message session_id s (lit "created")
                          (str_of I request_id) (str_of I resource_url));
                     json_message (data r);
                     variable_message "session_id" (VStr session_id);
                     variable_message "image_id" (VStr s) ])).
Proof.
  intros image_id. split.
  - intros Hv. unfold invoke, _invoke, gtry, gbind. fold image_id.
    rewrite Hv. reflexivity.
  - intros Hv Hkey.
    destruct (validate_image_id_allowed _ Hv) as (s & Hs & Hin).
    destruct (create_session_returns s w) as (r & st & x & Hrun & Hcalls & Hdata).
    unfold invoke, _invoke, gtry, gbind, get_agentbay_client, call_client.
    fold image_id. rewrite Hv, Hkey, Hs.
    cbn [negb gret client_state yielded client_create_session].
    unfold run in Hrun. rewrite Hrun.
    destruct (success r) eqn:Hr.
    + destruct (Hdata eq_refl) as (session_id & request_id & resource_url & Hd).
      exists s, r, st, x. eexists.
      refine (conj eq_refl (conj Hin (conj Hrun (conj Hcalls (conj _ _))))).
      * rewrite Hd. reflexivity.
      * split; [congruence|]. intros _.
        exists session_id, request_id, resource_url. split; [exact Hd|].
        rewrite Hd. reflexivity.
    + exists s, r, st, x. eexists.
      refine (conj eq_refl (conj Hin (conj Hrun (conj Hcalls (conj eq_refl _))))).
      split; [reflexivity | congruence].
Qed.

End SessionCreateToolProofs.

Section CommandExecuteToolProofs.
Import Py Client ClientSpec Dyn Tools Text Validators Validators2 CommandExecuteTool.
Variable W : Type.
Variable B : Backend W.
Variable I : interpreter.
Variable unicode_isalnum : codepoint -> bool.
Variable U : unicode.
Variable execute_command_untyped : pyval -> pyval -> pyval -> M W SimpleResult.

(** What [execute_command] comes to: it returns, and a success carries the
    three entries of the command's result. *)
Lemma execute_command_returns (sid command : str) (timeout_ms : Z) (w : W) :
  exists (r : SimpleResult) (st : state W),
    run (execute_command B sid command timeout_ms) w = (Returned r, st)
    /\ (success r = true ->
        exists output error' exit_code : pyval,
          data r = VDict [ ("output"%string, output);
                           ("error"%string, error');
                           ("exit_code"%string, exit_code) ]).
Proof.
  unfold run, execute_command, try_except, bind.
  destruct (get_session_info_returns B sid (mkState w [])) as (info & x & ->).
  unfold ret, remote. cbn [world calls].
  destruct (success info) eqn:Hinfo; cbn [negb world calls].
  - match goal with
    | |- context [B ?c ?w0] => destruct (B c w0) as [[e|result] w']
    end.
    + do 2 eexists. split; [reflexivity | discriminate].
    + do 2 eexists. split; [reflexivity|].
      unfold envelope. cbn [success data]. intros ->. do 3 eexists. reflexivity.
  - do 2 eexists. split; [reflexivity|]. congruence.
Qed.

(** X12.  The command tool reaches the remote service only through its
    checks: unless there is an API key, the session id passes
    [validate_session_id], the command passes [validate_command] and the
    timeout passes [validate_timeout], the tool issues no remote call at
    all; it answers with texts, and it does not raise. *)
Theorem command_tool_checks_first (credentials tool_parameters : dict)
    (execution_time : QArith_base.Q) (w : W) :
  truthy (param "api_key" VNone credentials)
  && validate_session_id unicode_isalnum (param "session_id" (VStr []) tool_parameters)
  && validate_command U (param "command" (VStr []) tool_parameters)
  && validate_timeout (param "timeout_ms" (VInt 30000) tool_parameters) = false ->
  exists messages : list ToolInvokeMessage,
    invoke (_invoke B I unicode_isalnum U execute_command_untyped
              credentials tool_parameters execution_time) w
    = (Returned tt, mkProgress messages (mkState w []))
    /\ messages <> []
    /\ Forall (fun m => exists text : str, m = text_message text) messages.
Proof.
  intros H.
  unfold invoke, _invoke, gtry, gbind, get_agentbay_client.
  set (session_id := param "session_id" (VStr []) tool_parameters) in *.
  set (command := param "command" (VStr []) tool_parameters) in *.
  set (timeout_ms := param "timeout_ms" (VInt 30000) tool_parameters) in *.
  set (working_directory := param "working_directory" VNone tool_parameters).
  assert (Hsid : truthy session_id = false ->
                 validate_session_id unicode_isalnum session_id = false).
  { unfold validate_session_id. intros E. rewrite E. reflexivity. }
  assert (Hcmd : truthy command = false -> validate_command U command = false).
  { unfold validate_command. intros E. rewrite E. reflexivity. }
  assert (Hstr : validate_command U command = true -> exists c, command = VStr c).
  { clear. destruct command as [| | | |c| | |]; unfold validate_command;
      cbn [isinstance_str negb]; rewrite ?orb_true_r; try discriminate.
    eauto. }
  destruct (slice_to I 100 command) as [e|sliced];
    [eexists; split; [reflexivity|]; split; [discriminate | repeat constructor; eauto]|].
  cbn [of_result gret].
  destruct (truthy session_id) eqn:E1; cbn [negb];
    [|eexists; split; [reflexivity|]; split; [discriminate | repeat constructor; eauto]].
  destruct (validate_session_id unicode_isalnum session_id) eqn:E2; cbn [negb];
    [|eexists; split; [reflexivity|]; split; [discriminate | repeat constructor; eauto]].
  destruct (truthy command) eqn:E3; cbn [negb];
    [|eexists; split; [reflexivity|]; split; [discriminate | repeat constructor; eauto]].
  destruct (validate_command U command) eqn:E4; cbn [negb];
    [|eexists; split; [reflexivity|]; split; [discriminate | repeat constructor; eauto]].
  destruct (validate_timeout timeout_ms) eqn:E5; cbn [negb];
    [|eexists; split; [reflexivity|]; split; [discriminate | repeat constructor; eauto]].
  rewrite !andb_true_r in H. rewrite H. cbn [negb].
  destruct (Hstr eq_refl) as [c ->].
  destruct (truthy working_directory); cbn [is_cd of_result gret];
    [destruct (startswith (lit "cd ") (strip U c))|];
    (eexists; split; [reflexivity|]; split;
       [discriminate | repeat constructor; eauto]).
Qed.

(** X13.  Parameters that pass the checks of the command tool: a session
    id, a command and an integer timeout that the three validators accept,
    with an API key at hand.  The tool announces the command and hands it to
    [execute_command], as it is or, when a working directory is given,
    behind [cd <working directory> &&]; what the client then does to the
    remote service is all the tool does to it.  A failure is told in one
    text; a success in a text, a JSON message that carries the command as
    run, and two variables. *)
Theorem command_tool_forwards (credentials tool_parameters : dict)
    (execution_time : QArith_base.Q) (w : W) (sid c : str) (z : Z) :
  truthy (param "api_key" VNone credentials) = true ->
  param "session_id" (VStr []) tool_parameters = VStr sid ->
  validate_session_id unicode_isalnum (VStr sid) = true ->
  param "command" (VStr []) tool_parameters = VStr c ->
  validate_command U (VStr c) = true ->
  param "timeout_ms" (VInt 30000) tool_parameters = VInt z ->
  validate_timeout (VInt z) = true ->
  let command := forwarded I (param "working_directory" VNone tool_parameters) c in
  exists (r : SimpleResult) (st : state W) (messages : list ToolInvokeMessage),
    run (execute_command B sid command z) w = (Returned r, st)
    /\ invoke (_invoke B I unicode_isalnum U execute_command_untyped
                 credentials tool_parameters execution_time) w
       = (Returned tt,
          mkProgress ([ text_message executing_message;
                        text_message (session_message sid);
                        text_message (command_message command) ] ++ messages)
                     st)
    /\ (success r = false ->
        messages = [ text_message
                       (failure_message sid command (format_2f I execution_time)
                          (fmt (error r))) ])
    /\ (success r = true ->
        exists (output error' exit_code : pyval) (text : str),
          data r = VDict [ ("output"%string, output);
                           ("error"%string, error');
                           ("exit_code"%string, exit_code) ]
          /\ messages
             = [ text_message text;
                 json_message (VDict
                   [ ("session_id"%string, VStr sid);
                     ("command"%string, VStr command);
                     ("output"%string, output);
                     ("error"%string, error');
                     ("exit_code"%string, exit_code);
                     ("execution_time"%string, VFloat execution_time) ]);
                 variable_message "command_output" output;
                 variable_message "exit_code" (VStr (str_of I exit_code)) ]).
Proof.
  intros Hkey Hsid Hvs Hcmd Hvc Htm Hvt command.
  assert (Tsid : truthy (VStr sid) = true).
  { destruct (truthy (VStr sid)) eqn:E; [reflexivity|].
    unfold validate_session_id in Hvs. rewrite E in Hvs. discriminate. }
  assert (Tcmd : truthy (VStr c) = true).
  { destruct (truthy (VStr c)) eqn:E; [reflexivity|].
    unfold validate_command in Hvc. rewrite E in Hvc. discriminate. }
  destruct (execute_command_returns sid command z w) as (r & st & Hrun & Hdata).
  exists r, st.
  unfold invoke, _invoke, gtry, gbind, get_agentbay_client, call_client.
  rewrite Hsid, Hcmd, Htm, Hkey, Tsid, Hvs, Tcmd, Hvc, Hvt.
  cbn [slice_to of_result gret negb is_cd].
  unfold run in Hrun. unfold command, forwarded in *.
  destruct (truthy (param "working_directory" VNone tool_parameters)) eqn:Ewd;
    [destruct (startswith (lit "cd ") (strip U c))|];
    cbn [gret yield yielded client_state app str_of client_execute_command];
    rewrite Hrun;
    (destruct (success r) eqn:Hr;
     [ destruct (Hdata eq_refl) as (output & error' & exit_code & Hd);
       rewrite Hd; cbn [get param dict_get String.eqb Ascii.eqb Bool.eqb getattr of_result gret];
       destruct (truthy error') eqn:Herr;
       cbn [subscript dict_get String.eqb Ascii.eqb Bool.eqb of_result gret yield
              yielded client_state app];
       eexists; (split; [exact Hrun|]); (split; [reflexivity|]);
       (split; [discriminate|]); intros _;
       exists output, error', exit_code; eexists; split; reflexivity
     | eexists; (split; [exact Hrun|]); (split; [reflexivity|]);
       split; [reflexivity | discriminate] ]).
Qed.

(** The calls of [execute_command] on a session that the lookup finds: the
    lookup, then the command. *)
Lemma execute_command_calls (sid command : str) (timeout_ms : Z) (w : W)
    (info : SimpleResult) (s1 : state W) :
  run (get_session_info B sid) w = (Returned info, s1) ->
  success info = true ->
  exists y : option exn,
    calls (snd (run (execute_command B sid command timeout_ms) w))
    = calls s1
        ++ [Ev (session_command_execute_command (mkSession sid) command timeout_ms) y].
Proof.
  unfold run, execute_command, try_except, bind. intros -> ->.
  unfold remote, ret. cbn [negb].
  destruct (B (session_command_execute_command (mkSession sid) command timeout_ms)
              (world s1)) as [[e|result] w']; eexists; reflexivity.
Qed.

(** What the tool does to the remote service, on parameters that pass its
    checks. *)
Lemma command_tool_client_state (credentials tool_parameters : dict)
    (execution_time : QArith_base.Q) (w : W) (sid c : str) (z : Z) :
  truthy (param "api_key" VNone credentials) = true ->
  param "session_id" (VStr []) tool_parameters = VStr sid ->
  validate_session_id unicode_isalnum (VStr sid) = true ->
  param "command" (VStr []) tool_parameters = VStr c ->
  validate_command U (VStr c) = true ->
  param "timeout_ms" (VInt 30000) tool_parameters = VInt z ->
  validate_timeout (VInt z) = true ->
  client_state
    (snd (invoke (_invoke B I unicode_isalnum U execute_command_untyped
                    credentials tool_parameters execution_time) w))
  = snd (run (execute_command B sid
                (forwarded I (param "working_directory" VNone tool_parameters) c)
                z) w).
Proof.
  intros Hkey Hsid Hvs Hcmd Hvc Htm Hvt.
  assert (Tsid : truthy (VStr sid) = true).
  { destruct (truthy (VStr sid)) eqn:E; [reflexivity|].
    unfold validate_session_id in Hvs. rewrite E in Hvs. discriminate. }
  assert (Tcmd : truthy (VStr c) = true).
  { destruct (truthy (VStr c)) eqn:E; [reflexivity|].
    unfold validate_command in Hvc. rewrite E in Hvc. discriminate. }
  destruct (execute_command_returns sid
              (forwarded I (param "working_directory" VNone tool_parameters) c)
              z w) as (r & st & Hrun & Hdata).
  rewrite Hrun. cbn [snd].
  unfold invoke, _invoke, gtry, gbind, get_agentbay_client, call_client.
  rewrite Hsid, Hcmd, Htm, Hkey, Tsid, Hvs, Tcmd, Hvc, Hvt.
  cbn [slice_to of_result gret negb is_cd].
  unfold run in Hrun. unfold forwarded in *.
  destruct (truthy (param "working_directory" VNone tool_parameters)) eqn:Ewd;
    [destruct (startswith (lit "cd ") (strip U c))|];
    cbn [gret yield yielded client_state app str_of client_execute_command];
    rewrite Hrun;
    (destruct (success r) eqn:Hr;
     [ destruct (Hdata eq_refl) as (output & error' & exit_code & Hd);
       rewrite Hd;
       cbn [get param dict_get String.eqb Ascii.eqb Bool.eqb getattr of_result gret];
       destruct (truthy error') eqn:Herr; reflexivity
     | reflexivity ]).
Qed.

(** No pattern of the deny-list matches the empty string. *)
Lemma dangerous_match_nonempty (pattern : Re.regex) (m : str) :
  In pattern (DANGEROUS_PATTERNS U) -> Re.lang pattern m -> m <> [].
Proof.
  intros Hin Hm ->. apply nullable_lang in Hm.
  cbn [DANGEROUS_PATTERNS In] in Hin.
  repeat (destruct Hin as [<-|Hin]; [cbn in Hm; discriminate|]).
  exact Hin.
Qed.

(** X14.  The working directory is not looked at.  Whatever the deny-list
    forbids in a command, it lets through in the working directory: when
    the parameters pass the checks and the working directory is a string
    with a match of a dangerous pattern in it, the command handed to the
    client is one that [validate_command] rejects, and on a session that
    the lookup finds, it is this command that the remote call carries. *)
Theorem command_tool_working_directory_unchecked
    (credentials tool_parameters : dict) (execution_time : QArith_base.Q)
    (w : W) (sid c : str) (z : Z) (pattern : Re.regex) (pre m post : str) :
  truthy (param "api_key" VNone credentials) = true ->
  param "session_id" (VStr []) tool_parameters = VStr sid ->
  validate_session_id unicode_isalnum (VStr sid) = true ->
  param "command" (VStr []) tool_parameters = VStr c ->
  validate_command U (VStr c) = true ->
  param "timeout_ms" (VInt 30000) tool_parameters = VInt z ->
  validate_timeout (VInt z) = true ->
  param "working_directory" VNone tool_parameters = VStr (pre ++ m ++ post) ->
  In pattern (DANGEROUS_PATTERNS U) ->
  Re.lang pattern m ->
  let command := cd_and (pre ++ m ++ post) c in
  validate_command U (VStr command) = false
  /\ forall (info : SimpleResult) (s1 : state W),
       run (get_session_info B sid) w = (Returned info, s1) ->
       success info = true ->
       exists y : option exn,
         calls (client_state
                  (snd (invoke (_invoke B I unicode_isalnum U
                                  execute_command_untyped credentials
                                  tool_parameters execution_time) w)))
         = calls s1
             ++ [Ev (session_command_execute_command (mkSession sid) command z) y].
Proof.
  intros Hkey Hsid Hvs Hcmd Hvc Htm Hvt Hwd Hin Hm command. split.
  - unfold command, cd_and.
    replace (lit "cd " ++ (pre ++ m ++ post) ++ lit " && " ++ c)
      with ((lit "cd " ++ pre) ++ m ++ (post ++ lit " && " ++ c))
      by (now rewrite <- !app_assoc).
    now apply validate_command_hit with (pattern := pattern).
  - intros info s1 Hlookup Hinfo.
    rewrite (command_tool_client_state credentials tool_parameters
               execution_time w Hkey Hsid Hvs Hcmd Hvc Htm Hvt).
    assert (Hf : forwarded I (param "working_directory" VNone tool_parameters) c
                 = command).
    { unfold forwarded. rewrite Hwd.
      assert (Ht : truthy (VStr (pre ++ m ++ post)) = true).
      { pose proof (dangerous_match_nonempty Hin Hm) as Hne.
        destruct pre; [destruct m; [congruence|]|]; reflexivity. }
      now rewrite Ht. }
    rewrite Hf. now apply execute_command_calls with (info := info).
Qed.

End CommandExecuteToolProofs.

Section BrowserToolParamsProofs.
Import Py Client Dyn Text BrowserToolParams.
Variable I : interpreter.

Lemma str_eqb_eq (s t : str) : str_eqb s t = true -> s = t.
Proof.
  revert t. induction s as [|c s IH]; intros [|d t] H; try discriminate;
    [reflexivity|].
  cbn in H. apply andb_prop in H as [Hc H].
  apply N.eqb_eq in Hc. subst. f_equal. now apply IH.
Qed.

Lemma eq_str_eq (v : pyval) (l : string) : eq_str v l = true -> v = VStr (lit l).
Proof.
  destruct v; try discriminate. cbn. intros H. now rewrite (str_eqb_eq _ _ H).
Qed.

Lemma startswith_prefix (p s : str) : startswith p (p ++ s) = true.
Proof.
  induction p as [|c p IH]; [reflexivity|].
  cbn. now rewrite N.eqb_refl, IH.
Qed.

(** X15.  The URL of a navigation.  A URL that is missing or empty is
    refused.  A URL given as a non-empty string passes, and goes on as it
    is when it starts with [http://] or [https://] in lower case, and
    behind [https://] otherwise: the URL that the browser is sent to
    always starts with one of the two. *)
Theorem navigate_url_scheme (tool_parameters : dict) :
  let action := VStr (lit "navigate") in
  let url := param "url" (VStr []) tool_parameters in
  (truthy url = false ->
   exists params : dict,
     _validate_operation_params I action
       (_get_operation_params tool_parameters action)
     = inr (url_required_message, params))
  /\ (forall given : str,
        url = VStr given -> given <> [] ->
        exists (params : dict) (sent : str),
          _validate_operation_params I action
            (_get_operation_params tool_parameters action)
          = inr ([], params)
          /\ dict_get "url" params = Some (VStr sent)
          /\ sent = (if startswith (lit "http://") given
                        || startswith (lit "https://") given
                     then given else lit "https://" ++ given)
          /\ startswith (lit "http://") sent || startswith (lit "https://") sent
             = true).
Proof.
  intros action url.
  assert (Hget : _get_operation_params tool_parameters action
                 = [ ("wait_time"%string, param "wait_time" (VInt 3) tool_parameters);
                     ("url"%string, url) ]) by reflexivity.
  rewrite Hget. unfold _validate_operation_params.
  change (eq_str action "navigate") with true. cbn [param dict_get String.eqb
    Ascii.eqb Bool.eqb getattr subscript].
  split.
  - intros ->. eexists. reflexivity.
  - intros given -> Hne.
    assert (Ht : truthy (VStr given) = true) by (now destruct given).
    rewrite Ht. cbn [negb has_scheme].
    destruct (startswith (lit "http://") given || startswith (lit "https://") given)
      eqn:E.
    + do 2 eexists. split; [reflexivity|]. split; [reflexivity|].
      split; [reflexivity | exact E].
    + do 2 eexists. split; [reflexivity|]. split; [reflexivity|].
      split; [reflexivity|].
      now rewrite (startswith_prefix (lit "https://") given), orb_true_r.
Qed.

(** X16.  The text of a [type] operation is never asked for.  The branch
    of the validation that would require it comes after the one that
    takes the three interactions, [type] among them, and so is never
    entered: no action and no parameters make the validation return its
    message, and a [type] operation with a selector passes whatever its
    text, even none. *)
Theorem type_text_never_required (action : pyval) (params : dict) :
  (forall (message : str) (params' : dict),
      _validate_operation_params I action params = inr (message, params') ->
      message <> text_required_message)
  /\ (action = VStr (lit "type") ->
      truthy (param "selector" VNone params) = true ->
      _validate_operation_params I action params = inr ([], params)).
Proof.
  split.
  - intros message params'. unfold _validate_operation_params.
    destruct (eq_str action "navigate") eqn:Hnav.
    + destruct (negb (truthy (param "url" VNone params)));
        [intros H; injection H as <- _; discriminate|].
      destruct (subscript I (VDict params) "url") as [e|url]; [discriminate|].
      destruct (has_scheme I url) as [e|[|]]; [discriminate| |].
      * intros H; injection H as <- _; discriminate.
      * destruct (with_https I url); [discriminate|].
        intros H; injection H as <- _; discriminate.
    + destruct (interacts action) eqn:Hint.
      * destruct (negb (truthy (param "selector" VNone params)));
          [|intros H; injection H as <- _; discriminate].
        intros H; injection H as <- _.
        unfold interacts in Hint.
        apply orb_prop in Hint as [Hint|Hint];
          [apply orb_prop in Hint as [Hint|Hint]|];
          apply eq_str_eq in Hint; subst action; discriminate.
      * assert (Htype : eq_str action "type" = false).
        { unfold interacts in Hint.
          apply orb_false_elim in Hint as [Hint _].
          now apply orb_false_elim in Hint as [_ Hint]. }
        rewrite Htype. intros H; injection H as <- _; discriminate.
  - intros -> Hsel. unfold _validate_operation_params.
    change (eq_str (VStr (lit "type")) "navigate") with false.
    change (interacts (VStr (lit "type"))) with true.
    cbn iota. now rewrite Hsel.
Qed.

End BrowserToolParamsProofs.

Section PlaywrightEndpointProofs.
Import Py Client BrowserTool.
Variable W : Type.
Variable B : Backend W.

(** X17.  Playwright is only ever pointed at an endpoint that was given.
    [_execute_playwright_operation] takes the endpoint from
    [browser_initialize], which does not look at it; it goes on to the
    browser only when the four remote calls of the initialisation were all
    answered and the endpoint they gave is not empty, and returns a failed
    envelope otherwise. *)
Theorem playwright_needs_endpoint (sid : str) (w : W) :
  exists (r : SimpleResult) (st : state W),
    run (browser_initialize B sid) w = (Returned r, st)
    /\ match endpoint_of r with
       | inr endpoint_url =>
           truthy endpoint_url = true
           /\ exists session : Session,
                calls st
                = [ Ev (client_get_session sid) None;
                    Ev (client_get sid) None;
                    Ev (session_browser_initialize session) None;
                    Ev (session_browser_get_endpoint_url session) None ]
                /\ fst (B (session_browser_get_endpoint_url session)
                          (snd (B (session_browser_initialize session)
                                  (snd (B (client_get sid)
                                          (snd (B (client_get_session sid) w)))))))
                   = inr endpoint_url
       | inl early => success early = false
       end.
Proof.
  unfold run, browser_initialize.
  unfold get_session_info, try_except, bind, remote, ret, attr, raise.
  repeat (cbn -[lit truthy endpoint_of];
          match goal with
          | |- context [B ?c ?w0] =>
              lazymatch w0 with
              | context [B] => fail
              | _ => destruct (B c w0) as [[?|?] ?] eqn:?
              end
          | |- context [match ?x with _ => _ end] =>
              lazymatch x with
              | context [match _ with _ => _ end] => fail
              | _ => destruct x eqn:?
              end
          end);
    try congruence;
    repeat match goal with
           | H : (_, _) = (_, _) |- _ => injection H as ? ?; subst
           end;
    do 2 eexists; (split; [reflexivity|]);
    unfold endpoint_of; cbn -[lit truthy]; try reflexivity.
  match goal with
  | |- context [truthy ?url] => destruct (truthy url) eqn:Hu
  end; cbn [negb]; [|reflexivity].
  split; [exact Hu|]. eexists. split; [reflexivity|].
  repeat match goal with
         | H : B _ _ = _ |- _ => rewrite H; clear H; cbn [fst snd]
         end.
  reflexivity.
Qed.

End PlaywrightEndpointProofs.

Section ProviderProofs.
Import Py Client ClientSpec Dyn Text Provider ProviderSpec.
Variable W : Type.
Variable B : Backend W.
Variable U : unicode.

Lemma startswith_alike (word : str) :
  Forall (fun c => (c < 128)%N) word ->
  forall l1 l2 : str, alike l1 l2 -> startswith word l1 = startswith word l2.
Proof.
  induction 1 as [|c word Hc _ IH]; intros l1 l2 Hl; [reflexivity|].
  destruct Hl as [|a b l1 l2 Hab Hl]; [reflexivity|].
  cbn [startswith]. rewrite (IH l1 l2 Hl).
  destruct Hab as [->|[Ha Hb]]; [reflexivity|].
  assert (Ea : (c =? a)%N = false) by (apply N.eqb_neq; lia).
  assert (Eb : (c =? b)%N = false) by (apply N.eqb_neq; lia).
  now rewrite Ea, Eb.
Qed.

Lemma contains_alike (word : str) :
  Forall (fun c => (c < 128)%N) word ->
  forall l1 l2 : str, alike l1 l2 -> contains word l1 = contains word l2.
Proof.
  intros Hw l1 l2 Hl. induction Hl as [|a b l1 l2 Hab Hl IH].
  - reflexivity.
  - cbn [contains]. rewrite IH. f_equal.
    apply startswith_alike; [exact Hw|]. now constructor.
Qed.

Lemma alike_refl (l : str) : alike l l.
Proof. induction l; constructor; auto. Qed.

(** The lower case of a character does not depend on the text around it,
    but for the capital sigma, which gives one of the two small sigmas. *)
Lemma lower_char_alike (c : codepoint) (before1 after1 before2 after2 : str) :
  alike
    (if (c <? 128)%N then [ascii_lower c]
     else if (c =? 931)%N then
            [if uni_final_sigma U before1 after1 then 962%N else 963%N]
          else uni_lower U c)
    (if (c <? 128)%N then [ascii_lower c]
     else if (c =? 931)%N then
            [if uni_final_sigma U before2 after2 then 962%N else 963%N]
          else uni_lower U c).
Proof.
  destruct (c <? 128)%N; [apply alike_refl|].
  destruct (c =? 931)%N; [|apply alike_refl].
  constructor; [|constructor]. right.
  destruct (uni_final_sigma U before1 after1),
    (uni_final_sigma U before2 after2); lia.
Qed.

(** Lowering a text after one text or after another gives alike
    results. *)
Lemma lower_from_alike (s : str) :
  forall before1 before2 : str,
    alike (lower_from U before1 s) (lower_from U before2 s).
Proof.
  induction s as [|c s IH]; intros before1 before2; [constructor|].
  cbn [lower_from]. apply Forall2_app; [apply lower_char_alike | apply IH].
Qed.

(** Lowering two texts in a row, or each on its own, gives alike
    results. *)
Lemma lower_from_app (p e : str) :
  forall before before1 before2 : str,
    alike (lower_from U before (p ++ e))
          (lower_from U before1 p ++ lower_from U before2 e).
Proof.
  induction p as [|c p IH]; intros before before1 before2.
  - apply lower_from_alike.
  - cbn [app lower_from]. rewrite <- app_assoc.
    apply Forall2_app; [apply lower_char_alike | apply IH].
Qed.

Lemma contains_app_r (word p l : str) :
  contains word l = true -> contains word (p ++ l) = true.
Proof.
  intros H. induction p as [|c p IH]; [exact H|].
  cbn [app contains]. rewrite IH. apply orb_true_r.
Qed.

(** A word of ASCII letters that a text mentions is mentioned by the text
    behind any prefix. *)
Lemma mentions_prefixed (word : string) (p e : str) :
  Forall (fun c => (c < 128)%N) (lit word) ->
  mentions U word e = true -> mentions U word (p ++ e) = true.
Proof.
  intros Hw H. unfold mentions, lower in *.
  rewrite (contains_alike Hw (lower_from_app p e [] [] [])).
  now apply contains_app_r.
Qed.

(** A key of ten characters or more, white space at the ends apart, is
    not empty. *)
Lemma long_key_truthy (key : str) :
  (10 <= List.length (strip U key))%nat -> truthy (VStr key) = true.
Proof.
  destruct key; [cbn; lia | reflexivity].
Qed.

(** X18.  What the validation of credentials makes of the connection test,
    for a key of ten characters or more.  A listing that succeeds accepts
    the key.  A listing that fails with an error that mentions [auth]
    refuses it, in fixed words: the error raised with the text of the
    service is caught by the handler of the same [try], which words it
    anew.  And a listing that fails with an error that mentions neither
    [auth] nor [key] accepts the key as well: a service that cannot be
    reached vouches for any key. *)
Theorem validate_credentials_outcome (credentials : dict) (fuel : nat) (w : W)
    (key : str) (r : SimpleResult) (s : state W) :
  param "api_key" VNone credentials = VStr key ->
  (10 <= List.length (strip U key))%nat ->
  run (list_sessions B fuel) w = (Returned r, s) ->
  (success r = true -> validate B U credentials fuel w = (Done tt, s))
  /\ (forall e : str,
        success r = false -> error r = Some e ->
        mentions U "auth" e = true ->
        validate B U credentials fuel w
        = (Failed (ToolProviderCredentialValidationError key_rejected), s))
  /\ (forall e : str,
        success r = false -> error r = Some e ->
        mentions U "auth" e = false -> mentions U "key" e = false ->
        validate B U credentials fuel w = (Done tt, s)).
Proof.
  intros Hkey Hlen Hrun.
  pose proof (long_key_truthy key Hlen) as Ht.
  assert (Hn : (List.length (strip U key) <? 10)%nat = false)
    by (apply Nat.ltb_ge; exact Hlen).
  unfold run in Hrun.
  unfold validate, _validate_credentials, connection_test, ptry, pbind,
    LightweightAgentBayClient, call_client.
  rewrite Hkey, Ht. cbn [negb stripped_length of_result pret]. rewrite Hn, Hrun.
  split; [|split].
  - intros ->. reflexivity.
  - intros e -> -> Hauth. cbn [negb lowered of_result pret].
    unfold mentions in Hauth. rewrite Hauth. cbn [orb praise str_of_failure fmt].
    pose proof (@mentions_prefixed "auth" (lit "API Key validation failed: ") e)
      as Hp.
    unfold mentions in Hp. rewrite Hp; [reflexivity | repeat constructor | exact Hauth].
  - intros e -> -> Hauth Hk. cbn [negb lowered of_result pret].
    unfold mentions in Hauth, Hk. rewrite Hauth, Hk. reflexivity.
Qed.

(** X19.  How the validation of credentials can end.  Whatever the
    credentials and the service, the only exception that leaves it is its
    own [ToolProviderCredentialValidationError].  Credentials without a key
    are refused, and so is a key of fewer than ten characters, white space
    at the ends apart; both before any remote call. *)
Theorem validate_credentials_refusals (credentials : dict) (fuel : nat) (w : W) :
  (forall e : exn,
      fst (validate B U credentials fuel w) <> Failed (OtherException e))
  /\ (truthy (param "api_key" VNone credentials) = false ->
      validate B U credentials fuel w
      = (Failed (ToolProviderCredentialValidationError key_required),
         mkState w []))
  /\ (forall key : str,
        param "api_key" VNone credentials = VStr key ->
        key <> [] ->
        (List.length (strip U key) < 10)%nat ->
        validate B U credentials fuel w
        = (Failed (ToolProviderCredentialValidationError key_malformed),
           mkState w [])).
Proof.
  split; [|split].
  - intros e. unfold validate, _validate_credentials, ptry.
    match goal with
    | |- context [match ?body ?s0 with _ => _ end] =>
        destruct (body s0) as [[[]|[m|x]|] s']
    end; cbn; discriminate.
  - intros Hf. unfold validate, _validate_credentials, ptry.
    rewrite Hf. reflexivity.
  - intros key Hkey Hne Hlen.
    assert (Ht : truthy (VStr key) = true) by (now destruct key).
    assert (Hn : (List.length (strip U key) <? 10)%nat = true)
      by (apply Nat.ltb_lt; exact Hlen).
    unfold validate, _validate_credentials, ptry, pbind.
    rewrite Hkey, Ht. cbn [negb stripped_length of_result pret]. now rewrite Hn.
Qed.

End ProviderProofs.

(* ===================================================================== *)
(** * The properties of the tools, at concrete inputs *)
(* ===================================================================== *)

Section ToolWitnesses.
Import Py Client ClientSpec Dyn Tools Text Re Validators Validators2 ToolDoubles.

(** Listing the account with one session: the tool yields the text of the
    [KeyError] and nothing else. *)
Lemma session_list_tool_messages_witness :
  invoke (SessionListTool._invoke single_session_backend terse_interpreter
            credentials [] 1) tt
  = (Returned tt,
     mkProgress
       [ text_message (SessionListTool.exception_message (lit "'image_id'")) ]
       (mkState tt [page_request 1])).
Proof.
  destruct (@session_list_tool_messages unit single_session_backend
              terse_interpreter credentials [] 1 tt
              (listing [Doubles.nth_session_id 0])
              (mkState tt [page_request 1]) eq_refl eq_refl)
    as (messages & Hrun & _ & Hlisting).
  destruct (Hlisting eq_refl) as (ids & Hids & Hmessages).
  rewrite Hrun, Hmessages.
  destruct ids as [|sid ids]; [discriminate Hids | reflexivity].
Defined.

(** An image that is not on the list, and the default image on the
    obliging service. *)
Lemma session_create_tool_allowed_images_witness :
  invoke (SessionCreateTool._invoke Doubles.obliging_backend terse_interpreter
            (fun _ => refuse) credentials
            [("image_id"%string, VStr (lit "macos_latest"))]) tt
  = (Returned tt,
     mkProgress
       [ text_message (SessionCreateTool.invalid_image_message (lit "macos_latest"));
         text_message SessionCreateTool.supported_images_message ]
       (mkState tt []))
  /\ exists messages : list ToolInvokeMessage,
       invoke (SessionCreateTool._invoke Doubles.obliging_backend
                 terse_interpreter (fun _ => refuse) credentials []) tt
       = (Returned tt,
          mkProgress messages
            (mkState tt [Ev (client_create (lit "linux_latest") dify_labels) None])).
Proof.
  split.
  - exact (proj1 (@session_create_tool_allowed_images unit Doubles.obliging_backend
                    terse_interpreter (fun _ => refuse) credentials
                    [("image_id"%string, VStr (lit "macos_latest"))] tt)
                 eq_refl).
  - destruct (proj2 (@session_create_tool_allowed_images unit Doubles.obliging_backend
                       terse_interpreter (fun _ => refuse) credentials [] tt)
                    eq_refl eq_refl)
      as (s & r & st & x & messages & Hs & _ & Hrun & _ & Hinvoke & _).
    exists messages. rewrite Hinvoke. injection Hs as <-.
    injection Hrun as _ <-. reflexivity.
Defined.

(** [sudo rm] is stopped by the checks. *)
Lemma command_tool_checks_first_witness :
  exists messages : list ToolInvokeMessage,
    invoke (CommandExecuteTool._invoke shell_backend terse_interpreter no_letter
              ascii_only (fun _ _ _ => refuse) credentials
              [ ("session_id"%string, VStr (lit "sess-0001"));
                ("command"%string, VStr (lit "sudo rm -r /etc")) ]
              (QArith_base.Qmake 0 1)) tt
    = (Returned tt, mkProgress messages (mkState tt []))
    /\ messages <> []
    /\ Forall (fun m => exists text : str, m = text_message text) messages.
Proof.
  apply (@command_tool_checks_first unit shell_backend terse_interpreter no_letter
           ascii_only (fun _ _ _ => refuse)).
  vm_compute. reflexivity.
Defined.

(** [ls -la] in [/tmp], on the service where every command prints [ok]:
    the command run is [cd /tmp && ls -la]. *)
Lemma command_tool_forwards_witness :
  exists messages : list ToolInvokeMessage,
    invoke (CommandExecuteTool._invoke shell_backend terse_interpreter no_letter
              ascii_only (fun _ _ _ => refuse) credentials
              [ ("session_id"%string, VStr (lit "sess-0001"));
                ("command"%string, VStr (lit "ls -la"));
                ("working_directory"%string, VStr (lit "/tmp")) ]
              (QArith_base.Qmake 0 1)) tt
    = (Returned tt,
       mkProgress
         ([ text_message CommandExecuteTool.executing_message;
            text_message (CommandExecuteTool.session_message (lit "sess-0001"));
            text_message (CommandExecuteTool.command_message (lit "cd /tmp && ls -la")) ]
            ++ messages)
         (mkState tt
            [ Ev (client_get_session (lit "sess-0001")) None;
              Ev (session_command_execute_command (mkSession (lit "sess-0001"))
                    (lit "cd /tmp && ls -la") 30000) None ])).
Proof.
  destruct (@command_tool_forwards unit shell_backend terse_interpreter no_letter
              ascii_only (fun _ _ _ => refuse) credentials
              [ ("session_id"%string, VStr (lit "sess-0001"));
                ("command"%string, VStr (lit "ls -la"));
                ("working_directory"%string, VStr (lit "/tmp")) ]
              (QArith_base.Qmake 0 1) tt (lit "sess-0001") (lit "ls -la") 30000
              eq_refl eq_refl eq_refl eq_refl eq_refl eq_refl eq_refl)
    as (r & st & messages & Hrun & Hinvoke & _).
  exists messages. rewrite Hinvoke. injection Hrun as _ <-. reflexivity.
Defined.

(** A working directory that ends a command and starts another: [sudo rm]
    goes through. *)
Lemma command_tool_working_directory_unchecked_witness :
  validate_command ascii_only
    (VStr (lit "cd /tmp; sudo rm -r /etc # && ls")) = false
  /\ exists y : option exn,
       calls (client_state
                (snd (invoke
                        (CommandExecuteTool._invoke shell_backend
                           terse_interpreter no_letter ascii_only
                           (fun _ _ _ => refuse) credentials
                           [ ("session_id"%string, VStr (lit "sess-0001"));
                             ("command"%string, VStr (lit "ls"));
                             ("working_directory"%string,
                               VStr (lit "/tmp; sudo rm -r /etc #")) ]
                           (QArith_base.Qmake 0 1)) tt)))
       = [ Ev (client_get_session (lit "sess-0001")) None;
           Ev (session_command_execute_command (mkSession (lit "sess-0001"))
                 (lit "cd /tmp; sudo rm -r /etc # && ls") 30000) y ].
Proof.
  assert (Hm : lang (nth 6 (DANGEROUS_PATTERNS ascii_only) Void) (lit "sudo rm"))
    by (apply matches_lang; reflexivity).
  destruct (@command_tool_working_directory_unchecked unit shell_backend
              terse_interpreter no_letter ascii_only (fun _ _ _ => refuse)
              credentials
              [ ("session_id"%string, VStr (lit "sess-0001"));
                ("command"%string, VStr (lit "ls"));
                ("working_directory"%string,
                  VStr (lit "/tmp; sudo rm -r /etc #")) ]
              (QArith_base.Qmake 0 1) tt (lit "sess-0001") (lit "ls") 30000
              (nth 6 (DANGEROUS_PATTERNS ascii_only) Void)
              (lit "/tmp; ") (lit "sudo rm") (lit " -r /etc #")
              eq_refl eq_refl eq_refl eq_refl eq_refl eq_refl eq_refl eq_refl
              (or_intror (or_intror (or_intror (or_intror (or_intror
                 (or_intror (or_introl eq_refl))))))) Hm)
    as [Hrejected Hcalls].
  split; [exact Hrejected|].
  exact (Hcalls _ _ eq_refl eq_refl).
Defined.

(** A URL in capitals goes behind [https://]. *)
Lemma navigate_url_scheme_witness :
  exists (params : dict) (sent : str),
    BrowserToolParams._validate_operation_params terse_interpreter
      (VStr (lit "navigate"))
      (BrowserToolParams._get_operation_params
         [("url"%string, VStr (lit "HTTP://EXAMPLE.COM"))] (VStr (lit "navigate")))
    = inr ([], params)
    /\ dict_get "url" params = Some (VStr sent)
    /\ sent = lit "https://HTTP://EXAMPLE.COM"
    /\ startswith (lit "http://") sent || startswith (lit "https://") sent = true.
Proof.
  apply (proj2 (navigate_url_scheme terse_interpreter
                  [("url"%string, VStr (lit "HTTP://EXAMPLE.COM"))])
               (lit "HTTP://EXAMPLE.COM") eq_refl).
  discriminate.
Defined.

(** Typing nothing into the search box passes. *)
Lemma type_text_never_required_witness :
  BrowserToolParams._validate_operation_params terse_interpreter
    (VStr (lit "type")) [("selector"%string, VStr (lit "#q"))]
  = inr ([], [("selector"%string, VStr (lit "#q"))])
  /\ [] <> BrowserToolParams.text_required_message.
Proof.
  pose proof (type_text_never_required terse_interpreter (VStr (lit "type"))
                [("selector"%string, VStr (lit "#q"))]) as [Hnever Hpass].
  split.
  - exact (Hpass eq_refl eq_refl).
  - exact (Hnever _ _ (Hpass eq_refl eq_refl)).
Defined.

(** A service that cannot be reached vouches for the key. *)
Lemma validate_credentials_outcome_witness :
  Provider.validate Doubles.unreachable_backend ascii_only credentials 1 tt
  = (Provider.Done tt,
     mkState tt [Ev (client_list dify_labels 1 100)
                   (Some (Exception (lit "connection refused")))]).
Proof.
  exact (proj2 (proj2
           (@validate_credentials_outcome unit Doubles.unreachable_backend
              ascii_only credentials 1 tt (lit "akm-0123456789")
              (failed (Some (lit "Failed to list sessions: connection refused")))
              (mkState tt [Ev (client_list dify_labels 1 100)
                             (Some (Exception (lit "connection refused")))])
              eq_refl (le_S _ _ (le_S _ _ (le_S _ _ (le_S _ _ (le_n 10)))))
              eq_refl))
           (lit "Failed to list sessions: connection refused")
           eq_refl eq_refl eq_refl eq_refl).
Defined.

(** No key, and a key of five letters. *)
Lemma validate_credentials_refusals_witness :
  Provider.validate Doubles.unreachable_backend ascii_only [] 1 tt
  = (Provider.Failed
       (Provider.ToolProviderCredentialValidationError Provider.key_required),
     mkState tt [])
  /\ Provider.validate Doubles.unreachable_backend ascii_only
       [("api_key"%string, VStr (lit "  abcde  "))] 1 tt
     = (Provider.Failed
          (Provider.ToolProviderCredentialValidationError Provider.key_malformed),
        mkState tt []).
Proof.
  split.
  - exact (proj1 (proj2 (@validate_credentials_refusals unit
                           Doubles.unreachable_backend ascii_only [] 1 tt))
                 eq_refl).
  - apply (proj2 (proj2 (@validate_credentials_refusals unit
                           Doubles.unreachable_backend ascii_only
                           [("api_key"%string, VStr (lit "  abcde  "))] 1 tt))
                 (lit "  abcde  ") eq_refl).
    + discriminate.
    + vm_compute. repeat constructor.
Defined.

End ToolWitnesses.

Section FileOperationsToolProofs.
Import Py Client ClientSpec Dyn Tools Validators Validators2 FileOperationsTool.
Variable W : Type.
Variable B : Backend W.
Variable I : interpreter.
Variable unicode_isalnum : codepoint -> bool.
Variable untyped : string -> list pyval -> M W SimpleResult.
Variable _build_success_message :
  pyval -> pyval -> QArith_base.Q -> pyval -> exn + str.
Variable _set_action_variables : pyval -> pyval -> exn + list ToolInvokeMessage.
Variable update_with : dict -> pyval -> exn + dict.

Ltac by_cases :=
  repeat (cbn -[lit truthy];
          match goal with
          | |- context [B ?c ?w0] =>
              lazymatch w0 with
              | context [B] => fail
              | _ => destruct (B c w0) as [[?|?] ?] eqn:?
              end
          | |- context [match ?x with _ => _ end] =>
              lazymatch x with
              | context [match _ with _ => _ end] => fail
              | _ => destruct x eqn:?
              end
          end).

(** The three file operations of the client return. *)
Lemma read_file_returns (sid file_path : str) (s : state W) :
  exists (r : SimpleResult) (s' : state W),
    read_file B sid file_path s = (Returned r, s').
Proof.
  unfold read_file.
  unfold get_session_info, try_except, bind, remote, ret, attr, raise.
  by_cases; try congruence; do 2 eexists; reflexivity.
Qed.

Lemma write_file_returns (sid file_path content : str) (s : state W) :
  exists (r : SimpleResult) (s' : state W),
    write_file B sid file_path content s = (Returned r, s').
Proof.
  unfold write_file.
  unfold get_session_info, try_except, bind, remote, ret, attr, raise.
  by_cases; try congruence; do 2 eexists; reflexivity.
Qed.

Lemma list_directory_returns (sid directory_path : str) (s : state W) :
  exists (r : SimpleResult) (s' : state W),
    list_directory B sid directory_path s = (Returned r, s').
Proof.
  unfold list_directory.
  unfold get_session_info, try_except, bind, remote, ret, attr, raise.
  by_cases; try congruence; do 2 eexists; reflexivity.
Qed.

(** Yielding messages leaves the client alone. *)
Lemma yield_all_progress (messages : list ToolInvokeMessage) :
  forall p : progress W,
    yield_all messages p
    = (Returned tt, mkProgress (yielded p ++ messages) (client_state p)).
Proof.
  induction messages as [|m messages IH]; intros [ys st].
  - cbn. now rewrite app_nil_r.
  - cbn [yield_all]. unfold gbind, yield. rewrite IH. cbn.
    now rewrite <- app_assoc.
Qed.

(** [_execute_file_operation] on a path and a content that are strings:
    the operation of the client, on that path and that content. *)
Lemma execute_read (sid file_path : str) (s : state W) :
  _execute_file_operation B I untyped (VStr sid) (VStr (lit "read"))
    [("file_path"%string, VStr file_path)] s
  = read_file B sid file_path s.
Proof.
  unfold _execute_file_operation, try_except.
  change (eq_str (VStr (lit "read")) "read") with true. cbn iota.
  unfold bind, item, subscript. cbn [dict_get String.eqb Ascii.eqb Bool.eqb ret
    client_read_file].
  now destruct (read_file_returns sid file_path s) as (r & s' & ->).
Qed.

Lemma execute_write (sid file_path content : str) (s : state W) :
  _execute_file_operation B I untyped (VStr sid) (VStr (lit "write"))
    [("file_path"%string, VStr file_path); ("content"%string, VStr content)] s
  = write_file B sid file_path content s.
Proof.
  unfold _execute_file_operation, try_except.
  change (eq_str (VStr (lit "write")) "read") with false.
  change (eq_str (VStr (lit "write")) "write") with true. cbn iota.
  unfold bind, item, subscript. cbn [dict_get String.eqb Ascii.eqb Bool.eqb ret
    client_write_file].
  now destruct (write_file_returns sid file_path content s) as (r & s' & ->).
Qed.

Lemma execute_list (sid directory_path : str) (s : state W) :
  _execute_file_operation B I untyped (VStr sid) (VStr (lit "list"))
    [("directory_path"%string, VStr directory_path)] s
  = list_directory B sid directory_path s.
Proof.
  unfold _execute_file_operation, try_except.
  change (eq_str (VStr (lit "list")) "read") with false.
  change (eq_str (VStr (lit "list")) "write") with false.
  change (eq_str (VStr (lit "list")) "list") with true. cbn iota.
  unfold bind, item, subscript. cbn [dict_get String.eqb Ascii.eqb Bool.eqb ret
    client_list_directory].
  now destruct (list_directory_returns sid directory_path s) as (r & s' & ->).
Qed.

Ltac tail :=
  repeat (cbn [of_result gret graise yield yielded client_state snd fst app];
          try rewrite yield_all_progress;
          match goal with
          | |- context [of_result ?x _] => destruct x eqn:?
          | |- context [match ?x with _ => _ end] =>
              lazymatch x with
              | context [match _ with _ => _ end] => fail
              | _ => destruct x eqn:?
              end
          end);
  repeat match goal with
         | H : (_, _) = (_, _) |- _ => injection H as ? ?; subst
         end;
  try discriminate;
  try rewrite yield_all_progress;
  cbn [of_result gret graise yield yielded client_state snd fst app];
  try reflexivity.

(** X20.  The file tool hands paths and content to the remote service as
    they come.  With an API key at hand and a session id that passes
    [validate_session_id], a [read] or a [write] of any non-empty path and
    a [list] of any directory does to the remote service exactly what
    [read_file], [write_file] and [list_directory] of the client do with
    that very path and that very content: neither [validate_file_path] nor
    [sanitize_content] is consulted on the way. *)
Theorem file_tool_forwards_unchecked (credentials tool_parameters : dict)
    (operation_time : QArith_base.Q) (w : W) (sid : str) :
  truthy (param "api_key" VNone credentials) = true ->
  param "session_id" (VStr []) tool_parameters = VStr sid ->
  validate_session_id unicode_isalnum (VStr sid) = true ->
  let after :=
    client_state
      (snd (invoke (_invoke B I unicode_isalnum untyped _build_success_message
                      _set_action_variables update_with credentials
                      tool_parameters operation_time) w)) in
  (forall file_path : str,
      param "action" (VStr (lit "read")) tool_parameters = VStr (lit "read") ->
      param "file_path" (VStr []) tool_parameters = VStr file_path ->
      file_path <> [] ->
      after = snd (run (read_file B sid file_path) w))
  /\ (forall file_path content : str,
        param "action" (VStr (lit "read")) tool_parameters = VStr (lit "write") ->
        param "file_path" (VStr []) tool_parameters = VStr file_path ->
        file_path <> [] ->
        param "content" (VStr []) tool_parameters = VStr content ->
        after = snd (run (write_file B sid file_path content) w))
  /\ (forall directory_path : str,
        param "action" (VStr (lit "read")) tool_parameters = VStr (lit "list") ->
        param "directory_path" (VStr (lit ".")) tool_parameters
        = VStr directory_path ->
        after = snd (run (list_directory B sid directory_path) w)).
Proof.
  intros Hkey Hsid Hvs after.
  assert (Tsid : truthy (VStr sid) = true).
  { destruct (truthy (VStr sid)) eqn:E; [reflexivity|].
    unfold validate_session_id in Hvs. rewrite E in Hvs. discriminate. }
  unfold after, invoke, _invoke, gtry, gbind, get_agentbay_client.
  rewrite Hsid, Tsid, Hvs, Hkey. cbn [negb].
  split; [|split].
  - intros file_path -> Hpath Hne.
    assert (Tpath : truthy (VStr file_path) = true) by (now destruct file_path).
    unfold supported.
    change (lookup I SUPPORTED_ACTIONS (VStr (lit "read")))
      with (@inr exn _ (Some (lit "Read file"))).
    cbn [of_result gret].
    change (_get_operation_params tool_parameters (VStr (lit "read")))
      with [("file_path"%string, param "file_path" (VStr []) tool_parameters)].
    rewrite Hpath.
    assert (Hvalid : _validate_operation_params I (VStr (lit "read"))
                       [("file_path"%string, VStr file_path)] = []).
    { unfold _validate_operation_params.
      change (reads_or_writes (VStr (lit "read"))) with true.
      cbn [param dict_get String.eqb Ascii.eqb Bool.eqb getattr].
      now rewrite Tpath. }
    rewrite Hvalid. cbn [truthy List.length Nat.eqb negb yield yielded client_state app].
    change (_show_operation_details I (VStr (lit "read"))
              [("file_path"%string, VStr file_path)])
      with (@gret W _ [text_message (file_path_message file_path)]).
    cbn [gret]. rewrite yield_all_progress. unfold call_client.
    cbn [client_state yielded]. rewrite execute_read. unfold run.
    destruct (read_file B sid file_path (mkState w [])) as [[r| |] s']; tail.
  - intros file_path content -> Hpath Hne Hcontent.
    assert (Tpath : truthy (VStr file_path) = true) by (now destruct file_path).
    unfold supported.
    change (lookup I SUPPORTED_ACTIONS (VStr (lit "write")))
      with (@inr exn _ (Some (lit "Write file"))).
    cbn [of_result gret].
    change (_get_operation_params tool_parameters (VStr (lit "write")))
      with [("file_path"%string, param "file_path" (VStr []) tool_parameters);
            ("content"%string, param "content" (VStr []) tool_parameters)].
    rewrite Hpath, Hcontent.
    assert (Hvalid : _validate_operation_params I (VStr (lit "write"))
                       [("file_path"%string, VStr file_path);
                        ("content"%string, VStr content)] = []).
    { unfold _validate_operation_params.
      change (reads_or_writes (VStr (lit "write"))) with true.
      cbn [param dict_get String.eqb Ascii.eqb Bool.eqb getattr].
      now rewrite Tpath. }
    rewrite Hvalid. cbn [truthy List.length Nat.eqb negb yield yielded client_state app].
    change (_show_operation_details I (VStr (lit "write"))
              [("file_path"%string, VStr file_path);
               ("content"%string, VStr content)])
      with (@gret W _
              [text_message (file_path_message file_path);
               text_message (content_size_message
                               (decimal (Z.of_nat (List.length content))))]).
    cbn [gret]. rewrite yield_all_progress. unfold call_client.
    cbn [client_state yielded]. rewrite execute_write. unfold run.
    destruct (write_file B sid file_path content (mkState w [])) as [[r| |] s'];
      tail.
  - intros directory_path -> Hdir.
    unfold supported.
    change (lookup I SUPPORTED_ACTIONS (VStr (lit "list")))
      with (@inr exn _ (Some (lit "List directory contents"))).
    cbn [of_result gret].
    change (_get_operation_params tool_parameters (VStr (lit "list")))
      with [("directory_path"%string,
              param "directory_path" (VStr (lit ".")) tool_parameters)].
    rewrite Hdir.
    change (_validate_operation_params I (VStr (lit "list"))
              [("directory_path"%string, VStr directory_path)])
      with (@nil codepoint).
    cbn [truthy List.length Nat.eqb negb yield yielded client_state app].
    change (_show_operation_details I (VStr (lit "list"))
              [("directory_path"%string, VStr directory_path)])
      with (@gret W _ [text_message (directory_path_message directory_path)]).
    cbn [gret]. rewrite yield_all_progress. unfold call_client.
    cbn [client_state yielded]. rewrite execute_list. unfold run.
    destruct (list_directory B sid directory_path (mkState w [])) as [[r| |] s'];
      tail.
Qed.

End FileOperationsToolProofs.

Section FileOperationsToolWitness.
Import Py Client Dyn Tools Validators2 ToolDoubles.

(** A path that climbs out of the working directory, which
    [validate_file_path] would refuse, is read. *)
Lemma file_tool_forwards_unchecked_witness :
  validate_file_path (VStr (lit "../../etc/passwd")) = false
  /\ calls (client_state
              (snd (invoke
                      (FileOperationsTool._invoke Doubles.obliging_backend
                         terse_interpreter no_letter (fun _ _ => refuse)
                         (fun _ _ _ _ => inr []) (fun _ _ => inr [])
                         (fun d _ => inr d) credentials
                         [ ("session_id"%string, VStr (lit "sess-0001"));
                           ("file_path"%string, VStr (lit "../../etc/passwd")) ]
                         (QArith_base.Qmake 0 1)) tt)))
     = [ Ev (client_get_session (lit "sess-0001")) None;
         Ev (client_get (lit "sess-0001")) None;
         Ev (session_file_system_read_file (mkSession (lit "sess-0001"))
               (lit "../../etc/passwd"))
            (Some (Exception (lit "unsupported"))) ].
Proof.
  split; [reflexivity|].
  rewrite (proj1 (@file_tool_forwards_unchecked unit Doubles.obliging_backend
                    terse_interpreter no_letter (fun _ _ => refuse)
                    (fun _ _ _ _ => inr []) (fun _ _ => inr [])
                    (fun d _ => inr d) credentials
                    [ ("session_id"%string, VStr (lit "sess-0001"));
                      ("file_path"%string, VStr (lit "../../etc/passwd")) ]
                    (QArith_base.Qmake 0 1) tt (lit "sess-0001")
                    eq_refl eq_refl eq_refl)
                 (lit "../../etc/passwd") eq_refl eq_refl).
  - reflexivity.
  - discriminate.
Defined.

End FileOperationsToolWitness.

Section CodeExecuteToolProofs.
Import Py Client ClientSpec Dyn Tools Validators CodeExecuteTool.
Variable W : Type.
Variable B : Backend W.
Variable I : interpreter.
Variable unicode_isalnum : codepoint -> bool.
Variable run_code_untyped : pyval -> pyval -> pyval -> M W SimpleResult.

Ltac by_cases :=
  repeat (cbn -[lit truthy];
          match goal with
          | |- context [B ?c ?w0] =>
              lazymatch w0 with
              | context [B] => fail
              | _ => destruct (B c w0) as [[?|?] ?] eqn:?
              end
          | |- context [match ?x with _ => _ end] =>
              lazymatch x with
              | context [match _ with _ => _ end] => fail
              | _ => destruct x eqn:?
              end
          end).

Ltac tail :=
  repeat (cbn [of_result gret graise yield yielded client_state snd fst app];
          match goal with
          | |- context [of_result ?x _] => destruct x eqn:?
          | |- context [match ?x with _ => _ end] =>
              lazymatch x with
              | context [match _ with _ => _ end] => fail
              | _ => destruct x eqn:?
              end
          end);
  repeat match goal with
         | H : (_, _) = (_, _) |- _ => injection H as ? ?; subst
         end;
  try discriminate;
  cbn [of_result gret graise yield yielded client_state snd fst app];
  try reflexivity.

Ltac refused :=
  eexists; split; [reflexivity|]; split;
  [discriminate | repeat constructor; eauto].

Lemma run_code_returns (sid code language : str) (s : state W) :
  exists (r : SimpleResult) (s' : state W),
    run_code B sid code language s = (Returned r, s').
Proof.
  unfold run_code.
  unfold get_session_info, try_except, bind, remote, ret, attr, raise.
  by_cases; try congruence; do 2 eexists; reflexivity.
Qed.

(** A language that the tool supports is one of the ten keys. *)
Lemma supports_key (language : str) :
  supports I (VStr language) = true ->
  In language (map (fun entry => lit (fst entry)) SUPPORTED_LANGUAGES).
Proof.
  unfold supports, lookup.
  destruct (find (fun entry => str_eqb language (lit (fst entry)))
              SUPPORTED_LANGUAGES) as [entry|] eqn:E; [|discriminate].
  intros _. apply find_some in E as [Hin Heq].
  assert (Hl : language = lit (fst entry)).
  { clear Hin. revert Heq. generalize (lit (fst entry)).
    induction language as [|c l IH]; intros [|d t] H; try discriminate;
      [reflexivity|].
    cbn in H. apply andb_prop in H as [Hc H].
    apply N.eqb_eq in Hc. subst. f_equal. now apply IH. }
  rewrite Hl. now apply in_map with (f := fun entry => lit (fst entry)).
Qed.

(** X21.  The code tool runs code in one of its ten languages only, and
    only through its checks.  Unless there is an API key, the session id
    passes [validate_session_id], the code is not empty and the language is
    a key of [SUPPORTED_LANGUAGES], the tool issues no remote call: it
    answers with texts.  When the checks pass, on strings, it does to the
    remote service what [run_code] of the client does with that session,
    that code and that language; the code itself is not inspected. *)
Theorem code_tool_checks_first (credentials tool_parameters : dict)
    (execution_time : QArith_base.Q) (w : W) :
  let session_id := param "session_id" (VStr []) tool_parameters in
  let language := param "language" (VStr (lit "python")) tool_parameters in
  let code := param "code" (VStr []) tool_parameters in
  (truthy (param "api_key" VNone credentials)
   && validate_session_id unicode_isalnum session_id
   && truthy code && supports I language = false ->
   exists messages : list ToolInvokeMessage,
     invoke (_invoke B I unicode_isalnum run_code_untyped credentials
               tool_parameters execution_time) w
     = (Returned tt, mkProgress messages (mkState w []))
     /\ messages <> []
     /\ Forall (fun m => exists text : str, m = text_message text) messages)
  /\ (forall sid c l : str,
        truthy (param "api_key" VNone credentials) = true ->
        session_id = VStr sid ->
        validate_session_id unicode_isalnum (VStr sid) = true ->
        code = VStr c -> c <> [] ->
        language = VStr l -> supports I (VStr l) = true ->
        In l (map (fun entry => lit (fst entry)) SUPPORTED_LANGUAGES)
        /\ client_state
             (snd (invoke (_invoke B I unicode_isalnum run_code_untyped
                             credentials tool_parameters execution_time) w))
           = snd (run (run_code B sid c l) w)).
Proof.
  intros session_id language code.
  assert (Hsid : truthy session_id = false ->
                 validate_session_id unicode_isalnum session_id = false).
  { unfold validate_session_id. intros E. rewrite E. reflexivity. }
  split.
  - intros H.
    unfold invoke, _invoke, gtry, gbind, get_agentbay_client.
    fold session_id language code.
    destruct (len I code) as [e|n]; [refused|].
    cbn [of_result gret].
    destruct (truthy session_id) eqn:E1; cbn [negb]; [|refused].
    destruct (validate_session_id unicode_isalnum session_id) eqn:E2;
      cbn [negb]; [|refused].
    destruct (truthy code) eqn:E3; cbn [negb]; [|refused].
    unfold supports in H.
    destruct (lookup I SUPPORTED_LANGUAGES language) as [e|[name|]];
      cbn [of_result gret graise]; [refused| |refused].
    rewrite !andb_true_r in H. rewrite H. cbn [negb]. refused.
  - intros sid c l Hkey Es Hvs Ec Hne El Hl.
    split; [now apply supports_key|].
    assert (Tsid : truthy (VStr sid) = true).
    { destruct (truthy (VStr sid)) eqn:E; [reflexivity|].
      unfold validate_session_id in Hvs. rewrite E in Hvs. discriminate. }
    assert (Tc : truthy (VStr c) = true) by (now destruct c).
    unfold invoke, _invoke, gtry, gbind, get_agentbay_client, call_client.
    fold session_id language code. rewrite Es, Ec, El, Tsid, Hvs, Tc, Hkey.
    cbn [len of_result gret negb].
    unfold supports in Hl.
    destruct (lookup I SUPPORTED_LANGUAGES (VStr l)) as [e|[name|]];
      try discriminate.
    cbn [of_result gret yield yielded client_state app client_run_code].
    unfold run.
    destruct (run_code_returns sid c l (mkState w [])) as (r & s' & ->).
    cbn [snd]. tail.
Qed.

End CodeExecuteToolProofs.

Section SessionDeleteToolProofs.
Import Py Client ClientSpec Dyn Tools Validators SessionDeleteTool.
Variable W : Type.
Variable B : Backend W.
Variable I : interpreter.
Variable unicode_isalnum : codepoint -> bool.
Variable delete_session_untyped : pyval -> pyval -> M W SimpleResult.

Ltac by_cases :=
  repeat (cbn -[lit truthy];
          match goal with
          | |- context [B ?c ?w0] =>
              lazymatch w0 with
              | context [B] => fail
              | _ => destruct (B c w0) as [[?|?] ?] eqn:?
              end
          | |- context [match ?x with _ => _ end] =>
              lazymatch x with
              | context [match _ with _ => _ end] => fail
              | _ => destruct x eqn:?
              end
          end).

(** What [delete_session] comes to: it returns, and a success names the
    session and says that it is deleted. *)
Lemma delete_session_returns (sid : str) (sync_context : bool) (s : state W) :
  exists (r : SimpleResult) (s' : state W),
    delete_session B sid sync_context s = (Returned r, s')
    /\ (success r = true ->
        data r = VDict [ ("session_id"%string, VStr sid);
                         ("deleted"%string, VBool true) ]).
Proof.
  unfold delete_session.
  unfold get_session_info, try_except, bind, remote, ret, attr, raise, envelope.
  by_cases; try congruence; do 2 eexists; (split; [reflexivity|]);
    cbn [success data failed];
    first [ discriminate | congruence | intros E; rewrite E; reflexivity ].
Qed.

(** X22.  The deletion tool deletes the session it is given, and no other,
    once the id has passed [validate_session_id].  An id that does not pass
    is answered with one text and no remote call.  With an API key at hand
    and a [sync_context] that is a [bool], the tool announces the deletion,
    does to the remote service what [delete_session] of the client does
    for that session, and tells the result: the failure in one text, the
    success in a text, the JSON data and two variables. *)
Theorem delete_tool_checks_first (credentials tool_parameters : dict) (w : W) :
  let session_id := param "session_id" (VStr []) tool_parameters in
  let sync_context := param "sync_context" (VBool false) tool_parameters in
  (validate_session_id unicode_isalnum session_id = false ->
   exists text : str,
     invoke (_invoke B I unicode_isalnum delete_session_untyped credentials
               tool_parameters) w
     = (Returned tt, mkProgress [text_message text] (mkState w [])))
  /\ (forall (sid : str) (b : bool),
        truthy (param "api_key" VNone credentials) = true ->
        session_id = VStr sid ->
        validate_session_id unicode_isalnum (VStr sid) = true ->
        sync_context = VBool b ->
        exists (r : SimpleResult) (st : state W)
               (messages : list ToolInvokeMessage),
          run (delete_session B sid b) w = (Returned r, st)
          /\ invoke (_invoke B I unicode_isalnum delete_session_untyped
                       credentials tool_parameters) w
             = (Returned tt,
                mkProgress
                  (text_message (preparing_message sid)
                     :: (if b then [text_message synchronizing_message] else [])
                     ++ messages)
                  st)
          /\ (success r = false ->
              messages = [text_message (failure_message (fmt (error r)))])
          /\ (success r = true ->
              messages
              = [ text_message
                    (success_message sid (lit "True")
                       (if b then lit "Yes" else lit "No"));
                  json_message (VDict [ ("session_id"%string, VStr sid);
                                        ("deleted"%string, VBool true) ]);
                  variable_message "deleted_session_id" (VStr sid);
                  variable_message "deletion_success" (VStr (lit "true")) ])).
Proof.
  intros session_id sync_context. split.
  - intros Hv.
    unfold invoke, _invoke, gtry, gbind. fold session_id.
    destruct (truthy session_id); cbn [negb]; [|eexists; reflexivity].
    rewrite Hv. eexists. reflexivity.
  - intros sid b Hkey Es Hvs Eb.
    assert (Tsid : truthy (VStr sid) = true).
    { destruct (truthy (VStr sid)) eqn:E; [reflexivity|].
      unfold validate_session_id in Hvs. rewrite E in Hvs. discriminate. }
    destruct (delete_session_returns sid b (mkState w [])) as (r & st & Hrun & Hdata).
    exists r, st.
    unfold invoke, _invoke, gtry, gbind, get_agentbay_client, call_client.
    fold session_id sync_context. rewrite Es, Eb, Tsid, Hvs, Hkey.
    cbn [negb gret yield yielded client_state app str_of client_delete_session
           truthy].
    destruct b; cbn [gret yield yielded client_state app]; rewrite Hrun;
      (destruct (success r) eqn:Hr;
       [ rewrite (Hdata eq_refl);
         eexists; (split; [exact Hrun|]); (split; [reflexivity|]);
         split; [discriminate | intros _; reflexivity]
       | eexists; (split; [exact Hrun|]); (split; [reflexivity|]);
         split; [reflexivity | discriminate] ]).
Qed.

End SessionDeleteToolProofs.

Section MoreToolWitnesses.
Import Py Client Dyn Tools ToolDoubles.

(** COBOL is not run; Python is handed to the client. *)
Lemma code_tool_checks_first_witness :
  (exists messages : list ToolInvokeMessage,
     invoke (CodeExecuteTool._invoke Doubles.obliging_backend terse_interpreter
               no_letter (fun _ _ _ => refuse) credentials
               [ ("session_id"%string, VStr (lit "sess-0001"));
                 ("code"%string, VStr (lit "DISPLAY 1."));
                 ("language"%string, VStr (lit "cobol")) ]
               (QArith_base.Qmake 0 1)) tt
     = (Returned tt, mkProgress messages (mkState tt []))
     /\ messages <> []
     /\ Forall (fun m => exists text : str, m = text_message text) messages)
  /\ client_state
       (snd (invoke (CodeExecuteTool._invoke Doubles.obliging_backend
                       terse_interpreter no_letter (fun _ _ _ => refuse)
                       credentials
                       [ ("session_id"%string, VStr (lit "sess-0001"));
                         ("code"%string, VStr (lit "print(1)")) ]
                       (QArith_base.Qmake 0 1)) tt))
     = snd (run (run_code Doubles.obliging_backend (lit "sess-0001")
                   (lit "print(1)") (lit "python")) tt).
Proof.
  split.
  - apply (proj1 (@code_tool_checks_first unit Doubles.obliging_backend terse_interpreter
                    no_letter (fun _ _ _ => refuse) credentials
                    [ ("session_id"%string, VStr (lit "sess-0001"));
                      ("code"%string, VStr (lit "DISPLAY 1."));
                      ("language"%string, VStr (lit "cobol")) ]
                    (QArith_base.Qmake 0 1) tt)).
    reflexivity.
  - apply (proj2 (@code_tool_checks_first unit Doubles.obliging_backend terse_interpreter
                    no_letter (fun _ _ _ => refuse) credentials
                    [ ("session_id"%string, VStr (lit "sess-0001"));
                      ("code"%string, VStr (lit "print(1)")) ]
                    (QArith_base.Qmake 0 1) tt)
                 (lit "sess-0001") (lit "print(1)") (lit "python"));
      try reflexivity.
    discriminate.
Defined.

(** An id of three letters deletes nothing; a well-formed one is handed to
    the client. *)
Lemma delete_tool_checks_first_witness :
  (exists text : str,
     invoke (SessionDeleteTool._invoke Doubles.obliging_backend
               terse_interpreter no_letter (fun _ _ => refuse) credentials
               [("session_id"%string, VStr (lit "abc"))]) tt
     = (Returned tt, mkProgress [text_message text] (mkState tt [])))
  /\ exists (r : SimpleResult) (st : state unit)
            (messages : list ToolInvokeMessage),
       run (delete_session Doubles.obliging_backend (lit "sess-0001") true) tt
       = (Returned r, st)
       /\ invoke (SessionDeleteTool._invoke Doubles.obliging_backend
                    terse_interpreter no_letter (fun _ _ => refuse) credentials
                    [ ("session_id"%string, VStr (lit "sess-0001"));
                      ("sync_context"%string, VBool true) ]) tt
          = (Returned tt,
             mkProgress
               (text_message (SessionDeleteTool.preparing_message (lit "sess-0001"))
                  :: [text_message SessionDeleteTool.synchronizing_message]
                  ++ messages)
               st).
Proof.
  split.
  - apply (proj1 (@delete_tool_checks_first unit Doubles.obliging_backend
                    terse_interpreter no_letter (fun _ _ => refuse) credentials
                    [("session_id"%string, VStr (lit "abc"))] tt)).
    reflexivity.
  - destruct (proj2 (@delete_tool_checks_first unit Doubles.obliging_backend
                       terse_interpreter no_letter (fun _ _ => refuse)
                       credentials
                       [ ("session_id"%string, VStr (lit "sess-0001"));
                         ("sync_context"%string, VBool true) ] tt)
                    (lit "sess-0001") true eq_refl eq_refl eq_refl eq_refl)
      as (r & st & messages & Hrun & Hinvoke & _).
    exists r, st, messages. split; [exact Hrun | exact Hinvoke].
Defined.

End MoreToolWitnesses.
